(** * cert-issuer: connectors and signer

    A shallow embedding of [cert_issuer/connectors.py] and
    [cert_issuer/signer.py], and the properties of the provider fallback,
    the broadcast retry loop, the signers and the secret manager life cycle.

    Python functions become functions in a state-and-exception monad over
    an abstract outside world [W] (remote services, the clock, the file
    system).  What the sources call outside themselves is a field of one
    of two classes: [Libs] for the pure routines of pycoin,
    python-bitcoinlib, pyethereum and json, [Outside] for HTTP, the clock,
    the bitcoind node, the file system and the terminal.  Every definition
    and theorem is parametric in them.  Calls to [logging] change no value
    and no control flow and are left out of the embedding. *)

From Stdlib Require Import ZArith List Ascii String Bool Lia Sorted.
From stdpp Require Import base decidable countable gmap strings list.

Import ListNotations.
Local Open Scope string_scope.
Local Open Scope Z_scope.

(* ===================================================================== *)
(** * Python values, exceptions and the effect monad *)
(* ===================================================================== *)

Module Py.

(** Python values as they come out of [json.loads] or out of a provider:
    [None], [bool], [int], [str], [list] and [dict] (insertion ordered,
    one entry per key).  Floats are not represented. *)
#[local] Unset Elimination Schemes.
Inductive pyval : Type :=
| PyNone
| PyBool (b : bool)
| PyInt (n : Z)
| PyStr (s : string)
| PyList (l : list pyval)
| PyDict (d : list (string * pyval)).

(** Truth value of an object, as tested by [if x:]. *)
Definition truthy (v : pyval) : bool :=
  match v with
  | PyNone => false
  | PyBool b => b
  | PyInt n => negb (n =? 0)
  | PyStr s => negb (String.eqb s "")
  | PyList l => match l with [] => false | _ => true end
  | PyDict d => match d with [] => false | _ => true end
  end.

(** [d.get(key, None)] on a dict. *)
Fixpoint assoc (key : string) (d : list (string * pyval)) : option pyval :=
  match d with
  | [] => None
  | (k, v) :: rest => if String.eqb k key then Some v else assoc key rest
  end.

(** [a == b] on these values: [bool] is a subclass of [int], lists compare
    element by element, dicts compare as mappings. *)
Fixpoint py_eqb (a b : pyval) {struct a} : bool :=
  match a, b with
  | PyNone, PyNone => true
  | PyBool x, PyBool y => Bool.eqb x y
  | PyBool x, PyInt n => (n =? (if x then 1 else 0))
  | PyInt n, PyBool x => (n =? (if x then 1 else 0))
  | PyInt n, PyInt m => (n =? m)
  | PyStr s, PyStr t => String.eqb s t
  | PyList l, PyList l' =>
      (fix go (l : list pyval) (l' : list pyval) {struct l} : bool :=
         match l, l' with
         | [], [] => true
         | x :: l, y :: l' => py_eqb x y && go l l'
         | _, _ => false
         end) l l'
  | PyDict d, PyDict d' =>
      (Nat.eqb (List.length d) (List.length d')) &&
      (fix go (d : list (string * pyval)) {struct d} : bool :=
         match d with
         | [] => true
         | (k, v) :: d =>
             match assoc k d' with
             | Some v' => py_eqb v v'
             | None => false
             end && go d
         end) d
  | _, _ => false
  end.

(** [a != b]. *)
Definition py_neb (a b : pyval) : bool := negb (py_eqb a b).

(** Exceptions.  All of them derive from [Exception], so a handler
    [except Exception as e] catches every one of them. *)
Inductive exn : Type :=
| PyException (msg : string)
| ConnectorError (msg : string)
| BroadcastError (args : list exn_arg)
| UnableToSignTxError (msg : string)
| UnverifiedSignatureError (msg : string)
| UnknownChainError (name : string)
| KeyError (key : string)
| TypeError (msg : string)
| AttributeError (msg : string)
| ValueError (msg : string)
| OSError (msg : string)
| RequestException (msg : string)
| LibraryError (cls msg : string)
with exn_arg : Type :=
| ArgNone
| ArgStr (s : string)
| ArgExn (e : exn).
#[local] Set Elimination Schemes.

(** Result of running a piece of code: it returns, it raises, or it is
    still running when the observer's patience ([fuel]) is over. *)
Inductive result (A : Type) : Type :=
| Returned (a : A)
| Raised (e : exn)
| Running.

Arguments Returned {A} a.
Arguments Raised {A} e.
Arguments Running {A}.

Definition M (W A : Type) : Type := W -> result A * W.

Definition ret {W A} (a : A) : M W A := fun w => (Returned a, w).

Definition raise {W A} (e : exn) : M W A := fun w => (Raised e, w).

Definition bind {W A B} (m : M W A) (k : A -> M W B) : M W B :=
  fun w =>
    match m w with
    | (Returned a, w') => k a w'
    | (Raised e, w') => (Raised e, w')
    | (Running, w') => (Running, w')
    end.

(** [try: body / except Exception as e: handler e]. *)
Definition try_except {W A} (body : M W A) (handler : exn -> M W A) : M W A :=
  fun w =>
    match body w with
    | (Returned a, w') => (Returned a, w')
    | (Raised e, w') => handler e w'
    | (Running, w') => (Running, w')
    end.

(** A pure library call that may raise. *)
Definition lift {W A} (r : result A) : M W A := fun w => (r, w).

(** A change of the world that returns nothing. *)
Definition effect {W} (f : W -> W) : M W unit := fun w => (Returned tt, f w).

End Py.

Export Py.

Declare Scope py_scope.
Delimit Scope py_scope with py.
Notation "'let*' x ':=' m 'in' k" := (bind m (fun x => k))
  (at level 10, x name, m at level 100, k at level 200) : py_scope.
Notation "m1 ';;' m2" := (bind m1 (fun _ => m2))
  (at level 100, m2 at level 200, right associativity) : py_scope.
Local Open Scope py_scope.

(* ===================================================================== *)
(** * Data model *)
(* ===================================================================== *)

(** The members of [cert_schema.Chain] that the sources name. *)
Inductive Chain : Type :=
| bitcoin_mainnet
| bitcoin_testnet
| mockchain
| ethereum_mainnet
| ethereum_ropsten.

Inductive BlockchainType : Type :=
| bitcoin
| ethereum
| mock.

Definition blockchain_type (c : Chain) : BlockchainType :=
  match c with
  | bitcoin_mainnet | bitcoin_testnet => bitcoin
  | ethereum_mainnet | ethereum_ropsten => ethereum
  | mockchain => mock
  end.

Definition external_display_value (c : Chain) : string :=
  match c with
  | bitcoin_mainnet => "bitcoinMainnet"
  | bitcoin_testnet => "bitcoinTestnet"
  | mockchain => "mockchain"
  | ethereum_mainnet => "ethereumMainnet"
  | ethereum_ropsten => "ethereumRopsten"
  end.

Definition chain_name (c : Chain) : string :=
  match c with
  | bitcoin_mainnet => "bitcoin_mainnet"
  | bitcoin_testnet => "bitcoin_testnet"
  | mockchain => "mockchain"
  | ethereum_mainnet => "ethereum_mainnet"
  | ethereum_ropsten => "ethereum_ropsten"
  end.

#[global] Instance Chain_eq_dec : EqDecision Chain.
Proof. solve_decision. Defined.

Definition Chain_to_nat (c : Chain) : nat :=
  match c with
  | bitcoin_mainnet => 0
  | bitcoin_testnet => 1
  | mockchain => 2
  | ethereum_mainnet => 3
  | ethereum_ropsten => 4
  end.

Definition Chain_of_nat (n : nat) : option Chain :=
  match n with
  | 0%nat => Some bitcoin_mainnet
  | 1%nat => Some bitcoin_testnet
  | 2%nat => Some mockchain
  | 3%nat => Some ethereum_mainnet
  | 4%nat => Some ethereum_ropsten
  | _ => None
  end.

#[global] Instance Chain_countable : Countable Chain.
Proof.
  apply (inj_countable Chain_to_nat Chain_of_nat).
  intros []; reflexivity.
Defined.

Definition bytes : Type := list Byte.byte.

(** [pycoin.tx.Spendable]. *)
Record Spendable : Type := mkSpendable {
  coin_value : Z;
  spendable_script : bytes;
  tx_hash : bytes;
  tx_out_index : Z
}.

(** [pycoin.tx.TxIn], [TxOut] and [Tx]. *)
Record TxIn : Type := mkTxIn {
  previous_hash : bytes;
  previous_index : Z;
  script : bytes;
  sequence : Z
}.

Record TxOut : Type := mkTxOut {
  out_coin_value : Z;
  out_script : bytes
}.

Record Tx : Type := mkTx {
  version : Z;
  txs_in : list TxIn;
  txs_out : list TxOut;
  lock_time : Z
}.

(** An HTTP response of [requests]: [response.json()] raises when the body
    is not JSON. *)
Record response : Type := mkResponse {
  status_code : Z;
  text : string;
  body_json : option pyval
}.

(** The payload of [requests.post]: [data={...}] or [json={...}]. *)
Inductive post_body : Type :=
| FormData (fields : list (string * string))
| JsonBody (fields : list (string * string)).

(** An entry of [bitcoin.rpc.Proxy().listunspent]. *)
Record unspent : Type := mkUnspent {
  amount : option Z;
  outpoint : option (bytes * Z);
  scriptPubKey : bytes
}.

(** [ethereum.transactions.Transaction]; [v], [r], [s] are zero until the
    transaction is signed. *)
Record EthTransaction : Type := mkEthTransaction {
  nonce : Z;
  gasprice : Z;
  startgas : Z;
  to : bytes;
  value : Z;
  data : bytes;
  sig_v : Z;
  sig_r : Z;
  sig_s : Z
}.

(** [bitcoin.signmessage.BitcoinMessage(message)]. *)
Record BitcoinMessage : Type := mkBitcoinMessage {
  message : string;
  magic : string
}.

Definition new_BitcoinMessage (message : string) : BitcoinMessage :=
  mkBitcoinMessage message ("Bitcoin Signed Message:" +:+ String "010"%char "").

(** Pure routines of the libraries, and [helpers.to_pycoin_chain], which
    is part of the package but not of the two modules embedded here. *)
Class Libs : Type := {
  (** [int(s)] and [int(s, 0)] on a [str]; [None] when Python raises
      [ValueError]. *)
  int_of_str : string -> option Z;
  int_of_str_base0 : string -> option Z;
  (** [pycoin]: [Tx.stream], [Tx.as_hex], [b2h], [b2h_rev]. *)
  tx_stream : Tx -> bytes;
  tx_as_hex : Tx -> string;
  b2h : bytes -> string;
  b2h_rev : bytes -> string;
  (** [helpers.to_pycoin_chain]. *)
  to_pycoin_chain : Chain -> result string;
  (** [str.strip], [os.path.join], [json.loads]. *)
  py_strip : string -> string;
  os_path_join : string -> string -> string;
  json_loads : string -> result pyval;
  (** [cert_schema.chain_to_bitcoin_network] and pycoin's
      [wif_prefix_for_netcode], [wif_to_secret_exponent],
      [build_hash160_lookup] and [Tx.sign].  The key handed to a signer
      is [None] while the secret manager holds none. *)
  chain_to_bitcoin_network : Chain -> result string;
  wif_prefix_for_netcode : string -> result bytes;
  wif_to_secret_exponent : option string -> bytes -> result Z;
  hash160_lookup : Type;
  build_hash160_lookup : list Z -> hash160_lookup;
  tx_sign : Tx -> hash160_lookup -> result Tx;
  (** python-bitcoinlib: [SignMessage(CBitcoinSecret(wif), message)]
      decoded as UTF-8, and [VerifyMessage]. *)
  SignMessage : option string -> BitcoinMessage -> result string;
  VerifyMessage : string -> BitcoinMessage -> pyval -> result bool;
  (** pyethereum: [Transaction.sign(key, network_id)], [rlp.encode],
      [encode_hex]. *)
  eth_sign : EthTransaction -> option string -> option Z -> result EthTransaction;
  (** The same [Transaction.sign] handed a pycoin lookup as its key, which
      is what a bitcoin signer does with an ethereum transaction. *)
  eth_sign_lookup : EthTransaction -> hash160_lookup -> result EthTransaction;
  rlp_encode : EthTransaction -> result bytes;
  encode_hex : bytes -> result string
}.

(** The outside world: HTTP, the clock, the local bitcoind node, the file
    system and the terminal. *)
Class Outside (W : Type) : Type := {
  requests_get : string -> M W response;
  requests_post : string -> post_body -> M W response;
  time_sleep : Z -> W -> W;
  (** [bitcoin.rpc.Proxy().sendrawtransaction] applied to the transaction
      deserialised from its hex form, and [listunspent(addrs=[address])]. *)
  rpc_sendrawtransaction : string -> M W bytes;
  rpc_listunspent : string -> M W (list unspent);
  (** [os.path.exists(path)], [open(path).read()], [print(line)]. *)
  os_path_exists : string -> M W bool;
  read_file : string -> M W string;
  print : string -> W -> W
}.

(** [response.json()]. *)
Definition response_json {W} (r : response) : M W pyval :=
  match body_json r with
  | Some v => ret v
  | None => raise (ValueError "No JSON object could be decoded")
  end.

(** [v.get(key, None)]: defined on dicts only. *)
Definition py_get {W} (v : pyval) (key : string) : M W pyval :=
  match v with
  | PyDict d => ret (match assoc key d with Some x => x | None => PyNone end)
  | _ => raise (AttributeError "get")
  end.

(** [type(v).__name__]. *)
Definition py_type_name (v : pyval) : string :=
  match v with
  | PyNone => "NoneType"
  | PyBool _ => "bool"
  | PyInt _ => "int"
  | PyStr _ => "str"
  | PyList _ => "list"
  | PyDict _ => "dict"
  end.

(** The [AttributeError] of [v.name] for an object without that
    attribute. *)
Definition missing_attribute (type_name name : string) : exn :=
  AttributeError
    ((("'" +:+ type_name) +:+ "' object has no attribute '") +:+ (name +:+ "'")).

(** [int(v)]. *)
Definition py_int `{Libs} {W} (v : pyval) : M W Z :=
  match v with
  | PyBool b => ret (if b then 1 else 0)
  | PyInt n => ret n
  | PyStr s =>
      match int_of_str s with
      | Some n => ret n
      | None => raise (ValueError "invalid literal for int()")
      end
  | _ => raise (TypeError "int() argument must be a string or a number")
  end.

(** [int(v, 0)]. *)
Definition py_int_base0 `{Libs} {W} (v : pyval) : M W Z :=
  match v with
  | PyStr s =>
      match int_of_str_base0 s with
      | Some n => ret n
      | None => raise (ValueError "invalid literal for int()")
      end
  | _ => raise (TypeError "int() can't convert non-string with explicit base")
  end.

(* ===================================================================== *)
(** * Python builtins used by the connectors *)
(* ===================================================================== *)

(** [hash(n)] of an [int] in CPython on a 64-bit build: the magnitude is
    reduced modulo the Mersenne prime [sys.hash_info.modulus], the sign is
    kept, and [-1] is replaced by [-2]. *)
Definition hash_modulus : Z := 2 ^ 61 - 1.

Definition py_hash (n : Z) : Z :=
  let h := Z.sgn n * (Z.abs n mod hash_modulus) in
  if h =? -1 then -2 else h.

(** [sorted(l, key=key)]: a stable sort, ascending in the key. *)
Fixpoint insert_by {A : Type} (key : A -> Z) (x : A) (l : list A) : list A :=
  match l with
  | [] => [x]
  | y :: l' => if key x <=? key y then x :: y :: l' else y :: insert_by key x l'
  end.

Definition sorted {A : Type} (key : A -> Z) (l : list A) : list A :=
  fold_right (insert_by key) [] l.

(** [l.append(x)]. *)
Definition py_append {A : Type} (l : list A) (x : A) : list A := (l ++ [x])%list.

(** The order [sorted] works with. *)
Definition key_le {A : Type} (key : A -> Z) (a b : A) : Prop := key a <= key b.

(** [sum(...)] over integers. *)
Definition py_sum (l : list Z) : Z := fold_left Z.add l 0.

(* ===================================================================== *)
(** * connectors.py *)
(* ===================================================================== *)

Definition BROADCAST_RETRY_INTERVAL : Z := 30.

Definition MAX_BROADCAST_ATTEMPTS : nat := 3.

(** [to_hex(transaction)]. *)
Definition to_hex `{Libs} (transaction : Tx) : string :=
  let s := tx_stream transaction in
  let tx_as_hex := b2h s in
  tx_as_hex.

(** [if api_token:] on a token that is [None] or a [str]. *)
Definition token_truthy (api_token : option string) : bool :=
  match api_token with
  | Some s => negb (String.eqb s "")
  | None => false
  end.

(** ['&apikey=%s' % api_token]. *)
Definition apikey_param (api_token : option string) : string :=
  "&apikey=" +:+ match api_token with Some s => s | None => "None" end.

Module EtherscanBroadcaster.
Section Methods.
Context `{Libs} {W : Type} `{Outside W}.

Definition broadcast_tx (base_url : string) (tx : string)
    (api_token : option string) : M W pyval :=
  let tx_hex := tx in
  let broadcast_url := base_url +:+ "?module=proxy&action=eth_sendRawTransaction" in
  (* the formatted parameter is computed and dropped *)
  let _ := if token_truthy api_token then apikey_param api_token else "" in
  let* response := requests_post broadcast_url (FormData [("hex", tx_hex)]) in
  if status_code response =? 200 then
    let* j := response_json response in
    let* tx_id := py_get j "result" in
    ret tx_id
  else raise (BroadcastError [ArgStr (text response)]).

Definition get_balance (base_url : string) (address : string)
    (api_token : option string) : M W Z :=
  let broadcast_url := base_url +:+ "?module=account&action=balance" in
  let broadcast_url := broadcast_url +:+ ("&address=" +:+ address) in
  let broadcast_url := broadcast_url +:+ "&tag=latest" in
  let _ := if token_truthy api_token then apikey_param api_token else "" in
  let* response := requests_get broadcast_url in
  if status_code response =? 200 then
    let* j := response_json response in
    let* r := py_get j "result" in
    let* balance := py_int r in
    ret balance
  else raise (BroadcastError [ArgStr (text response)]).

Definition get_address_nonce (base_url : string) (address : string)
    (api_token : option string) : M W Z :=
  let broadcast_url := base_url +:+ "?module=proxy&action=eth_getTransactionCount" in
  let broadcast_url := broadcast_url +:+ ("&address=" +:+ address) in
  let broadcast_url := broadcast_url +:+ "&tag=latest" in
  let _ := if token_truthy api_token then apikey_param api_token else "" in
  let* response := requests_get broadcast_url in
  if status_code response =? 200 then
    let* j := response_json response in
    let* r := py_get j "result" in
    let* nonce := py_int_base0 r in
    ret nonce
  else
    raise (BroadcastError
             [ArgStr "Error checking the nonce through the Etherscan API. Error msg: %s";
              ArgStr (text response)]).

End Methods.
End EtherscanBroadcaster.

Module BlockExplorerBroadcaster.
Section Methods.
Context `{Libs} {W : Type} `{Outside W}.

Definition broadcast_tx (base_url : string) (tx : Tx) : M W pyval :=
  let hextx := to_hex tx in
  let broadcast_url := base_url +:+ "/tx/send" in
  let* response := requests_post broadcast_url (JsonBody [("rawtx", hextx)]) in
  if status_code response =? 200 then
    let* j := response_json response in
    let* tx_id := py_get j "txid" in
    ret tx_id
  else raise (BroadcastError [ArgStr (text response)]).

End Methods.
End BlockExplorerBroadcaster.

Module BlockcypherBroadcaster.
Section Methods.
Context `{Libs} {W : Type} `{Outside W}.

Definition broadcast_tx (base_url api_token : string) (tx : Tx) : M W pyval :=
  let hextx := to_hex tx in
  let broadcast_url := (base_url +:+ "/txs/push?token=") +:+ api_token in
  let* response := requests_post broadcast_url (JsonBody [("tx", hextx)]) in
  if status_code response =? 200 then
    let* j := response_json response in
    let* tx_id := py_get j "txid" in
    ret tx_id
  else raise (BroadcastError [ArgStr (text response)]).

End Methods.
End BlockcypherBroadcaster.

Module BlockrIOBroadcaster.
Section Methods.
Context `{Libs} {W : Type} `{Outside W}.

Definition broadcast_tx (base_url : string) (tx : Tx) : M W pyval :=
  let hextx := to_hex tx in
  let url := base_url +:+ "/tx/push" in
  let* response := requests_post url (JsonBody [("hex", hextx)]) in
  if status_code response =? 200 then
    let* j := response_json response in
    let* tx_id := py_get j "data" in
    ret tx_id
  else raise (BroadcastError [ArgStr (text response)]).

End Methods.
End BlockrIOBroadcaster.

Module BitcoindConnector.
Section Methods.
Context `{Libs} {W : Type} `{Outside W}.

Definition broadcast_tx (netcode : string) (transaction : Tx) : M W pyval :=
  let as_hex := tx_as_hex transaction in
  let* tx_id := rpc_sendrawtransaction as_hex in
  (* reverse endianness for bitcoind *)
  ret (PyStr (b2h_rev tx_id)).

(** The body of the loop that converts one entry to a [Spendable]. *)
Definition to_spendable (u : unspent) : result Spendable :=
  let coin_value := match amount u with Some a => a | None => 0 end in
  match outpoint u with
  | Some (previous_hash, previous_index) =>
      Returned (mkSpendable coin_value (scriptPubKey u) previous_hash previous_index)
  | None => Raised (AttributeError "'NoneType' object has no attribute 'hash'")
  end.

Fixpoint to_spendables (unspent_outputs : list unspent) (spendables : list Spendable)
    : result (list Spendable) :=
  match unspent_outputs with
  | [] => Returned spendables
  | u :: rest =>
      match to_spendable u with
      | Returned s => to_spendables rest (py_append spendables s)
      | Raised e => Raised e
      | Running => Running
      end
  end.

Definition spendables_for_address (netcode : string) (address : string)
    : M W (list Spendable) :=
  let* unspent_outputs := rpc_listunspent address in
  lift (to_spendables unspent_outputs []).

End Methods.
End BitcoindConnector.

(** ** Providers *)

(** Arguments of a call [m.broadcast_tx(...)]: the bitcoin path passes the
    transaction, the ethereum path the raw transaction in hex and the
    api key. *)
Inductive broadcast_args : Type :=
| OneArg (tx : Tx)
| TwoArgs (tx : string) (api_key : option string).

(** Any other provider object (the services of [pycoin.services], a test
    double): the methods it has, by attribute name. *)
Record service (W : Type) : Type := mkService {
  svc_name : string;
  svc_broadcast_tx : option (broadcast_args -> M W pyval);
  svc_spendables_for_address : option (string -> M W (list Spendable));
  svc_get_balance : option (string -> option string -> M W Z);
  svc_get_address_nonce : option (string -> option string -> M W Z)
}.

Arguments mkService {W}.
Arguments svc_name {W}.
Arguments svc_broadcast_tx {W}.
Arguments svc_spendables_for_address {W}.
Arguments svc_get_balance {W}.
Arguments svc_get_address_nonce {W}.

(** The objects found in the registry. *)
Inductive provider (W : Type) : Type :=
| EtherscanBroadcaster (base_url : string)
| BlockExplorerBroadcaster (base_url : string)
| BlockcypherBroadcaster (base_url api_token : string)
| BlockrIOBroadcaster (base_url : string)
| BitcoindConnector (netcode : string)
| Service (s : service W).

Arguments EtherscanBroadcaster {W}.
Arguments BlockExplorerBroadcaster {W}.
Arguments BlockcypherBroadcaster {W}.
Arguments BlockrIOBroadcaster {W}.
Arguments BitcoindConnector {W}.
Arguments Service {W}.

Section Dispatch.
Context `{Libs} {W : Type} `{Outside W}.

(** [isinstance(m, BitcoindConnector)]. *)
Definition isinstance_BitcoindConnector (m : provider W) : bool :=
  match m with
  | BitcoindConnector _ => true
  | _ => false
  end.

Definition wrong_arity {A} : M W A :=
  raise (TypeError "wrong number of positional arguments").

Definition no_attribute {A} (name : string) : M W A :=
  raise (AttributeError name).

(** [getattr(m, 'broadcast_tx', None)]: the bound method, when there is one.
    A method called with the wrong number of arguments raises [TypeError]. *)
Definition getattr_broadcast_tx (m : provider W)
    : option (broadcast_args -> M W pyval) :=
  match m with
  | EtherscanBroadcaster base_url =>
      Some (fun args =>
              match args with
              | TwoArgs tx api_token => EtherscanBroadcaster.broadcast_tx base_url tx api_token
              | OneArg _ => wrong_arity
              end)
  | BlockExplorerBroadcaster base_url =>
      Some (fun args =>
              match args with
              | OneArg tx => BlockExplorerBroadcaster.broadcast_tx base_url tx
              | TwoArgs _ _ => wrong_arity
              end)
  | BlockcypherBroadcaster base_url api_token =>
      Some (fun args =>
              match args with
              | OneArg tx => BlockcypherBroadcaster.broadcast_tx base_url api_token tx
              | TwoArgs _ _ => wrong_arity
              end)
  | BlockrIOBroadcaster base_url =>
      Some (fun args =>
              match args with
              | OneArg tx => BlockrIOBroadcaster.broadcast_tx base_url tx
              | TwoArgs _ _ => wrong_arity
              end)
  | BitcoindConnector netcode =>
      Some (fun args =>
              match args with
              | OneArg tx => BitcoindConnector.broadcast_tx netcode tx
              | TwoArgs _ _ => wrong_arity
              end)
  | Service s => svc_broadcast_tx s
  end.

(** [getattr(m, 'spendables_for_address', None)]. *)
Definition getattr_spendables_for_address (m : provider W)
    : option (string -> M W (list Spendable)) :=
  match m with
  | BitcoindConnector netcode => Some (BitcoindConnector.spendables_for_address netcode)
  | Service s => svc_spendables_for_address s
  | _ => None
  end.

(** [m.get_balance(address, api_key)]. *)
Definition call_get_balance (m : provider W) (address : string)
    (api_key : option string) : M W Z :=
  match m with
  | EtherscanBroadcaster base_url => EtherscanBroadcaster.get_balance base_url address api_key
  | Service s =>
      match svc_get_balance s with
      | Some f => f address api_key
      | None => no_attribute "get_balance"
      end
  | _ => no_attribute "get_balance"
  end.

(** [m.get_address_nonce(address, api_key)]. *)
Definition call_get_address_nonce (m : provider W) (address : string)
    (api_key : option string) : M W Z :=
  match m with
  | EtherscanBroadcaster base_url =>
      EtherscanBroadcaster.get_address_nonce base_url address api_key
  | Service s =>
      match svc_get_address_nonce s with
      | Some f => f address api_key
      | None => no_attribute "get_address_nonce"
      end
  | _ => no_attribute "get_address_nonce"
  end.

(** [m.broadcast_tx(tx, api_key)]. *)
Definition call_broadcast_tx (m : provider W) (tx : string)
    (api_key : option string) : M W pyval :=
  match getattr_broadcast_tx m with
  | Some f => f (TwoArgs tx api_key)
  | None => no_attribute "broadcast_tx"
  end.

(** [pycoin.services.providers.service_provider_methods(name, providers)]:
    the methods called [name] of the providers that have one, in order. *)
Definition service_provider_methods {A : Type} (method_name : provider W -> option A)
    (service_providers : list (provider W)) : list A :=
  omap method_name service_providers.

(** The module-level dict [connectors], and [get_providers_for_chain]. *)
Definition get_providers_for_chain (connectors : gmap Chain (list (provider W)))
    (chain : Chain) (bitcoind : bool) : result (list (provider W)) :=
  if bitcoind then
    match to_pycoin_chain chain with
    | Returned netcode => Returned [BitcoindConnector netcode]
    | Raised e => Raised e
    | Running => Running
    end
  else
    match connectors !! chain with
    | Some provider_list => Returned provider_list
    | None => Raised (KeyError (chain_name chain))
    end.

(** The registry as the module builds it when it is imported.  The lists
    that [providers_for_config_string] returns and the [InsightProvider]
    and [ChainSoProvider] objects come from pycoin. *)
Definition initial_connectors
    (btc_config_providers xtn_config_providers : list (provider W))
    (insight_btc chainso_btc chainso_xtn : provider W)
    : gmap Chain (list (provider W)) :=
  let connectors : gmap Chain (list (provider W)) := ∅ in
  let provider_list := btc_config_providers in
  let provider_list :=
    py_append provider_list (BlockrIOBroadcaster "https://btc.blockr.io/api/v1") in
  let provider_list :=
    py_append provider_list (BlockExplorerBroadcaster "https://blockexplorer.com/api") in
  let provider_list := py_append provider_list (insight_btc) in
  let provider_list := py_append provider_list (chainso_btc) in
  let connectors := <[bitcoin_mainnet := provider_list]> connectors in
  let xtn_provider_list := xtn_config_providers in
  let xtn_provider_list := py_append xtn_provider_list (chainso_xtn) in
  let xtn_provider_list :=
    py_append xtn_provider_list (BlockrIOBroadcaster "https://tbtc.blockr.io/api/v1") in
  let xtn_provider_list :=
    py_append xtn_provider_list
      (BlockExplorerBroadcaster "https://testnet.blockexplorer.com/api") in
  let connectors := <[bitcoin_testnet := xtn_provider_list]> connectors in
  let eth_provider_list := [EtherscanBroadcaster "https://api.etherscan.io/api"] in
  let connectors := <[ethereum_mainnet := eth_provider_list]> connectors in
  let rop_provider_list := [EtherscanBroadcaster "https://ropsten.etherscan.io/api"] in
  let connectors := <[ethereum_ropsten := rop_provider_list]> connectors in
  connectors.

End Dispatch.

Module EthereumServiceProviderConnector.
Section Methods.
Context `{Libs} {W : Type} `{Outside W}.
Variable connectors : gmap Chain (list (provider W)).

(** The fields set by [__init__]; [local_node] tells whether a local node
    is used instead of the external providers. *)
Record t : Type := mk {
  ethereum_chain : Chain;
  api_key : option string;
  local_node : bool
}.

(** The [for m in ...] loop of [get_balance]. *)
Fixpoint get_balance_loop (self : t) (address : string) (ms : list (provider W))
    : M W Z :=
  match ms with
  | [] => ret 0
  | m :: rest =>
      if isinstance_BitcoindConnector m then get_balance_loop self address rest
      else
        try_except
          (let* balance := call_get_balance m address (api_key self) in
           ret balance)
          (fun e => get_balance_loop self address rest)
  end.

Definition get_balance (self : t) (address : string) : M W Z :=
  let* ms := lift (get_providers_for_chain connectors (ethereum_chain self) (local_node self)) in
  get_balance_loop self address ms.

Fixpoint get_address_nonce_loop (self : t) (address : string) (ms : list (provider W))
    : M W Z :=
  match ms with
  | [] => ret 0
  | m :: rest =>
      try_except
        (let* nonce := call_get_address_nonce m address (api_key self) in
         ret nonce)
        (fun e => get_address_nonce_loop self address rest)
  end.

Definition get_address_nonce (self : t) (address : string) : M W Z :=
  let* ms := lift (get_providers_for_chain connectors (ethereum_chain self) (local_node self)) in
  get_address_nonce_loop self address ms.

Fixpoint broadcast_tx_loop (self : t) (tx : string) (ms : list (provider W))
    : M W pyval :=
  match ms with
  | [] => ret (PyStr "0xfail")
  | m :: rest =>
      try_except
        (let* txid := call_broadcast_tx m tx (api_key self) in
         ret txid)
        (fun e => broadcast_tx_loop self tx rest)
  end.

Definition broadcast_tx (self : t) (tx : string) : M W pyval :=
  let* ms := lift (get_providers_for_chain connectors (ethereum_chain self) (local_node self)) in
  broadcast_tx_loop self tx ms.

End Methods.
End EthereumServiceProviderConnector.

Module BitcoinServiceProviderConnector.
Section Methods.
Context `{Libs} {W : Type} `{Outside W}.
Variable connectors : gmap Chain (list (provider W)).

Record t : Type := mk {
  bitcoin_chain : Chain;
  bitcoind : bool
}.

(** The [for m in service_provider_methods(...)] loop of
    [spendables_for_address]. *)
Fixpoint spendables_loop (bitcoin_address : string)
    (ms : list (string -> M W (list Spendable))) : M W (list Spendable) :=
  match ms with
  | [] => ret []
  | m :: rest =>
      try_except
        (let* spendables := m bitcoin_address in
         ret spendables)
        (fun e => spendables_loop bitcoin_address rest)
  end.

Definition spendables_for_address (self : t) (bitcoin_address : string)
    : M W (list Spendable) :=
  let* ps := lift (get_providers_for_chain connectors (bitcoin_chain self) (bitcoind self)) in
  spendables_loop bitcoin_address
    (service_provider_methods getattr_spendables_for_address ps).

(** Returns the sorted list, or [None]. *)
Definition get_unspent_outputs (self : t) (address : string)
    : M W (option (list Spendable)) :=
  let* spendables := spendables_for_address self address in
  match spendables with
  | _ :: _ => ret (Some (sorted (fun x => py_hash (coin_value x)) spendables))
  | [] => ret None
  end.

Definition get_balance (self : t) (address : string) : M W Z :=
  let* spendables := get_unspent_outputs self address in
  match spendables with
  | None | Some [] => ret 0
  | Some spendables =>
      let balance := py_sum (map coin_value spendables) in
      ret balance
  end.

(** The two local variables of [broadcast_tx_with_chain]. *)
Record locals : Type := mkLocals {
  last_exception : option exn;
  final_tx_id : pyval
}.

(** The [try ... except] statement run for one [method_provider]. *)
Definition broadcast_try (tx : Tx) (method_provider : broadcast_args -> M W pyval)
    (l : locals) : M W locals :=
  try_except
    (let* tx_id := method_provider (OneArg tx) in
     if truthy tx_id then
       if truthy (final_tx_id l) && py_neb (final_tx_id l) tx_id then
         raise (PyException "Got conflicting tx_ids.")
       else ret (mkLocals (last_exception l) tx_id)
     else ret l)
    (fun e => ret (mkLocals (Some e) (final_tx_id l))).

(** The inner loop, over the providers that can broadcast. *)
Fixpoint broadcast_providers (tx : Tx)
    (method_providers : list (broadcast_args -> M W pyval)) (l : locals) : M W locals :=
  match method_providers with
  | [] => ret l
  | method_provider :: rest =>
      let* l' := broadcast_try tx method_provider l in
      broadcast_providers tx rest l'
  end.

(** [BroadcastError(last_exception)]. *)
Definition broadcast_error (last_exception : option exn) : exn :=
  BroadcastError [match last_exception with Some e => ArgExn e | None => ArgNone end].

(** The outer loop, with [attempts] iterations left. *)
Fixpoint broadcast_attempts (attempts : nat) (tx : Tx) (bitcoin_chain : Chain)
    (bitcoind : bool) (l : locals) : M W pyval :=
  match attempts with
  | O => raise (broadcast_error (last_exception l))
  | S attempts' =>
      let* ps := lift (get_providers_for_chain connectors bitcoin_chain bitcoind) in
      let* l' := broadcast_providers tx (service_provider_methods getattr_broadcast_tx ps) l in
      (* At least 1 provider succeeded, so return *)
      if truthy (final_tx_id l') then ret (final_tx_id l')
      else
        effect (time_sleep BROADCAST_RETRY_INTERVAL) ;;
        broadcast_attempts attempts' tx bitcoin_chain bitcoind l'
  end.

Definition broadcast_tx_with_chain (tx : Tx) (bitcoin_chain : Chain) (bitcoind : bool)
    : M W pyval :=
  let last_exception := None in
  let final_tx_id := PyNone in
  broadcast_attempts MAX_BROADCAST_ATTEMPTS tx bitcoin_chain bitcoind
    (mkLocals last_exception final_tx_id).

Definition broadcast_tx (self : t) (tx : Tx) : M W pyval :=
  broadcast_tx_with_chain tx (bitcoin_chain self) (bitcoind self).

End Methods.
End BitcoinServiceProviderConnector.

(* ===================================================================== *)
(** * signer.py *)
(* ===================================================================== *)

Section SignerHelpers.
Context `{Libs} {W : Type} `{Outside W}.

Definition import_key (secrets_file_path : string) : M W string :=
  let* content := read_file secrets_file_path in
  let key := py_strip content in
  ret key.

(** Pings Google to see if the internet is on. *)
Definition internet_on : M W bool :=
  try_except
    (requests_get "http://google.com" ;; ret true)
    (fun e =>
       match e with
       | RequestException _ => ret false
       | _ => raise e
       end).

(** The two polling loops.  [fuel] bounds the number of polls an observer
    waits for; a loop that is still polling then is [Running]. *)
Fixpoint check_internet_off (fuel : nat) (secrets_file_path : string) : M W bool :=
  match fuel with
  | O => fun w => (Running, w)
  | S fuel' =>
      let* on := internet_on in
      let* ready := if negb on then os_path_exists secrets_file_path else ret false in
      if ready then ret true
      else
        effect (print "Turn off your internet and plug in your USB to continue...") ;;
        effect (time_sleep 10) ;;
        check_internet_off fuel' secrets_file_path
  end.

Fixpoint check_internet_on (fuel : nat) (secrets_file_path : string) : M W bool :=
  match fuel with
  | O => fun w => (Running, w)
  | S fuel' =>
      let* on := internet_on in
      let* ready :=
        if on then (let* present := os_path_exists secrets_file_path in ret (negb present))
        else ret false in
      if ready then ret true
      else
        effect (print "Turn on your internet and unplug your USB to continue...") ;;
        effect (time_sleep 10) ;;
        check_internet_on fuel' secrets_file_path
  end.

End SignerHelpers.

(** What a caller may hand to [sign_transaction]. *)
Inductive signable : Type :=
| PycoinTx (t : Tx)
| EthereumTransaction (t : EthTransaction)
| OtherObject (v : pyval).

(** What [sign_transaction] may return: the signed pycoin transaction, the
    raw ethereum transaction in hex, or the dict
    [{'error': True, 'message': msg}]. *)
Inductive signed : Type :=
| SignedTx (t : Tx)
| RawTxHex (raw_tx_hex : string)
| ErrorDict (msg : exn).

Module BitcoinSigner.
Section Methods.
Context `{Libs} {W : Type}.

Record t : Type := mk {
  bitcoin_chain : Chain;
  allowable_wif_prefixes : bytes
}.

Definition init (bitcoin_chain : Chain) : result t :=
  match chain_to_bitcoin_network bitcoin_chain with
  | Returned network =>
      match wif_prefix_for_netcode network with
      | Returned prefixes => Returned (mk bitcoin_chain prefixes)
      | Raised e => Raised e
      | Running => Running
      end
  | Raised e => Raised e
  | Running => Running
  end.

Definition sign_message (self : t) (wif : option string) (message_to_sign : string)
    : M W string :=
  let message := new_BitcoinMessage message_to_sign in
  let* signature := lift (SignMessage wif message) in
  ret signature.

(** The loop that checks that the inputs are signed. *)
Fixpoint check_inputs_signed (inputs : list TxIn) : M W unit :=
  match inputs with
  | [] => ret tt
  | input :: rest =>
      if Nat.eqb (List.length (script input)) 0 then
        raise (UnableToSignTxError "Unable to sign transaction")
      else check_inputs_signed rest
  end.

Definition sign_transaction (self : t) (wif : option string) (transaction_to_sign : signable)
    : M W Tx :=
  let* secret_exponent := lift (wif_to_secret_exponent wif (allowable_wif_prefixes self)) in
  let lookup := build_hash160_lookup [secret_exponent] in
  (* [transaction_to_sign.sign(lookup)] is the method of whatever object is
     handed in; an ethereum transaction that came back from it would have no
     [txs_in] *)
  let* signed_transaction :=
    match transaction_to_sign with
    | PycoinTx tx => lift (tx_sign tx lookup)
    | EthereumTransaction tx =>
        lift (eth_sign_lookup tx lookup) ;;
        raise (missing_attribute "Transaction" "txs_in")
    | OtherObject v => raise (missing_attribute (py_type_name v) "sign")
    end in
  (* Because signing failures silently continue, first check that the inputs are signed *)
  check_inputs_signed (txs_in signed_transaction) ;;
  ret signed_transaction.

End Methods.
End BitcoinSigner.

Module EthereumSigner.
Section Methods.
Context `{Libs} {W : Type}.

Record t : Type := mk {
  ethereum_chain : Chain;
  netcode : option Z
}.

(** Netcode ensures replay protection (see EIP155). *)
Definition init (ethereum_chain : Chain) : t :=
  if String.eqb (external_display_value ethereum_chain) "ethereumMainnet" then
    mk ethereum_chain (Some 1)
  else if String.eqb (external_display_value ethereum_chain) "ethereumRopsten" then
    mk ethereum_chain (Some 3)
  else
    mk ethereum_chain None.

Definition sign_message (self : t) (wif : option string) (message_to_sign : string)
    : M W unit :=
  ret tt.

Definition sign_transaction (self : t) (wif : option string) (transaction_to_sign : signable)
    : M W signed :=
  match transaction_to_sign with
  | EthereumTransaction tx =>
      try_except
        (let* signed_tx := lift (eth_sign tx wif (netcode self)) in
         let* raw_tx := lift (rlp_encode signed_tx) in
         let* raw_tx_hex := lift (encode_hex raw_tx) in
         ret (RawTxHex raw_tx_hex))
        (fun msg => ret (ErrorDict msg))
  | _ => raise (UnableToSignTxError "You are trying to sign a non transaction type")
  end.

End Methods.
End EthereumSigner.

(** The signer object a secret manager holds; [None] on the mock chain. *)
Inductive signer : Type :=
| BitcoinSigner (s : BitcoinSigner.t)
| EthereumSigner (s : EthereumSigner.t).

(** ** Secret managers *)

(** Code that runs with a mutable object of type [S] at hand: the state is
    the object together with the outside world. *)
Definition in_world {S W A : Type} (m : M W A) : M (S * W) A :=
  fun sw =>
    match m (snd sw) with
    | (r, w') => (r, (fst sw, w'))
    end.

Definition get_self {S W : Type} : M (S * W) S :=
  fun sw => (Returned (fst sw), sw).

Definition set_self {S W : Type} (s : S) : M (S * W) unit :=
  fun sw => (Returned tt, (s, snd sw)).

(** The [with mgr as x: body] statement, for a context manager whose
    [__exit__] returns [None]: [__enter__] is run first, and the body runs
    only when it returns; [__exit__] is then run whether the body returns
    or raises, and an exception of the body is raised again after it. *)
Definition with_statement {S A B : Type} (enter : M S A) (exit : M S unit)
    (body : A -> M S B) : M S B :=
  fun s =>
    match enter s with
    | (Returned x, s1) =>
        match body x s1 with
        | (Returned b, s2) =>
            match exit s2 with
            | (Returned _, s3) => (Returned b, s3)
            | (Raised e', s3) => (Raised e', s3)
            | (Running, s3) => (Running, s3)
            end
        | (Raised e, s2) =>
            match exit s2 with
            | (Returned _, s3) => (Raised e, s3)
            | (Raised e', s3) => (Raised e', s3)
            | (Running, s3) => (Running, s3)
            end
        | (Running, s2) => (Running, s2)
        end
    | (Raised e, s1) => (Raised e, s1)
    | (Running, s1) => (Running, s1)
    end.

Module FileSecretManager.
Section Methods.
Context `{Libs} {W : Type} `{Outside W}.

(** The fields set by [SecretManager.__init__] and
    [FileSecretManager.__init__]. *)
Record t : Type := mk {
  signer_ : option signer;
  wif : option string;
  path_to_secret : string;
  safe_mode : bool;
  issuing_address : option string
}.

Definition init (signer : option signer) (path_to_secret : string) (safe_mode : bool)
    (issuing_address : option string) : t :=
  mk signer None path_to_secret safe_mode issuing_address.

(** [self.wif = v]. *)
Definition set_wif (v : option string) : M (t * W) unit :=
  let* self := get_self in
  set_self (mk (signer_ self) v (path_to_secret self) (safe_mode self) (issuing_address self)).

Definition sign_message (message_to_sign : string) : M (t * W) (option string) :=
  let* self := get_self in
  match signer_ self with
  | Some (BitcoinSigner s) =>
      let* sig := BitcoinSigner.sign_message s (wif self) message_to_sign in
      ret (Some sig)
  | Some (EthereumSigner s) =>
      EthereumSigner.sign_message s (wif self) message_to_sign ;;
      ret None
  | None => raise (AttributeError "'NoneType' object has no attribute 'sign_message'")
  end.

Definition sign_transaction (transaction_to_sign : signable) : M (t * W) signed :=
  let* self := get_self in
  match signer_ self with
  | Some (BitcoinSigner s) =>
      let* tx := BitcoinSigner.sign_transaction s (wif self) transaction_to_sign in
      ret (SignedTx tx)
  | Some (EthereumSigner s) =>
      EthereumSigner.sign_transaction s (wif self) transaction_to_sign
  | None => raise (AttributeError "'NoneType' object has no attribute 'sign_transaction'")
  end.

Definition start (fuel : nat) : M (t * W) unit :=
  let* self := get_self in
  (if safe_mode self then
     in_world (check_internet_off fuel (path_to_secret self)) ;; ret tt
   else ret tt) ;;
  let* key := in_world (import_key (path_to_secret self)) in
  set_wif (Some key).

Definition stop (fuel : nat) : M (t * W) unit :=
  set_wif None ;;
  let* self := get_self in
  if safe_mode self then
    in_world (check_internet_on fuel (path_to_secret self)) ;; ret tt
  else ret tt.

End Methods.
End FileSecretManager.

Module FinalizableSigner.
Section Methods.
Context `{Libs} {W : Type} `{Outside W}.

(** [__enter__] starts the secret manager and hands it to the body (the
    manager is the object of the state). *)
Definition enter (fuel : nat) : M (FileSecretManager.t * W) unit :=
  FileSecretManager.start fuel.

Definition exit (fuel : nat) : M (FileSecretManager.t * W) unit :=
  FileSecretManager.stop fuel.

(** [with FinalizableSigner(secret_manager) as signer: body]. *)
Definition with_FinalizableSigner {B : Type} (fuel : nat)
    (body : M (FileSecretManager.t * W) B) : M (FileSecretManager.t * W) B :=
  with_statement (enter fuel) (exit fuel) (fun _ => body).

End Methods.
End FinalizableSigner.

Section SignerFunctions.
Context `{Libs} {W : Type} `{Outside W}.

(** The fields of [app_config] that [initialize_signer] reads. *)
Record app_config : Type := mkAppConfig {
  usb_name : string;
  key_file : string;
  chain : Chain;
  bitcoin_chain_for_pycoin : Chain;
  cfg_safe_mode : bool;
  cfg_issuing_address : option string
}.

Definition initialize_signer (cfg : app_config) : result FileSecretManager.t :=
  let path_to_secret := os_path_join (usb_name cfg) (key_file cfg) in
  let make (signer : option signer) :=
    Returned (FileSecretManager.init signer path_to_secret (cfg_safe_mode cfg)
                (cfg_issuing_address cfg)) in
  match blockchain_type (chain cfg) with
  | bitcoin =>
      match BitcoinSigner.init (bitcoin_chain_for_pycoin cfg) with
      | Returned s => make (Some (BitcoinSigner s))
      | Raised e => Raised e
      | Running => Running
      end
  | ethereum => make (Some (EthereumSigner (EthereumSigner.init (chain cfg))))
  | mock =>
      if decide (chain cfg = mockchain) then make None
      else Raised (UnknownChainError (chain_name (chain cfg)))
  end.

(** Verify message was signed by the address. *)
Definition verify_message (address : string) (message : string) (signature : pyval)
    : M W bool :=
  let bitcoin_message := new_BitcoinMessage message in
  let* verified := lift (VerifyMessage address bitcoin_message signature) in
  ret verified.

(** [v['signature']]. *)
Definition py_getitem (v : pyval) (key : string) : M W pyval :=
  match v with
  | PyDict d =>
      match assoc key d with
      | Some x => ret x
      | None => raise (KeyError key)
      end
  | _ => raise (TypeError "object is not subscriptable by a str")
  end.

(** Raises [UnverifiedSignatureError] if the signature is invalid; returns
    [None] otherwise. *)
Definition verify_signature (uid : string) (signed_cert_file_name : string)
    (issuing_address : string) : M W unit :=
  let* signed_cert := read_file signed_cert_file_name in
  let* signed_cert_json := lift (json_loads signed_cert) in
  let to_verify := uid in
  let* signature := py_getitem signed_cert_json "signature" in
  let* verified := verify_message issuing_address to_verify signature in
  if negb verified then
    let error_message :=
      "There was a problem with the signature for certificate uid=" +:+ uid in
    raise (UnverifiedSignatureError error_message)
  else ret tt.

End SignerFunctions.

(* ===================================================================== *)
(** * Observations on a run *)
(* ===================================================================== *)

Section Observations.
Context {W : Type} `{Outside W}.

(** A computation that raises in whatever state it is started. *)
Definition always_raises {A : Type} (m : M W A) : Prop :=
  forall w, exists e w', m w = (Raised e, w').

(** The calls of a list fail one after the other: the first raises in
    [w], the next raises in the state the first one leaves, and so on. *)
Fixpoint fail_in_turn {A : Type} (calls : list (M W A)) (w : W) : Prop :=
  match calls with
  | [] => True
  | call :: rest => exists e w', call w = (Raised e, w') /\ fail_in_turn rest w'
  end.

(** One pass over the broadcast methods, each called once and in order,
    whatever it answers: the state of the world after the pass, and the
    exception raised last ([last] when none was raised). *)
Fixpoint call_each (tx : Tx) (ms : list (broadcast_args -> M W pyval))
    (last : option exn) (w : W) : option exn * W :=
  match ms with
  | [] => (last, w)
  | m :: rest =>
      match m (OneArg tx) w with
      | (Raised e, w') => call_each tx rest (Some e) w'
      | (_, w') => call_each tx rest last w'
      end
  end.

End Observations.

(** Ascending order of a list of spendables by coin value. *)
Fixpoint ascending (l : list Spendable) : bool :=
  match l with
  | [] => true
  | x :: rest =>
      match rest with
      | [] => true
      | y :: _ => (coin_value x <=? coin_value y) && ascending rest
      end
  end.

(* ===================================================================== *)
(** * A scripted outside world, to run the embedding on concrete inputs *)
(* ===================================================================== *)

Module Demo.

Inductive event : Type :=
| Get (url : string)
| Post (url : string) (body : post_body)
| Slept (seconds : Z)
| Printed (line : string)
| Exists (path : string)
| Read (path : string)
| Called (name : string).

(** The journal of what happened, the files, the answer of the HTTP
    services, and the successive situations of the host (is the network
    reachable, is the key medium plugged in); a sleep moves to the next
    situation. *)
Record world : Type := mkWorld {
  journal : list event;
  files : list (string * string);
  http : string -> result response;
  situations : list (bool * bool)
}.

Definition log (e : event) (w : world) : world :=
  mkWorld (journal w ++ [e]) (files w) (http w) (situations w).

Definition online (w : world) : bool :=
  match situations w with
  | (on, _) :: _ => on
  | [] => true
  end.

Definition plugged (w : world) : bool :=
  match situations w with
  | (_, usb) :: _ => usb
  | [] => false
  end.

Definition next_situation (w : world) : world :=
  mkWorld (journal w) (files w) (http w) (tl (situations w)).

Fixpoint lookup_file (path : string) (fs : list (string * string)) : option string :=
  match fs with
  | [] => None
  | (p, content) :: rest => if String.eqb p path then Some content else lookup_file path rest
  end.

Definition answer (url : string) (w : world) : result response :=
  if online w then http w url else Raised (RequestException "Network is unreachable").

#[global] Instance outside : Outside world := {|
  requests_get := fun url w => (answer url w, log (Get url) w);
  requests_post := fun url body w => (answer url w, log (Post url body) w);
  time_sleep := fun seconds w => next_situation (log (Slept seconds) w);
  rpc_sendrawtransaction := fun _ w => (Raised (LibraryError "JSONRPCError" "no node"), w);
  rpc_listunspent := fun _ w => (Raised (LibraryError "JSONRPCError" "no node"), w);
  os_path_exists := fun path w => (Returned (plugged w), log (Exists path) w);
  read_file := fun path w =>
    (match lookup_file path (files w) with
     | Some content => Returned content
     | None => Raised (OSError "No such file or directory")
     end, log (Read path) w);
  print := fun line w => log (Printed line) w
|}.

(** Stand-ins for the libraries: a transaction is signed by leaving it as
    it is, a signature is valid when it spells the message after the
    address, a document is its own signature field. *)
#[global] Instance libs : Libs := {|
  int_of_str := fun s => if String.eqb s "42" then Some 42 else None;
  int_of_str_base0 := fun s => if String.eqb s "0x2a" then Some 42 else None;
  tx_stream := fun _ => [];
  tx_as_hex := fun _ => "00";
  b2h := fun _ => "00";
  b2h_rev := fun _ => "00";
  to_pycoin_chain := fun c =>
    match c with
    | bitcoin_mainnet => Returned "BTC"
    | bitcoin_testnet => Returned "XTN"
    | _ => Raised (UnknownChainError (chain_name c))
    end;
  py_strip := fun s => s;
  os_path_join := fun a b => (a +:+ "/") +:+ b;
  json_loads := fun s => Returned (PyDict [("signature", PyStr s)]);
  chain_to_bitcoin_network := fun _ => Returned "mainnet";
  wif_prefix_for_netcode := fun _ => Returned [];
  wif_to_secret_exponent := fun wif _ =>
    match wif with
    | Some _ => Returned 1
    | None => Raised (TypeError "expected a str")
    end;
  hash160_lookup := list Z;
  build_hash160_lookup := fun l => l;
  tx_sign := fun tx _ => Returned tx;
  SignMessage := fun wif m =>
    match wif with
    | Some k => Returned (k +:+ message m)
    | None => Raised (TypeError "expected a str")
    end;
  VerifyMessage := fun address m signature =>
    Returned (py_eqb signature (PyStr (address +:+ message m)));
  eth_sign := fun tx key network_id =>
    Returned (mkEthTransaction (nonce tx) (gasprice tx) (startgas tx) (to tx) (value tx)
                (data tx)
                (match network_id with Some n => 35 + 2 * n | None => 27 end) 1 1);
  eth_sign_lookup := fun _ _ => Raised (PyException "Invalid key format");
  rlp_encode := fun _ => Returned [];
  encode_hex := fun _ => Returned "f8"
|}.

(** A provider object with a single method [broadcast_tx], which notes the
    call in the journal and answers [r]. *)
Definition broadcaster (name : string) (r : result pyval) : provider world :=
  Service (mkService name (Some (fun _ w => (r, log (Called name) w))) None None None).

(** A provider object with a single method [spendables_for_address]. *)
Definition lister (name : string) (r : result (list Spendable)) : provider world :=
  Service (mkService name None (Some (fun _ w => (r, log (Called name) w))) None None).

(** A provider object with [get_balance] and [get_address_nonce]. *)
Definition account_service (name : string) (r : result Z) : provider world :=
  Service (mkService name None None
             (Some (fun _ _ w => (r, log (Called name) w)))
             (Some (fun _ _ w => (r, log (Called name) w)))).

Definition registry (chain : Chain) (ps : list (provider world))
    : gmap Chain (list (provider world)) :=
  <[chain := ps]> ∅.

Definition quiet : world :=
  mkWorld [] [] (fun _ => Raised (RequestException "Connection refused")) [].

(** A world whose HTTP services answer, with a key file on a medium, and
    the situations the operator goes through. *)
Definition reachable : string -> result response :=
  fun _ => Returned (mkResponse 200 "" None).

Definition desk (situations : list (bool * bool)) : world :=
  mkWorld [] [("/media/usb/pk.txt", "KEY"); ("cert.json", "1Addrabc123")] reachable situations.

Definition manager (safe_mode : bool) : FileSecretManager.t :=
  FileSecretManager.init
    (Some (BitcoinSigner (BitcoinSigner.mk bitcoin_mainnet [])))
    "/media/usb/pk.txt" safe_mode (Some "1Addr").

Definition empty_tx : Tx := mkTx 1 [] [] 0.

(** Two providers that are down, around one that cannot broadcast. *)
Definition all_down : list (provider world) :=
  [broadcaster "a" (Raised (ConnectorError "a is down"));
   lister "l" (Returned []);
   BlockrIOBroadcaster "https://btc.blockr.io/api/v1";
   broadcaster "b" (Raised (BroadcastError [ArgStr "rejected"]))].

(** The request that [BlockrIOBroadcaster] sends for [empty_tx]. *)
Definition blockr_post : event :=
  Post "https://btc.blockr.io/api/v1/tx/push" (JsonBody [("hex", "00")]).

(** A provider that is down and one that accepts the transaction. *)
Definition one_up : list (provider world) :=
  [broadcaster "a" (Raised (ConnectorError "a is down"));
   broadcaster "b" (Returned (PyStr "X"))].

(** Providers that report different transaction ids. *)
Definition disagreeing : list (provider world) :=
  [broadcaster "a" (Returned (PyStr "X"));
   broadcaster "b" (Returned (PyStr "Y"));
   broadcaster "c" (Returned (PyStr "X"))].

(** A provider that lists two unspent outputs, the larger one first. *)
Definition two_outputs : list (provider world) :=
  [lister "a" (Returned [mkSpendable (2 ^ 61 - 1) [] [] 0; mkSpendable 1 [] [] 1])].

Definition spendable_of (v : Z) : Spendable := mkSpendable v [] [] 0.

Definition unsigned_input : TxIn := mkTxIn [] 0 [] 4294967295.

Definition signed_input : TxIn := mkTxIn [] 1 [Byte.x30; Byte.x45] 4294967295.

Definition transfer : EthTransaction := mkEthTransaction 0 20 21000 [] 0 [] 0 0 0.

End Demo.

(* ===================================================================== *)
(** * The rest of connectors.py, and more observations *)
(* ===================================================================== *)

Section TryGet.
Context {W : Type} `{Outside W}.

(** [str(n)] of an [int] and [str(v)] of a value, as [str.format] uses
    them. *)
Variable str_of_int : Z -> string.
Variable str_of_value : pyval -> string.

(** throw error if call fails *)
Definition try_get (url : string) : M W response :=
  let* response := requests_get url in
  if negb (status_code response =? 200) then
    let* j := response_json response in
    let* error := py_getitem j "error" in
    let error_message :=
      ((("Error! status_code=" +:+ str_of_int (status_code response))
          +:+ ", error=") +:+ str_of_value error) in
    raise (ConnectorError error_message)
  else ret response.

End TryGet.

Section MoreObservations.
Context {W : Type}.

(** What each call of a list answers, the calls being made one after the
    other, and the state of the world after all of them. *)
Fixpoint answers {A : Type} (calls : list (M W A)) (w : W) : list (result A) :=
  match calls with
  | [] => []
  | call :: rest => fst (call w) :: answers rest (snd (call w))
  end.

Fixpoint after_calls {A : Type} (calls : list (M W A)) (w : W) : W :=
  match calls with
  | [] => w
  | call :: rest => after_calls rest (snd (call w))
  end.

(** The shape shared by the fallback loops: try the calls in order, return
    what the first one that does not raise returns, and [default] when
    every one raises. *)
Fixpoint first_success {A : Type} (default : A) (calls : list (M W A)) : M W A :=
  match calls with
  | [] => ret default
  | call :: rest => try_except call (fun _ => first_success default rest)
  end.

(** The state of the world after [k] passes over the broadcast calls, each
    followed by the sleep of the retry loop. *)
Fixpoint after_passes `{Outside W} {A : Type} (calls : list (M W A)) (k : nat) (w : W)
    : W :=
  match k with
  | O => w
  | S k' => after_passes calls k' (time_sleep BROADCAST_RETRY_INTERVAL (after_calls calls w))
  end.

(** An answer that is the id [tx_id] or an exception. *)
Definition answers_id_or_raises (tx_id : string) (r : result pyval) : Prop :=
  r = Returned (PyStr tx_id) \/ exists e, r = Raised e.

End MoreObservations.

(** The conversion of [BitcoindConnector.spendables_for_address] for an
    entry that has an outpoint. *)
Definition spendable_of_unspent (u : unspent) : option Spendable :=
  match outpoint u with
  | Some (previous_hash, previous_index) =>
      Some (mkSpendable (match amount u with Some a => a | None => 0 end)
              (scriptPubKey u) previous_hash previous_index)
  | None => None
  end.

(** Worlds and library stand-ins for further runs of the embedding. *)
Module Scenario.

(** A world in which every HTTP service answers [r]. *)
Definition answering (r : response) : Demo.world :=
  Demo.mkWorld [] [] (fun _ => Returned r) [].

Definition ok_result (v : pyval) : response :=
  mkResponse 200 "" (Some (PyDict [("jsonrpc", PyStr "2.0"); ("result", v)])).

Definition ok_error : response :=
  mkResponse 200 ""
    (Some (PyDict [("jsonrpc", PyStr "2.0"); ("error", PyStr "nonce too low")])).

Definition server_error : response :=
  mkResponse 503 "Service Unavailable" (Some (PyDict [("error", PyStr "busy")])).

Definition server_error_plain : response :=
  mkResponse 503 "Service Unavailable" (Some (PyDict [])).

(** A world with three certificate files, to be parsed by [plain_libs]
    below. *)
Definition archive : Demo.world :=
  Demo.mkWorld []
    [("cert.json", "1Addrabc123"); ("empty.json", ""); ("copy.json", "copy")]
    Demo.reachable [].

(** As [Demo.libs], but the empty text parses to the empty document, the
    text [copy] to a document with another [uid] around the signature of
    [cert.json], and any other text [s] to a document with the fields
    [uid] and [signature], both [s]. *)
Definition plain_libs : Libs := {|
  int_of_str := @int_of_str Demo.libs;
  int_of_str_base0 := @int_of_str_base0 Demo.libs;
  tx_stream := @tx_stream Demo.libs;
  tx_as_hex := @tx_as_hex Demo.libs;
  b2h := @b2h Demo.libs;
  b2h_rev := @b2h_rev Demo.libs;
  to_pycoin_chain := @to_pycoin_chain Demo.libs;
  py_strip := @py_strip Demo.libs;
  os_path_join := @os_path_join Demo.libs;
  json_loads := fun s =>
    if String.eqb s "" then Returned (PyDict [])
    else if String.eqb s "copy" then
      Returned (PyDict [("uid", PyStr "zzz"); ("signature", PyStr "1Addrabc123")])
    else Returned (PyDict [("uid", PyStr s); ("signature", PyStr s)]);
  chain_to_bitcoin_network := @chain_to_bitcoin_network Demo.libs;
  wif_prefix_for_netcode := @wif_prefix_for_netcode Demo.libs;
  wif_to_secret_exponent := @wif_to_secret_exponent Demo.libs;
  hash160_lookup := list Z;
  build_hash160_lookup := fun l => l;
  tx_sign := fun tx _ => Returned tx;
  SignMessage := @SignMessage Demo.libs;
  VerifyMessage := @VerifyMessage Demo.libs;
  eth_sign := fun _ _ _ => Raised (ValueError "invalid key");
  eth_sign_lookup := fun _ _ => Raised (PyException "Invalid key format");
  rlp_encode := @rlp_encode Demo.libs;
  encode_hex := @encode_hex Demo.libs
|}.

(** A bitcoind node that lists the given entries. *)
Definition node (us : list unspent) : Outside Demo.world := {|
  requests_get := @requests_get _ Demo.outside;
  requests_post := @requests_post _ Demo.outside;
  time_sleep := @time_sleep _ Demo.outside;
  rpc_sendrawtransaction := @rpc_sendrawtransaction _ Demo.outside;
  rpc_listunspent := fun address w => (Returned us, Demo.log (Demo.Called "listunspent") w);
  os_path_exists := @os_path_exists _ Demo.outside;
  read_file := @read_file _ Demo.outside;
  print := @print _ Demo.outside
|}.

(** Providers for the fallback loops: one that is down, then one that
    answers, then one that must not be asked. *)
Definition accounts : list (provider Demo.world) :=
  [BitcoindConnector "BTC";
   Demo.account_service "a" (Raised (ConnectorError "a is down"));
   Demo.account_service "b" (Returned 7);
   Demo.account_service "c" (Returned 9)].

Definition listers : list (provider Demo.world) :=
  [Demo.lister "a" (Raised (ConnectorError "a is down"));
   Demo.broadcaster "x" (Returned PyNone);
   Demo.lister "b" (Returned []);
   Demo.lister "c" (Returned [Demo.spendable_of 5])].

Definition wallet : list (provider Demo.world) :=
  [Demo.lister "a" (Returned [Demo.spendable_of 30; Demo.spendable_of 10;
                               Demo.spendable_of 20])].

Definition eth_broadcasters : list (provider Demo.world) :=
  [Demo.broadcaster "a" (Raised (ConnectorError "a is down"));
   Demo.broadcaster "b" (Returned (PyStr "0xabc"));
   Demo.broadcaster "c" (Returned (PyStr "0xdef"))].

(** Providers that agree on the id, one of them being down. *)
Definition agreeing : list (provider Demo.world) :=
  [Demo.broadcaster "a" (Returned (PyStr "X"));
   Demo.broadcaster "b" (Raised (ConnectorError "b is down"));
   Demo.lister "l" (Returned []);
   Demo.broadcaster "c" (Returned (PyStr "X"))].

(** A provider that is down until the first sleep is over: it answers once
    a sleep is in the journal. *)
Definition slept (w : Demo.world) : bool :=
  existsb (fun e => match e with Demo.Slept _ => true | _ => false end) (Demo.journal w).

Definition late : list (provider Demo.world) :=
  [Service (mkService "late"
              (Some (fun _ w =>
                       (if slept w then Returned (PyStr "X")
                        else Raised (ConnectorError "not yet"),
                        Demo.log (Demo.Called "late") w)))
              None None None)].

Definition entry (a : option Z) (n : Z) : unspent :=
  mkUnspent a (Some ([], n)) [].

Definition orphan : unspent := mkUnspent (Some 5) None [].

Definition ethereum_config : app_config :=
  mkAppConfig "/media/usb" "pk.txt" ethereum_mainnet bitcoin_mainnet false None.

Definition mock_config : app_config :=
  mkAppConfig "/media/usb" "pk.txt" mockchain bitcoin_mainnet true None.

(** Base64 text comes in groups of four characters, filled up with [=]. *)
Definition padded (s : string) : string :=
  match (String.length s mod 4)%nat with
  | 0%nat => s
  | 1%nat => s +:+ "==="
  | 2%nat => s +:+ "=="
  | _ => s +:+ "="
  end.

(** As [Demo.libs], with the steps python-bitcoinlib's [VerifyMessage]
    takes before it compares anything: [base64.b64decode] raises
    [TypeError] for a signature that is not text, and [binascii.Error],
    which is a [ValueError], for a text that is not made of groups of four
    characters.  A signature is valid when it spells, in such groups, the
    message after the address.  A text that reads as a number parses to a
    document whose signature field is that number. *)
Definition strict_libs : Libs := {|
  int_of_str := @int_of_str Demo.libs;
  int_of_str_base0 := @int_of_str_base0 Demo.libs;
  tx_stream := @tx_stream Demo.libs;
  tx_as_hex := @tx_as_hex Demo.libs;
  b2h := @b2h Demo.libs;
  b2h_rev := @b2h_rev Demo.libs;
  to_pycoin_chain := @to_pycoin_chain Demo.libs;
  py_strip := @py_strip Demo.libs;
  os_path_join := @os_path_join Demo.libs;
  json_loads := fun s =>
    match @int_of_str Demo.libs s with
    | Some n => Returned (PyDict [("signature", PyInt n)])
    | None => Returned (PyDict [("signature", PyStr s)])
    end;
  chain_to_bitcoin_network := @chain_to_bitcoin_network Demo.libs;
  wif_prefix_for_netcode := @wif_prefix_for_netcode Demo.libs;
  wif_to_secret_exponent := @wif_to_secret_exponent Demo.libs;
  hash160_lookup := list Z;
  build_hash160_lookup := fun l => l;
  tx_sign := fun tx _ => Returned tx;
  SignMessage := fun wif m =>
    match wif with
    | Some k => Returned (padded (k +:+ message m))
    | None => Raised (TypeError "expected a str")
    end;
  VerifyMessage := fun address m signature =>
    match signature with
    | PyStr s =>
        if (String.length s mod 4 =? 0)%nat then
          Returned (String.eqb s (padded (address +:+ message m)))
        else Raised (ValueError "Incorrect padding")
    | v =>
        Raised (TypeError
                  (("argument should be a bytes-like object or ASCII string, not '"
                    +:+ py_type_name v) +:+ "'"))
    end;
  eth_sign := @eth_sign Demo.libs;
  eth_sign_lookup := fun _ _ => Raised (PyException "Invalid key format");
  rlp_encode := @rlp_encode Demo.libs;
  encode_hex := @encode_hex Demo.libs
|}.

(** A world with a signed certificate, a copy whose signature has lost its
    last character, and a copy whose signature field holds a number; to be
    parsed by [strict_libs]. *)
Definition tampered : Demo.world :=
  Demo.mkWorld []
    [("cert.json", "1Addrabc123="); ("cut.json", "1Addrabc123"); ("number.json", "42")]
    Demo.reachable [].

End Scenario.

(* ===================================================================== *)
(** * Properties of the connectors *)
(* ===================================================================== *)

Section EtherscanToken.
Context `{Libs} {W : Type} `{Outside W}.

(** C10. Whatever api token is supplied (none, the empty one, any other),
    the Etherscan connector's [broadcast_tx], [get_balance] and
    [get_address_nonce] are the same computation: for every HTTP backend
    and every state of the world they issue the same request, leave the
    world in the same state and produce the same result.  The token never
    reaches the URL or the body. *)
Theorem etherscan_ignores_api_token :
  forall (base_url : string) (token1 token2 : option string),
    (forall (tx : string) (w : W),
        EtherscanBroadcaster.broadcast_tx base_url tx token1 w =
        EtherscanBroadcaster.broadcast_tx base_url tx token2 w) /\
    (forall (address : string) (w : W),
        EtherscanBroadcaster.get_balance base_url address token1 w =
        EtherscanBroadcaster.get_balance base_url address token2 w) /\
    (forall (address : string) (w : W),
        EtherscanBroadcaster.get_address_nonce base_url address token1 w =
        EtherscanBroadcaster.get_address_nonce base_url address token2 w).
Proof.
  intros base_url token1 token2.
  unfold EtherscanBroadcaster.broadcast_tx, EtherscanBroadcaster.get_balance,
    EtherscanBroadcaster.get_address_nonce.
  repeat split; intros; reflexivity.
Qed.

End EtherscanToken.

(** The requests noted in the journal are the same with and without a
    token. *)
Example etherscan_same_requests :
  Demo.journal
    (snd (EtherscanBroadcaster.get_balance "https://api.etherscan.io/api" "0xabc"
            (Some "SECRET") Demo.quiet)) =
  [Demo.Get "https://api.etherscan.io/api?module=account&action=balance&address=0xabc&tag=latest"]
  /\
  Demo.journal
    (snd (EtherscanBroadcaster.get_balance "https://api.etherscan.io/api" "0xabc"
            None Demo.quiet)) =
  [Demo.Get "https://api.etherscan.io/api?module=account&action=balance&address=0xabc&tag=latest"].
Proof. split; reflexivity. Qed.

Section Registry.
Context `{Libs} {W : Type} `{Outside W}.


End Registry.



(* ===================================================================== *)
(** * Properties of the signers *)
(* ===================================================================== *)

Section BitcoinSigning.
Context `{Libs} {W : Type}.

Lemma check_inputs_signed_all (inputs : list TxIn) (w : W) :
  Forall (fun i => script i <> []) inputs ->
  BitcoinSigner.check_inputs_signed inputs w = (Returned tt, w).
Proof.
  induction 1 as [| i rest Hi _ IH]; simpl.
  - reflexivity.
  - destruct (script i) as [| b s] eqn:Es; [congruence |]. simpl. exact IH.
Qed.

Lemma check_inputs_signed_some (inputs : list TxIn) (w : W) :
  Exists (fun i => script i = []) inputs ->
  BitcoinSigner.check_inputs_signed inputs w =
  (Raised (UnableToSignTxError "Unable to sign transaction"), w).
Proof.
  induction 1 as [i rest Hi | i rest _ IH]; simpl.
  - rewrite Hi. reflexivity.
  - destruct (script i); simpl; [reflexivity | exact IH].
Qed.

(** C6. Once the underlying signing routine has run and returned the
    transaction [signed_tx]: if some input of it carries an empty unlocking
    script, [sign_transaction] raises [UnableToSignTxError] and returns
    nothing; if every input carries a non-empty one, it returns
    [signed_tx]. *)
Theorem bitcoin_sign_transaction_checks_inputs :
  forall (self : BitcoinSigner.t) (wif : option string) (tx signed_tx : Tx)
         (secret_exponent : Z) (w : W),
    wif_to_secret_exponent wif (BitcoinSigner.allowable_wif_prefixes self)
      = Returned secret_exponent ->
    tx_sign tx (build_hash160_lookup [secret_exponent]) = Returned signed_tx ->
    (Exists (fun i => script i = []) (txs_in signed_tx) ->
     BitcoinSigner.sign_transaction self wif (PycoinTx tx) w =
     (Raised (UnableToSignTxError "Unable to sign transaction"), w)) /\
    (Forall (fun i => script i <> []) (txs_in signed_tx) ->
     BitcoinSigner.sign_transaction self wif (PycoinTx tx) w = (Returned signed_tx, w)).
Proof.
  intros self wif tx signed_tx secret_exponent w Hkey Hsign.
  unfold BitcoinSigner.sign_transaction, bind, lift.
  rewrite Hkey, Hsign.
  split; intros Hin.
  - rewrite (check_inputs_signed_some _ w Hin). reflexivity.
  - rewrite (check_inputs_signed_all _ w Hin). reflexivity.
Qed.

End BitcoinSigning.

Lemma bitcoin_sign_transaction_checks_inputs_witness :
  BitcoinSigner.sign_transaction (BitcoinSigner.mk bitcoin_mainnet []) (Some "key")
    (PycoinTx (mkTx 1 [Demo.signed_input; Demo.unsigned_input] [] 0)) tt =
  (Raised (UnableToSignTxError "Unable to sign transaction"), tt)
  /\
  BitcoinSigner.sign_transaction (BitcoinSigner.mk bitcoin_mainnet []) (Some "key")
    (PycoinTx (mkTx 1 [Demo.signed_input; Demo.signed_input] [] 0)) tt =
  (Returned (mkTx 1 [Demo.signed_input; Demo.signed_input] [] 0), tt).
Proof.
  split.
  - apply (bitcoin_sign_transaction_checks_inputs
             (BitcoinSigner.mk bitcoin_mainnet []) (Some "key")
             (mkTx 1 [Demo.signed_input; Demo.unsigned_input] [] 0)
             (mkTx 1 [Demo.signed_input; Demo.unsigned_input] [] 0) 1 tt);
      [reflexivity | reflexivity |].
    apply Exists_cons_tl. apply Exists_cons_hd. reflexivity.
  - apply (bitcoin_sign_transaction_checks_inputs
             (BitcoinSigner.mk bitcoin_mainnet []) (Some "key")
             (mkTx 1 [Demo.signed_input; Demo.signed_input] [] 0)
             (mkTx 1 [Demo.signed_input; Demo.signed_input] [] 0) 1 tt);
      [reflexivity | reflexivity |].
    repeat constructor; discriminate.
Defined.

Section EthereumSigning.
Context `{Libs} {W : Type}.

(** C7. The signer built for a chain holds the chain identifier 1 for the
    ethereum main network, 3 for the Ropsten test network and none for any
    other chain, and [sign_transaction] hands exactly this identifier to
    the signature computation [Transaction.sign]: its result is the
    encoding of what that call returns, or the error dict holding what
    that call raises. *)
Theorem ethereum_signer_binds_chain_id :
  (forall c : Chain,
      EthereumSigner.netcode (EthereumSigner.init c) =
      match c with
      | ethereum_mainnet => Some 1
      | ethereum_ropsten => Some 3
      | _ => None
      end) /\
  (forall (self : EthereumSigner.t) (wif : option string) (tx signed_tx : EthTransaction)
          (raw : bytes) (raw_hex : string) (w : W),
      eth_sign tx wif (EthereumSigner.netcode self) = Returned signed_tx ->
      rlp_encode signed_tx = Returned raw ->
      encode_hex raw = Returned raw_hex ->
      EthereumSigner.sign_transaction self wif (EthereumTransaction tx) w =
      (Returned (RawTxHex raw_hex), w)) /\
  (forall (self : EthereumSigner.t) (wif : option string) (tx : EthTransaction)
          (e : exn) (w : W),
      eth_sign tx wif (EthereumSigner.netcode self) = Raised e ->
      EthereumSigner.sign_transaction self wif (EthereumTransaction tx) w =
      (Returned (ErrorDict e), w)).
Proof.
  split; [| split].
  - intros []; reflexivity.
  - intros self wif tx signed_tx raw raw_hex w Hs Hr Hh.
    unfold EthereumSigner.sign_transaction, try_except, bind, lift.
    rewrite Hs, Hr, Hh. reflexivity.
  - intros self wif tx e w Hs.
    unfold EthereumSigner.sign_transaction, try_except, bind, lift.
    rewrite Hs. reflexivity.
Qed.

End EthereumSigning.

Lemma ethereum_signer_binds_chain_id_witness :
  EthereumSigner.netcode (EthereumSigner.init ethereum_mainnet) = Some 1 /\
  eth_sign Demo.transfer (Some "key") (Some 1)
    = Returned (mkEthTransaction 0 20 21000 [] 0 [] 37 1 1) /\
  EthereumSigner.sign_transaction (EthereumSigner.init ethereum_mainnet) (Some "key")
    (EthereumTransaction Demo.transfer) tt = (Returned (RawTxHex "f8"), tt).
Proof.
  destruct (@ethereum_signer_binds_chain_id Demo.libs unit) as (Hcode & Hsign & _).
  split; [apply Hcode |].
  split; [reflexivity |].
  apply (Hsign (EthereumSigner.init ethereum_mainnet) (Some "key") Demo.transfer
           (mkEthTransaction 0 20 21000 [] 0 [] 37 1 1) [] "f8" tt);
    reflexivity.
Defined.

Section Verification.
Context `{Libs} {W : Type} `{Outside W}.

(** For a certificate file that reads and parses to a document with a
    [signature] field: when [VerifyMessage] answers that the signature does
    not verify over the identifier against the issuing address,
    [verify_signature] raises [UnverifiedSignatureError]; when it answers
    that it verifies, [verify_signature] returns; and it returns in no
    other case, so a failed verification is never reported by a returned
    value. *)
Theorem verify_signature_raises_on_mismatch :
  forall (uid signed_cert_file_name issuing_address content : string)
         (doc : list (string * pyval)) (signature : pyval) (w w1 : W),
    read_file signed_cert_file_name w = (Returned content, w1) ->
    json_loads content = Returned (PyDict doc) ->
    assoc "signature" doc = Some signature ->
    (VerifyMessage issuing_address (new_BitcoinMessage uid) signature = Returned false ->
     verify_signature uid signed_cert_file_name issuing_address w =
     (Raised (UnverifiedSignatureError
                ("There was a problem with the signature for certificate uid=" +:+ uid)),
      w1)) /\
    (VerifyMessage issuing_address (new_BitcoinMessage uid) signature = Returned true ->
     verify_signature uid signed_cert_file_name issuing_address w = (Returned tt, w1)) /\
    (forall (r : unit) (w' : W),
        verify_signature uid signed_cert_file_name issuing_address w = (Returned r, w') ->
        VerifyMessage issuing_address (new_BitcoinMessage uid) signature = Returned true).
Proof.
  intros uid file address content doc signature w w1 Hread Hjson Hsig.
  unfold verify_signature, verify_message, py_getitem, bind, lift.
  rewrite Hread, Hjson, Hsig. unfold ret, raise.
  repeat split.
  - intros ->. reflexivity.
  - intros ->. reflexivity.
  - intros r w'.
    destruct (VerifyMessage address (new_BitcoinMessage uid) signature) as [[|] | e |];
      simpl; intros Hret; congruence.
Qed.

(** [verify_signature] has no handler around [verify_message]: what
    [VerifyMessage] raises on a signature leaves [verify_signature] as it
    is, whatever its class, and is not turned into
    [UnverifiedSignatureError]. *)
Lemma verify_signature_propagates :
  forall (uid signed_cert_file_name issuing_address content : string)
         (doc : list (string * pyval)) (signature : pyval) (e : exn) (w w1 : W),
    read_file signed_cert_file_name w = (Returned content, w1) ->
    json_loads content = Returned (PyDict doc) ->
    assoc "signature" doc = Some signature ->
    VerifyMessage issuing_address (new_BitcoinMessage uid) signature = Raised e ->
    verify_signature uid signed_cert_file_name issuing_address w = (Raised e, w1).
Proof.
  intros uid file address content doc signature e w w1 Hread Hjson Hsig Hverify.
  unfold verify_signature, verify_message, py_getitem, bind, lift.
  rewrite Hread, Hjson, Hsig. unfold ret. rewrite Hverify. reflexivity.
Qed.

End Verification.

Lemma verify_signature_raises_on_mismatch_witness :
  verify_signature "abc123" "cert.json" "1Addr" (Demo.desk []) =
  (Returned tt, Demo.log (Demo.Read "cert.json") (Demo.desk []))
  /\
  verify_signature "abc124" "cert.json" "1Addr" (Demo.desk []) =
  (Raised (UnverifiedSignatureError
             "There was a problem with the signature for certificate uid=abc124"),
   Demo.log (Demo.Read "cert.json") (Demo.desk [])).
Proof.
  split.
  - apply (verify_signature_raises_on_mismatch "abc123" "cert.json" "1Addr" "1Addrabc123"
             [("signature", PyStr "1Addrabc123")] (PyStr "1Addrabc123")
             (Demo.desk []) (Demo.log (Demo.Read "cert.json") (Demo.desk [])));
      reflexivity.
  - apply (verify_signature_raises_on_mismatch "abc124" "cert.json" "1Addr" "1Addrabc123"
             [("signature", PyStr "1Addrabc123")] (PyStr "1Addrabc123")
             (Demo.desk []) (Demo.log (Demo.Read "cert.json") (Demo.desk [])));
      reflexivity.
Defined.

Lemma verify_signature_propagates_witness :
  @verify_signature Scenario.strict_libs Demo.world Demo.outside
    "abc123" "cut.json" "1Addr" Scenario.tampered
  = (Raised (ValueError "Incorrect padding"),
     Demo.log (Demo.Read "cut.json") Scenario.tampered).
Proof.
  apply (@verify_signature_propagates Scenario.strict_libs Demo.world Demo.outside
           "abc123" "cut.json" "1Addr" "1Addrabc123"
           [("signature", PyStr "1Addrabc123")] (PyStr "1Addrabc123")
           (ValueError "Incorrect padding")
           Scenario.tampered (Demo.log (Demo.Read "cut.json") Scenario.tampered));
    reflexivity.
Defined.

(** C9. A signature that does not verify does not always make
    [verify_signature] raise [UnverifiedSignatureError].  With a
    [VerifyMessage] that decodes the signature before it compares, as
    python-bitcoinlib's does, the certificate whose signature matches the
    identifier passes and the one checked against another identifier
    raises [UnverifiedSignatureError]; but the certificate whose signature
    has lost a character raises the [ValueError] of the decoding, and the
    one whose signature field holds a number raises its [TypeError].
    Neither is an [UnverifiedSignatureError], and in neither case does
    [verify_signature] return. *)
Theorem verify_signature_tampered_signature :
  let verify :=
    @verify_signature Scenario.strict_libs Demo.world Demo.outside in
  fst (verify "abc123" "cert.json" "1Addr" Scenario.tampered) = Returned tt /\
  fst (verify "abc124" "cert.json" "1Addr" Scenario.tampered)
  = Raised (UnverifiedSignatureError
              "There was a problem with the signature for certificate uid=abc124") /\
  fst (verify "abc123" "cut.json" "1Addr" Scenario.tampered)
  = Raised (ValueError "Incorrect padding") /\
  fst (verify "abc123" "number.json" "1Addr" Scenario.tampered)
  = Raised (TypeError
              "argument should be a bytes-like object or ASCII string, not 'int'") /\
  (forall message : string,
      fst (verify "abc123" "cut.json" "1Addr" Scenario.tampered)
      <> Raised (UnverifiedSignatureError message) /\
      fst (verify "abc123" "number.json" "1Addr" Scenario.tampered)
      <> Raised (UnverifiedSignatureError message)).
Proof.
  cbv zeta. repeat split; try reflexivity; vm_compute; discriminate.
Qed.

(* ===================================================================== *)
(** * The scoped signing session *)
(* ===================================================================== *)

Section Session.
Context `{Libs} {W : Type} `{Outside W}.

Lemma in_world_keeps_object {A : Type} (m : M W A) (s : FileSecretManager.t * W) :
  fst (snd (in_world m s)) = fst s.
Proof. unfold in_world. destruct (m (snd s)) as [r w']. reflexivity. Qed.

(** [stop] clears the secret first: it is gone however the wait that
    follows ends, and also while that wait is still going on. *)
Lemma stop_clears_wif (fuel : nat) (s : FileSecretManager.t * W) :
  FileSecretManager.wif (fst (snd (FileSecretManager.stop fuel s))) = None.
Proof.
  destruct s as [sm w].
  unfold FileSecretManager.stop, FileSecretManager.set_wif, bind, get_self, set_self, ret.
  simpl.
  destruct (FileSecretManager.safe_mode sm); [| reflexivity].
  unfold in_world. simpl.
  destruct (check_internet_on fuel (FileSecretManager.path_to_secret sm) w) as [[b | e |] w'];
    reflexivity.
Qed.

(** Without safe mode [stop] does not wait. *)
Lemma stop_returns_without_safe_mode (fuel : nat) (s : FileSecretManager.t * W) :
  FileSecretManager.safe_mode (fst s) = false ->
  exists sm', FileSecretManager.stop fuel s = (Returned tt, (sm', snd s)) /\
              FileSecretManager.wif sm' = None.
Proof.
  destruct s as [sm w]. simpl. intros Hsafe.
  unfold FileSecretManager.stop, FileSecretManager.set_wif, bind, get_self, set_self, ret.
  simpl. rewrite Hsafe. eexists. split; reflexivity.
Qed.

(** [start] either returns with a key loaded, or leaves the manager as it
    found it. *)
Lemma start_loads_or_keeps (fuel : nat) (sm : FileSecretManager.t) (w : W) :
  match FileSecretManager.start fuel (sm, w) with
  | (Returned _, s1) => exists key, FileSecretManager.wif (fst s1) = Some key
  | (_, s1) => fst s1 = sm
  end.
Proof.
  unfold FileSecretManager.start, FileSecretManager.set_wif, bind, get_self, set_self, ret,
    in_world.
  cbn.
  destruct (FileSecretManager.safe_mode sm); cbn.
  - destruct (check_internet_off fuel (FileSecretManager.path_to_secret sm) w)
      as [[b | e |] w1]; cbn; try reflexivity.
    destruct (import_key (FileSecretManager.path_to_secret sm) w1) as [[key | e |] w2];
      cbn; try reflexivity.
    exists key. reflexivity.
  - destruct (import_key (FileSecretManager.path_to_secret sm) w) as [[key | e |] w2];
      cbn; try reflexivity.
    exists key. reflexivity.
Qed.

(** The bound on the polls is only the patience of the observer: a loop
    that has ended within [n] polls ends in the same way within any larger
    number of them. *)
Lemma check_internet_off_more_fuel (path : string) (n : nat) :
  forall (w w' : W) (r : result bool),
    check_internet_off n path w = (r, w') -> r <> Running ->
    forall m, (n <= m)%nat -> check_internet_off m path w = (r, w').
Proof.
  induction n as [| n IH]; intros w w' r Hrun Hr m Hm.
  - simpl in Hrun. injection Hrun as <- _. congruence.
  - destruct m as [| m]; [lia |]. simpl in *. unfold bind in *.
    destruct (internet_on w) as [[on | e |] w1]; try exact Hrun.
    destruct ((if negb on then os_path_exists path else ret false) w1)
      as [[ready | e |] w2]; try exact Hrun.
    destruct ready; [exact Hrun |].
    unfold effect in *. apply (IH _ _ _ Hrun Hr). lia.
Qed.

Lemma check_internet_on_more_fuel (path : string) (n : nat) :
  forall (w w' : W) (r : result bool),
    check_internet_on n path w = (r, w') -> r <> Running ->
    forall m, (n <= m)%nat -> check_internet_on m path w = (r, w').
Proof.
  induction n as [| n IH]; intros w w' r Hrun Hr m Hm.
  - simpl in Hrun. injection Hrun as <- _. congruence.
  - destruct m as [| m]; [lia |]. simpl in *. unfold bind in *.
    destruct (internet_on w) as [[on | e |] w1]; try exact Hrun.
    unfold effect, ret in *.
    destruct on; cbn in *.
    + destruct (os_path_exists path w1) as [[present | e |] w2]; cbn in *;
        try exact Hrun.
      destruct present; cbn in *; [| exact Hrun].
      apply (IH _ _ _ Hrun Hr). lia.
    + apply (IH _ _ _ Hrun Hr). lia.
Qed.

Lemma start_more_fuel (n : nat) (s s' : FileSecretManager.t * W) (r : result unit) :
  FileSecretManager.start n s = (r, s') -> r <> Running ->
  forall m, (n <= m)%nat -> FileSecretManager.start m s = (r, s').
Proof.
  destruct s as [sm w]. intros Hrun Hr m Hm.
  unfold FileSecretManager.start, bind, get_self, in_world in *. cbn in *.
  destruct (FileSecretManager.safe_mode sm); cbn in *; [| exact Hrun].
  destruct (check_internet_off n (FileSecretManager.path_to_secret sm) w)
    as [r0 w0] eqn:Eoff.
  assert (Hr0 : r0 <> Running).
  { intros ->. cbn in Hrun. injection Hrun as <- _. congruence. }
  rewrite (check_internet_off_more_fuel _ _ _ _ _ Eoff Hr0 m Hm). exact Hrun.
Qed.

Lemma stop_more_fuel (n : nat) (s s' : FileSecretManager.t * W) (r : result unit) :
  FileSecretManager.stop n s = (r, s') -> r <> Running ->
  forall m, (n <= m)%nat -> FileSecretManager.stop m s = (r, s').
Proof.
  destruct s as [sm w]. intros Hrun Hr m Hm.
  unfold FileSecretManager.stop, FileSecretManager.set_wif, bind, get_self, set_self,
    in_world in *. cbn in *.
  destruct (FileSecretManager.safe_mode sm); cbn in *; [| exact Hrun].
  destruct (check_internet_on n (FileSecretManager.path_to_secret sm) w)
    as [r0 w0] eqn:Eon.
  assert (Hr0 : r0 <> Running).
  { intros ->. cbn in Hrun. injection Hrun as <- _. congruence. }
  rewrite (check_internet_on_more_fuel _ _ _ _ _ Eon Hr0 m Hm). exact Hrun.
Qed.

(** A scope that has been left within [n] polls of each wait is left in the
    same way within any larger number of polls. *)
Lemma scope_more_fuel (B : Type) (body : M (FileSecretManager.t * W) B) (n : nat)
    (s s' : FileSecretManager.t * W) (r : result B) :
  FinalizableSigner.with_FinalizableSigner n body s = (r, s') -> r <> Running ->
  forall m, (n <= m)%nat -> FinalizableSigner.with_FinalizableSigner m body s = (r, s').
Proof.
  intros Hrun Hr m Hm.
  unfold FinalizableSigner.with_FinalizableSigner, with_statement,
    FinalizableSigner.enter, FinalizableSigner.exit in *.
  destruct (FileSecretManager.start n s) as [r1 s1] eqn:Estart.
  assert (Hr1 : r1 <> Running).
  { intros ->. injection Hrun as <- _. congruence. }
  rewrite (start_more_fuel _ _ _ _ Estart Hr1 m Hm).
  destruct r1 as [[] | e |]; [| exact Hrun | congruence].
  destruct (body s1) as [[b | e |] s2]; [| | exact Hrun].
  - destruct (FileSecretManager.stop n s2) as [r3 s3] eqn:Estop.
    assert (Hr3 : r3 <> Running).
    { intros ->. injection Hrun as <- _. congruence. }
    rewrite (stop_more_fuel _ _ _ _ Estop Hr3 m Hm). exact Hrun.
  - destruct (FileSecretManager.stop n s2) as [r3 s3] eqn:Estop.
    assert (Hr3 : r3 <> Running).
    { intros ->. injection Hrun as <- _. congruence. }
    rewrite (stop_more_fuel _ _ _ _ Estop Hr3 m Hm). exact Hrun.
Qed.

(** C8. In every use of [with FinalizableSigner(secret_manager)]: [start]
    runs first, and the enclosed operation runs only once it has returned,
    in the state [start] leaves, with the key loaded; when the operation
    ends, by returning or by raising, [stop] runs in the state the
    operation leaves, so the secret of the manager is cleared after the
    scope, and the operation's result or exception is what the scope gives
    once [stop] has returned.  When [start] does not return, the operation
    does not run and the manager is as it was before. *)
Theorem scoped_session_clears_secret :
  forall (B : Type) (fuel : nat) (body : M (FileSecretManager.t * W) B)
         (sm : FileSecretManager.t) (w : W),
    let scope := FinalizableSigner.with_FinalizableSigner fuel body (sm, w) in
    match FileSecretManager.start fuel (sm, w) with
    | (Returned _, s1) =>
        (exists key, FileSecretManager.wif (fst s1) = Some key) /\
        match body s1 with
        | (Running, s2) => scope = (Running, s2)
        | (r, s2) =>
            snd scope = snd (FileSecretManager.stop fuel s2) /\
            FileSecretManager.wif (fst (snd scope)) = None /\
            (fst (FileSecretManager.stop fuel s2) = Returned tt -> fst scope = r) /\
            (FileSecretManager.safe_mode (fst s2) = false -> fst scope = r)
        end
    | (r, s1) =>
        snd scope = s1 /\ fst s1 = sm /\
        match r with
        | Raised e => fst scope = Raised e
        | _ => fst scope = Running
        end
    end.
Proof.
  intros B fuel body sm w scope.
  pose proof (start_loads_or_keeps fuel sm w) as Hstart.
  subst scope.
  unfold FinalizableSigner.with_FinalizableSigner, with_statement,
    FinalizableSigner.enter, FinalizableSigner.exit.
  destruct (FileSecretManager.start fuel (sm, w)) as [[[] | e |] s1]; simpl.
  - split; [exact Hstart |].
    destruct (body s1) as [[b | e |] s2] eqn:Ebody; simpl.
    + pose proof (stop_clears_wif fuel s2) as Hclear.
      pose proof (stop_returns_without_safe_mode fuel s2) as Hplain.
      destruct (FileSecretManager.stop fuel s2) as [[[] | e' |] s3]; simpl in *;
        repeat split; try assumption; try reflexivity; try discriminate;
        intros Hsafe; destruct (Hplain Hsafe) as (sm' & Hstop & _); discriminate.
    + pose proof (stop_clears_wif fuel s2) as Hclear.
      pose proof (stop_returns_without_safe_mode fuel s2) as Hplain.
      destruct (FileSecretManager.stop fuel s2) as [[[] | e' |] s3]; simpl in *;
        repeat split; try assumption; try reflexivity; try discriminate;
        intros Hsafe; destruct (Hplain Hsafe) as (sm' & Hstop & _); discriminate.
    + reflexivity.
  - repeat split. exact Hstart.
  - repeat split. exact Hstart.
Qed.

End Session.

(** A session in safe mode: the operator is asked to go offline, the key
    is read, a message is signed, the secret is cleared, and the operator
    is asked to go back online and unplug the medium. *)
Example safe_mode_session :
  FinalizableSigner.with_FinalizableSigner 3 (FileSecretManager.sign_message "abc123")
    (Demo.manager true, Demo.desk [(true, true); (false, true); (true, false)])
  = (Returned (Some "KEYabc123"),
     (Demo.manager true,
      Demo.mkWorld
        [Demo.Get "http://google.com";
         Demo.Printed "Turn off your internet and plug in your USB to continue...";
         Demo.Slept 10;
         Demo.Get "http://google.com";
         Demo.Exists "/media/usb/pk.txt";
         Demo.Read "/media/usb/pk.txt";
         Demo.Get "http://google.com";
         Demo.Printed "Turn on your internet and unplug your USB to continue...";
         Demo.Slept 10;
         Demo.Get "http://google.com";
         Demo.Exists "/media/usb/pk.txt"]
        [("/media/usb/pk.txt", "KEY"); ("cert.json", "1Addrabc123")]
        Demo.reachable [(true, false)])).
Proof. reflexivity. Qed.

(** A session whose operation raises: the secret is cleared all the same,
    and the exception reaches the caller. *)
Example failing_session :
  let run :=
    FinalizableSigner.with_FinalizableSigner 1
      (FileSecretManager.sign_transaction (OtherObject PyNone))
      (Demo.manager false, Demo.desk []) in
  fst run = Raised (AttributeError "'NoneType' object has no attribute 'sign'") /\
  FileSecretManager.wif (fst (snd run)) = None /\
  Demo.journal (snd (snd run)) = [Demo.Read "/media/usb/pk.txt"].
Proof. repeat split. Qed.

(* ===================================================================== *)
(** * Read queries: balance, nonce, unspent outputs *)
(* ===================================================================== *)

Section ReadQueries.
Context `{Libs} {W : Type} `{Outside W}.
Variable connectors : gmap Chain (list (provider W)).

Lemma always_raises_fail_in_turn {A : Type} (calls : list (M W A)) :
  Forall always_raises calls -> forall w, fail_in_turn calls w.
Proof.
  induction 1 as [| call rest Hcall _ IH]; intros w; simpl; [exact I |].
  destruct (Hcall w) as (e & w' & Hw). exists e, w'. split; [exact Hw | apply IH].
Qed.

Lemma get_balance_loop_all_fail (self : EthereumServiceProviderConnector.t)
    (address : string) (ms : list (provider W)) :
  forall w,
    fail_in_turn
      (map (fun m => call_get_balance m address (EthereumServiceProviderConnector.api_key self))
           (List.filter (fun m => negb (isinstance_BitcoindConnector m)) ms)) w ->
    exists w',
      EthereumServiceProviderConnector.get_balance_loop self address ms w = (Returned 0, w').
Proof.
  induction ms as [| m rest IH]; intros w Hfail; simpl in *.
  - exists w. reflexivity.
  - destruct (isinstance_BitcoindConnector m); simpl in Hfail; [apply IH, Hfail |].
    destruct Hfail as (e & w1 & Hcall & Hrest).
    unfold try_except, bind. rewrite Hcall. apply IH, Hrest.
Qed.

Lemma get_address_nonce_loop_all_fail (self : EthereumServiceProviderConnector.t)
    (address : string) (ms : list (provider W)) :
  forall w,
    fail_in_turn
      (map (fun m => call_get_address_nonce m address
                       (EthereumServiceProviderConnector.api_key self)) ms) w ->
    exists w',
      EthereumServiceProviderConnector.get_address_nonce_loop self address ms w
      = (Returned 0, w').
Proof.
  induction ms as [| m rest IH]; intros w Hfail; simpl in *.
  - exists w. reflexivity.
  - destruct Hfail as (e & w1 & Hcall & Hrest).
    unfold try_except, bind. rewrite Hcall. apply IH, Hrest.
Qed.

Lemma spendables_loop_all_fail (address : string)
    (ms : list (string -> M W (list Spendable))) :
  forall w,
    fail_in_turn (map (fun m => m address) ms) w ->
    exists w',
      BitcoinServiceProviderConnector.spendables_loop address ms w = (Returned [], w').
Proof.
  induction ms as [| m rest IH]; intros w Hfail; simpl in *.
  - exists w. reflexivity.
  - destruct Hfail as (e & w1 & Hcall & Hrest).
    unfold try_except, bind. rewrite Hcall. apply IH, Hrest.
Qed.

(** C3. When the registry gives a provider list for the network and every
    provider of it that is asked fails (its call raises), each read query
    returns its sentinel and does not raise: the ethereum balance and nonce
    lookups return 0, the bitcoin unspent-output lookup
    [spendables_for_address] returns the empty list, and on top of it
    [get_unspent_outputs] returns [None] and the bitcoin [get_balance]
    returns 0.  (The ethereum balance lookup does not ask a
    [BitcoindConnector]; the bitcoin lookup asks the providers that have
    the method.) *)
Theorem read_queries_return_sentinel :
  (forall (self : EthereumServiceProviderConnector.t) (address : string)
          (ms : list (provider W)) (w : W),
      get_providers_for_chain connectors
        (EthereumServiceProviderConnector.ethereum_chain self)
        (EthereumServiceProviderConnector.local_node self) = Returned ms ->
      fail_in_turn
        (map (fun m => call_get_balance m address
                         (EthereumServiceProviderConnector.api_key self))
             (List.filter (fun m => negb (isinstance_BitcoindConnector m)) ms)) w ->
      exists w',
        EthereumServiceProviderConnector.get_balance connectors self address w
        = (Returned 0, w')) /\
  (forall (self : EthereumServiceProviderConnector.t) (address : string)
          (ms : list (provider W)) (w : W),
      get_providers_for_chain connectors
        (EthereumServiceProviderConnector.ethereum_chain self)
        (EthereumServiceProviderConnector.local_node self) = Returned ms ->
      fail_in_turn
        (map (fun m => call_get_address_nonce m address
                         (EthereumServiceProviderConnector.api_key self)) ms) w ->
      exists w',
        EthereumServiceProviderConnector.get_address_nonce connectors self address w
        = (Returned 0, w')) /\
  (forall (self : BitcoinServiceProviderConnector.t) (address : string)
          (ps : list (provider W)) (w : W),
      get_providers_for_chain connectors
        (BitcoinServiceProviderConnector.bitcoin_chain self)
        (BitcoinServiceProviderConnector.bitcoind self) = Returned ps ->
      fail_in_turn
        (map (fun m => m address)
             (service_provider_methods getattr_spendables_for_address ps)) w ->
      exists w',
        BitcoinServiceProviderConnector.spendables_for_address connectors self address w
        = (Returned [], w') /\
        BitcoinServiceProviderConnector.get_unspent_outputs connectors self address w
        = (Returned None, w') /\
        BitcoinServiceProviderConnector.get_balance connectors self address w
        = (Returned 0, w')).
Proof.
  split; [| split].
  - intros self address ms w Hps Hfail.
    unfold EthereumServiceProviderConnector.get_balance, bind, lift. rewrite Hps.
    apply get_balance_loop_all_fail, Hfail.
  - intros self address ms w Hps Hfail.
    unfold EthereumServiceProviderConnector.get_address_nonce, bind, lift. rewrite Hps.
    apply get_address_nonce_loop_all_fail, Hfail.
  - intros self address ps w Hps Hfail.
    destruct (spendables_loop_all_fail address _ w Hfail) as (w' & Hloop).
    exists w'.
    unfold BitcoinServiceProviderConnector.get_balance,
      BitcoinServiceProviderConnector.get_unspent_outputs,
      BitcoinServiceProviderConnector.spendables_for_address, bind, lift.
    rewrite Hps, Hloop. repeat split.
Qed.

End ReadQueries.

Lemma read_queries_return_sentinel_witness :
  (exists w',
      EthereumServiceProviderConnector.get_balance
        (Demo.registry ethereum_mainnet
           [EtherscanBroadcaster "https://api.etherscan.io/api";
            Demo.account_service "a" (Raised (ConnectorError "503"));
            Demo.broadcaster "b" (Returned PyNone)])
        (EthereumServiceProviderConnector.mk ethereum_mainnet (Some "token") false)
        "0xabc" Demo.quiet = (Returned 0, w')) /\
  (exists w',
      EthereumServiceProviderConnector.get_address_nonce
        (Demo.registry ethereum_mainnet
           [EtherscanBroadcaster "https://api.etherscan.io/api";
            Demo.account_service "a" (Raised (ConnectorError "503"));
            Demo.broadcaster "b" (Returned PyNone)])
        (EthereumServiceProviderConnector.mk ethereum_mainnet (Some "token") false)
        "0xabc" Demo.quiet = (Returned 0, w')) /\
  (exists w',
      BitcoinServiceProviderConnector.spendables_for_address
        (Demo.registry bitcoin_testnet
           [Demo.lister "a" (Raised (ConnectorError "503"));
            Demo.broadcaster "b" (Returned PyNone);
            Demo.lister "c" (Raised (ValueError "bad json"))])
        (BitcoinServiceProviderConnector.mk bitcoin_testnet false)
        "mkAddr" Demo.quiet = (Returned [], w') /\
      BitcoinServiceProviderConnector.get_unspent_outputs
        (Demo.registry bitcoin_testnet
           [Demo.lister "a" (Raised (ConnectorError "503"));
            Demo.broadcaster "b" (Returned PyNone);
            Demo.lister "c" (Raised (ValueError "bad json"))])
        (BitcoinServiceProviderConnector.mk bitcoin_testnet false)
        "mkAddr" Demo.quiet = (Returned None, w') /\
      BitcoinServiceProviderConnector.get_balance
        (Demo.registry bitcoin_testnet
           [Demo.lister "a" (Raised (ConnectorError "503"));
            Demo.broadcaster "b" (Returned PyNone);
            Demo.lister "c" (Raised (ValueError "bad json"))])
        (BitcoinServiceProviderConnector.mk bitcoin_testnet false)
        "mkAddr" Demo.quiet = (Returned 0, w')).
Proof.
  split; [| split].
  - destruct (@read_queries_return_sentinel Demo.libs Demo.world Demo.outside
                (Demo.registry ethereum_mainnet
                   [EtherscanBroadcaster "https://api.etherscan.io/api";
                    Demo.account_service "a" (Raised (ConnectorError "503"));
                    Demo.broadcaster "b" (Returned PyNone)])) as (Hbalance & _ & _).
    apply (Hbalance
             (EthereumServiceProviderConnector.mk ethereum_mainnet (Some "token") false)
             "0xabc" _ Demo.quiet eq_refl).
    simpl. repeat (eexists; eexists; split; [reflexivity |]). exact I.
  - destruct (@read_queries_return_sentinel Demo.libs Demo.world Demo.outside
                (Demo.registry ethereum_mainnet
                   [EtherscanBroadcaster "https://api.etherscan.io/api";
                    Demo.account_service "a" (Raised (ConnectorError "503"));
                    Demo.broadcaster "b" (Returned PyNone)])) as (_ & Hnonce & _).
    apply (Hnonce
             (EthereumServiceProviderConnector.mk ethereum_mainnet (Some "token") false)
             "0xabc" _ Demo.quiet eq_refl).
    simpl. repeat (eexists; eexists; split; [reflexivity |]). exact I.
  - destruct (@read_queries_return_sentinel Demo.libs Demo.world Demo.outside
                (Demo.registry bitcoin_testnet
                   [Demo.lister "a" (Raised (ConnectorError "503"));
                    Demo.broadcaster "b" (Returned PyNone);
                    Demo.lister "c" (Raised (ValueError "bad json"))])) as (_ & _ & Hutxo).
    apply (Hutxo (BitcoinServiceProviderConnector.mk bitcoin_testnet false)
             "mkAddr" _ Demo.quiet eq_refl).
    simpl. repeat (eexists; eexists; split; [reflexivity |]). exact I.
Defined.

(* ===================================================================== *)
(** * The broadcast retry loop *)
(* ===================================================================== *)

Section Broadcast.
Context `{Libs} {W : Type} `{Outside W}.
Variable connectors : gmap Chain (list (provider W)).

Import BitcoinServiceProviderConnector (locals, mkLocals, last_exception, final_tx_id).

(** The statement run for one provider never raises: whatever is raised
    inside it, the conflict of transaction ids included, is caught by its
    own handler and kept in [last_exception]. *)
Lemma broadcast_try_catches (tx : Tx) (m : broadcast_args -> M W pyval) (l : locals) (w : W) :
  match m (OneArg tx) w with
  | (Returned tx_id, w') =>
      BitcoinServiceProviderConnector.broadcast_try tx m l w =
      (Returned
         (if truthy tx_id then
            if truthy (final_tx_id l) && py_neb (final_tx_id l) tx_id then
              mkLocals (Some (PyException "Got conflicting tx_ids.")) (final_tx_id l)
            else mkLocals (last_exception l) tx_id
          else l), w')
  | (Raised e, w') =>
      BitcoinServiceProviderConnector.broadcast_try tx m l w =
      (Returned (mkLocals (Some e) (final_tx_id l)), w')
  | (Running, w') =>
      BitcoinServiceProviderConnector.broadcast_try tx m l w = (Running, w')
  end.
Proof.
  unfold BitcoinServiceProviderConnector.broadcast_try, try_except, bind.
  destruct (m (OneArg tx) w) as [[tx_id | e |] w']; try reflexivity.
  destruct (truthy tx_id); [| reflexivity].
  destruct (truthy (final_tx_id l) && py_neb (final_tx_id l) tx_id); reflexivity.
Qed.

Lemma broadcast_providers_never_raise (tx : Tx)
    (ms : list (broadcast_args -> M W pyval)) :
  forall (l : locals) (w : W) (e : exn),
    fst (BitcoinServiceProviderConnector.broadcast_providers tx ms l w) <> Raised e.
Proof.
  induction ms as [| m rest IH]; intros l w e; simpl; [discriminate |].
  unfold bind. pose proof (broadcast_try_catches tx m l w) as Htry.
  destruct (m (OneArg tx) w) as [[tx_id | e' |] w']; rewrite Htry;
    try apply IH; discriminate.
Qed.

(** So the only exception that the retry loop itself lets out is the
    [BroadcastError] raised once the attempts are used up; the conflict of
    transaction ids never reaches the caller. *)
Lemma broadcast_raises_only_when_exhausted (tx : Tx) (bitcoin_chain : Chain)
    (bitcoind : bool) (ps : list (provider W)) :
  get_providers_for_chain connectors bitcoin_chain bitcoind = Returned ps ->
  forall (attempts : nat) (l : locals) (w : W) (e : exn),
    fst (BitcoinServiceProviderConnector.broadcast_attempts connectors attempts tx
           bitcoin_chain bitcoind l w) = Raised e ->
    exists last, e = BitcoinServiceProviderConnector.broadcast_error last.
Proof.
  intros Hps. induction attempts as [| n IH]; intros l w e; simpl.
  - intros [= <-]. eexists. reflexivity.
  - unfold bind, lift, effect, ret. rewrite Hps.
    pose proof (broadcast_providers_never_raise tx
                  (service_provider_methods getattr_broadcast_tx ps) l w) as Hpass.
    destruct (BitcoinServiceProviderConnector.broadcast_providers tx
                (service_provider_methods getattr_broadcast_tx ps) l w)
      as [[l' | e' |] w']; simpl in *.
    + destruct (truthy (final_tx_id l')); simpl; [discriminate | apply IH].
    + intros _. exfalso. apply (Hpass e'). reflexivity.
    + discriminate.
Qed.

(** When every provider fails, a pass over the providers keeps
    [final_tx_id] and ends with the exception raised last. *)
Lemma broadcast_providers_all_raise (tx : Tx) (ms : list (broadcast_args -> M W pyval)) :
  forall (l : locals) (w : W),
    fail_in_turn (map (fun m => m (OneArg tx)) ms) w ->
    BitcoinServiceProviderConnector.broadcast_providers tx ms l w =
    (Returned (mkLocals (fst (call_each tx ms (last_exception l) w)) (final_tx_id l)),
     snd (call_each tx ms (last_exception l) w)).
Proof.
  induction ms as [| m rest IH]; intros l w Hfail; simpl in *.
  - destruct l; reflexivity.
  - unfold bind. pose proof (broadcast_try_catches tx m l w) as Htry.
    destruct Hfail as (e & w' & Hcall & Hrest). rewrite Hcall in Htry |- *.
    rewrite Htry. rewrite (IH _ _ Hrest). reflexivity.
Qed.

(** C2. When the registry gives a provider list and every provider of it
    that can broadcast raises on every attempt, [broadcast_tx_with_chain]
    makes exactly three passes over these providers, sleeps 30 after each
    of them, hence between any two consecutive passes, and then raises
    [BroadcastError] on the exception that was raised last.  An attempt
    that ends with a transaction id returns it in the state the provider
    calls leave: no sleep follows it. *)
Theorem broadcast_retries_three_times :
  forall (tx : Tx) (bitcoin_chain : Chain) (bitcoind : bool) (ps : list (provider W)),
    get_providers_for_chain connectors bitcoin_chain bitcoind = Returned ps ->
    let ms := service_provider_methods getattr_broadcast_tx ps in
    let calls := map (fun m => m (OneArg tx)) ms in
    (forall w : W,
       let pass1 := call_each tx ms None w in
       let pass2 := call_each tx ms (fst pass1) (time_sleep 30 (snd pass1)) in
       let pass3 := call_each tx ms (fst pass2) (time_sleep 30 (snd pass2)) in
       fail_in_turn calls w ->
       fail_in_turn calls (time_sleep 30 (snd pass1)) ->
       fail_in_turn calls (time_sleep 30 (snd pass2)) ->
       BitcoinServiceProviderConnector.broadcast_tx_with_chain connectors tx bitcoin_chain
         bitcoind w =
       (Raised (BitcoinServiceProviderConnector.broadcast_error (fst pass3)),
        time_sleep 30 (snd pass3))) /\
    (forall (attempts : nat) (l l' : locals) (w w' : W),
        BitcoinServiceProviderConnector.broadcast_providers tx ms l w = (Returned l', w') ->
        truthy (final_tx_id l') = true ->
        BitcoinServiceProviderConnector.broadcast_attempts connectors (S attempts) tx
          bitcoin_chain bitcoind l w = (Returned (final_tx_id l'), w')).
Proof.
  intros tx chain bitcoind ps Hps ms calls. split.
  - intros w pass1 pass2 pass3 Hfail1 Hfail2 Hfail3.
    unfold BitcoinServiceProviderConnector.broadcast_tx_with_chain, MAX_BROADCAST_ATTEMPTS.
    simpl. unfold bind, lift, effect, ret, raise. rewrite Hps. fold ms.
    rewrite (broadcast_providers_all_raise tx ms _ _ Hfail1). simpl.
    rewrite (broadcast_providers_all_raise tx ms _ _ Hfail2). simpl.
    rewrite (broadcast_providers_all_raise tx ms _ _ Hfail3). simpl.
    reflexivity.
  - intros attempts l l' w w' Hpass Hid.
    simpl. unfold bind, lift, ret. rewrite Hps. fold ms. rewrite Hpass, Hid.
    reflexivity.
Qed.

(** In particular for providers that raise in whatever state they are
    called. *)
Corollary broadcast_fails_when_providers_always_raise :
  forall (tx : Tx) (bitcoin_chain : Chain) (bitcoind : bool) (ps : list (provider W)),
    get_providers_for_chain connectors bitcoin_chain bitcoind = Returned ps ->
    Forall (fun m => always_raises (m (OneArg tx)))
           (service_provider_methods getattr_broadcast_tx ps) ->
    forall w : W, exists (last : option exn) (w' : W),
      BitcoinServiceProviderConnector.broadcast_tx_with_chain connectors tx bitcoin_chain
        bitcoind w =
      (Raised (BitcoinServiceProviderConnector.broadcast_error last), w').
Proof.
  intros tx chain bitcoind ps Hps Hall w.
  assert (Hturn : forall w0 : W,
             fail_in_turn
               (map (fun m => m (OneArg tx))
                    (service_provider_methods getattr_broadcast_tx ps)) w0).
  { apply always_raises_fail_in_turn.
    induction Hall as [| m rest Hm _ IH]; simpl; constructor; assumption. }
  unfold BitcoinServiceProviderConnector.broadcast_tx_with_chain, MAX_BROADCAST_ATTEMPTS.
  simpl. unfold bind, lift, effect, ret, raise. rewrite Hps.
  rewrite (broadcast_providers_all_raise tx _ _ _ (Hturn _)). simpl.
  rewrite (broadcast_providers_all_raise tx _ _ _ (Hturn _)). simpl.
  rewrite (broadcast_providers_all_raise tx _ _ _ (Hturn _)). simpl.
  eexists. eexists. reflexivity.
Qed.

End Broadcast.

Lemma broadcast_retries_three_times_witness :
  (let run :=
     BitcoinServiceProviderConnector.broadcast_tx_with_chain
       (Demo.registry bitcoin_mainnet Demo.all_down) Demo.empty_tx bitcoin_mainnet false
       Demo.quiet in
   fst run = Raised (BroadcastError [ArgExn (BroadcastError [ArgStr "rejected"])]) /\
   Demo.journal (snd run) =
   [Demo.Called "a"; Demo.blockr_post; Demo.Called "b"; Demo.Slept 30;
    Demo.Called "a"; Demo.blockr_post; Demo.Called "b"; Demo.Slept 30;
    Demo.Called "a"; Demo.blockr_post; Demo.Called "b"; Demo.Slept 30]) /\
  (let run :=
     BitcoinServiceProviderConnector.broadcast_tx_with_chain
       (Demo.registry bitcoin_mainnet Demo.one_up) Demo.empty_tx bitcoin_mainnet false
       Demo.quiet in
   fst run = Returned (PyStr "X") /\
   Demo.journal (snd run) = [Demo.Called "a"; Demo.Called "b"]).
Proof.
  split.
  - destruct (@broadcast_retries_three_times Demo.libs Demo.world Demo.outside
                (Demo.registry bitcoin_mainnet Demo.all_down) Demo.empty_tx bitcoin_mainnet
                false Demo.all_down eq_refl) as [Hall _].
    cbv zeta.
    rewrite (Hall Demo.quiet);
      [split; reflexivity | | |];
      simpl; repeat (eexists; eexists; split; [reflexivity |]); exact I.
  - destruct (@broadcast_retries_three_times Demo.libs Demo.world Demo.outside
                (Demo.registry bitcoin_mainnet Demo.one_up) Demo.empty_tx bitcoin_mainnet
                false Demo.one_up eq_refl) as [_ Hup].
    cbv zeta.
    unfold BitcoinServiceProviderConnector.broadcast_tx_with_chain, MAX_BROADCAST_ATTEMPTS.
    rewrite (Hup 2%nat (BitcoinServiceProviderConnector.mkLocals None PyNone)
               (BitcoinServiceProviderConnector.mkLocals
                  (Some (ConnectorError "a is down")) (PyStr "X"))
               Demo.quiet
               (Demo.log (Demo.Called "b") (Demo.log (Demo.Called "a") Demo.quiet))
               eq_refl eq_refl).
    split; reflexivity.
Defined.

(** C1. When two providers return different transaction ids in one
    attempt, the exception raised for the conflict is caught by the
    handler of the provider loop: [broadcast_tx_with_chain] goes on to the
    next provider and returns the id it saw first, instead of raising. *)
Theorem conflicting_tx_ids_are_not_fatal :
  let run :=
    BitcoinServiceProviderConnector.broadcast_tx_with_chain
      (Demo.registry bitcoin_mainnet Demo.disagreeing) Demo.empty_tx bitcoin_mainnet false
      Demo.quiet in
  fst run = Returned (PyStr "X") /\
  Demo.journal (snd run) = [Demo.Called "a"; Demo.Called "b"; Demo.Called "c"].
Proof. split; reflexivity. Qed.

(* ===================================================================== *)
(** * The order of the unspent outputs *)
(* ===================================================================== *)

Section SortOrder.
Context {A : Type} (key : A -> Z).

Lemma insert_by_HdRel (y x : A) (l : list A) :
  key y <= key x -> HdRel (key_le key) y l -> HdRel (key_le key) y (insert_by key x l).
Proof.
  intros Hyx Hhd. destruct l as [| z l']; simpl.
  - constructor. exact Hyx.
  - destruct (key x <=? key z); constructor.
    + exact Hyx.
    + inversion Hhd; assumption.
Qed.

Lemma insert_by_Sorted (x : A) (l : list A) :
  Sorted (key_le key) l -> Sorted (key_le key) (insert_by key x l).
Proof.
  induction 1 as [| y l Hsorted IH Hhd]; simpl.
  - repeat constructor.
  - destruct (key x <=? key y) eqn:Hcmp.
    + constructor; [constructor; assumption |].
      constructor. apply Z.leb_le. exact Hcmp.
    + constructor; [exact IH |].
      apply insert_by_HdRel; [| exact Hhd].
      apply Z.leb_gt in Hcmp. lia.
Qed.

(** [sorted] gives a list that is ascending in the key. *)
Lemma sorted_Sorted (l : list A) : Sorted (key_le key) (sorted key l).
Proof.
  induction l as [| x l IH]; simpl; [constructor |].
  apply insert_by_Sorted, IH.
Qed.

Lemma insert_by_Forall (P : A -> Prop) (x : A) (l : list A) :
  P x -> Forall P l -> Forall P (insert_by key x l).
Proof.
  intros Hx. induction 1 as [| y l Hy Hl IH]; simpl.
  - repeat constructor. exact Hx.
  - destruct (key x <=? key y).
    + constructor; [exact Hx |]. constructor; assumption.
    + constructor; [exact Hy | exact IH].
Qed.

Lemma sorted_Forall (P : A -> Prop) (l : list A) :
  Forall P l -> Forall P (sorted key l).
Proof.
  induction 1 as [| x l Hx _ IH]; simpl; [constructor |].
  apply insert_by_Forall; assumption.
Qed.

End SortOrder.

(** [hash] is the identity on the integers from 0 up to the modulus. *)
Lemma py_hash_small (n : Z) : 0 <= n < hash_modulus -> py_hash n = n.
Proof.
  intros Hn. unfold py_hash.
  rewrite (Z.abs_eq n) by lia. rewrite (Z.mod_small n hash_modulus) by exact Hn.
  destruct (Z.eq_dec n 0) as [-> | Hnz]; [reflexivity |].
  rewrite Z.sgn_pos by lia.
  replace (1 * n) with n by lia.
  destruct (n =? -1) eqn:E; [apply Z.eqb_eq in E; lia | reflexivity].
Qed.

Lemma Sorted_hash_ascending (l : list Spendable) :
  Forall (fun x => 0 <= coin_value x < hash_modulus) l ->
  Sorted (key_le (fun x => py_hash (coin_value x))) l ->
  ascending l = true.
Proof.
  intros Hrange Hsorted. induction Hsorted as [| x l Hsorted IH Hhd]; [reflexivity |].
  inversion Hrange as [| ? ? Hx Hl]; subst.
  destruct l as [| y l']; [reflexivity |].
  change (ascending (x :: y :: l'))
    with ((coin_value x <=? coin_value y) && ascending (y :: l')).
  rewrite (IH Hl), andb_true_r.
  inversion Hhd as [| ? ? Hxy]; subst. unfold key_le in Hxy.
  inversion Hl as [| ? ? Hy _]; subst.
  rewrite !py_hash_small in Hxy by assumption.
  apply Z.leb_le. exact Hxy.
Qed.

(** Where every coin value lies between 0 and [2^61 - 2], the order by
    hash is the order by value. *)
Lemma sorted_by_hash_ascending_small (l : list Spendable) :
  Forall (fun x => 0 <= coin_value x < hash_modulus) l ->
  ascending (sorted (fun x => py_hash (coin_value x)) l) = true.
Proof.
  intros Hrange. apply Sorted_hash_ascending.
  - apply sorted_Forall, Hrange.
  - apply sorted_Sorted.
Qed.

(** C4. The list that [get_unspent_outputs] returns is sorted by the hash
    of the coin value, not by the coin value: for a provider that lists an
    output of [2^61 - 1] before an output of 1, the outputs come back in
    that order, which is not ascending. *)
Theorem unspent_outputs_sorted_by_hash :
  let run :=
    BitcoinServiceProviderConnector.get_unspent_outputs
      (Demo.registry bitcoin_mainnet Demo.two_outputs)
      (BitcoinServiceProviderConnector.mk bitcoin_mainnet false) "1Addr" Demo.quiet in
  fst run = Returned (Some [mkSpendable (2 ^ 61 - 1) [] [] 0; mkSpendable 1 [] [] 1]) /\
  ascending [mkSpendable (2 ^ 61 - 1) [] [] 0; mkSpendable 1 [] [] 1] = false /\
  py_hash (2 ^ 61 - 1) = 0.
Proof. repeat split. Qed.

(* ===================================================================== *)
(** * The fallback loops *)
(* ===================================================================== *)

Section Fallback.
Context `{Libs} {W : Type} `{Outside W}.
Variable connectors : gmap Chain (list (provider W)).

Lemma bind_ret_same {A : Type} (m : M W A) (w : W) :
  (let* x := m in ret x) w = m w.
Proof. unfold bind, ret. destruct (m w) as [[a | e |] w']; reflexivity. Qed.

Lemma first_success_after_failures {A : Type} (default : A) (pre post : list (M W A))
    (call : M W A) :
  forall w, fail_in_turn pre w ->
    first_success default (pre ++ call :: post) w =
    try_except call (fun _ => first_success default post) (after_calls pre w).
Proof.
  induction pre as [| c pre IH]; intros w Hfail; simpl in *; [reflexivity |].
  destruct Hfail as (e & w' & Hc & Hrest).
  unfold try_except at 1. rewrite Hc. simpl. apply IH, Hrest.
Qed.

Lemma first_success_found {A : Type} (default : A) (pre post : list (M W A))
    (call : M W A) (a : A) (w w' : W) :
  fail_in_turn pre w ->
  call (after_calls pre w) = (Returned a, w') ->
  first_success default (pre ++ call :: post) w = (Returned a, w').
Proof.
  intros Hfail Hcall. rewrite (first_success_after_failures _ _ _ _ _ Hfail).
  unfold try_except. rewrite Hcall. reflexivity.
Qed.

Lemma first_success_all_fail {A : Type} (default : A) (calls : list (M W A)) :
  forall w, fail_in_turn calls w ->
    first_success default calls w = (Returned default, after_calls calls w).
Proof.
  induction calls as [| c calls IH]; intros w Hfail; simpl in *; [reflexivity |].
  destruct Hfail as (e & w' & Hc & Hrest).
  unfold try_except. rewrite Hc. simpl. apply IH, Hrest.
Qed.

Lemma get_balance_loop_first_success (self : EthereumServiceProviderConnector.t)
    (address : string) (ms : list (provider W)) (w : W) :
  EthereumServiceProviderConnector.get_balance_loop self address ms w =
  first_success 0
    (map (fun m => call_get_balance m address (EthereumServiceProviderConnector.api_key self))
         (List.filter (fun m => negb (isinstance_BitcoindConnector m)) ms)) w.
Proof.
  revert w. induction ms as [| m rest IH]; intros w; simpl; [reflexivity |].
  destruct (isinstance_BitcoindConnector m); simpl; [apply IH |].
  unfold try_except. rewrite bind_ret_same.
  destruct (call_get_balance m address _ w) as [[b | e |] w']; try reflexivity.
  apply IH.
Qed.

Lemma get_address_nonce_loop_first_success (self : EthereumServiceProviderConnector.t)
    (address : string) (ms : list (provider W)) (w : W) :
  EthereumServiceProviderConnector.get_address_nonce_loop self address ms w =
  first_success 0
    (map (fun m => call_get_address_nonce m address
                     (EthereumServiceProviderConnector.api_key self)) ms) w.
Proof.
  revert w. induction ms as [| m rest IH]; intros w; simpl; [reflexivity |].
  unfold try_except. rewrite bind_ret_same.
  destruct (call_get_address_nonce m address _ w) as [[b | e |] w']; try reflexivity.
  apply IH.
Qed.

Lemma broadcast_tx_loop_first_success (self : EthereumServiceProviderConnector.t)
    (tx : string) (ms : list (provider W)) (w : W) :
  EthereumServiceProviderConnector.broadcast_tx_loop self tx ms w =
  first_success (PyStr "0xfail")
    (map (fun m => call_broadcast_tx m tx (EthereumServiceProviderConnector.api_key self))
         ms) w.
Proof.
  revert w. induction ms as [| m rest IH]; intros w; simpl; [reflexivity |].
  unfold try_except. rewrite bind_ret_same.
  destruct (call_broadcast_tx m tx _ w) as [[b | e |] w']; try reflexivity.
  apply IH.
Qed.

Lemma spendables_loop_first_success (address : string)
    (ms : list (string -> M W (list Spendable))) (w : W) :
  BitcoinServiceProviderConnector.spendables_loop address ms w =
  first_success [] (map (fun m => m address) ms) w.
Proof.
  revert w. induction ms as [| m rest IH]; intros w; simpl; [reflexivity |].
  unfold try_except. rewrite bind_ret_same.
  destruct (m address w) as [[b | e |] w']; try reflexivity.
  apply IH.
Qed.

(** X1. The ethereum balance and nonce lookups return what the first
    provider that does not raise returns, in the state that provider's
    call leaves: the providers after it are not asked.  The balance lookup
    leaves out the [BitcoindConnector] objects; the nonce lookup asks every
    provider. *)
Theorem ethereum_reads_first_success :
  forall (self : EthereumServiceProviderConnector.t) (address : string)
         (pre post : list (provider W)) (m : provider W) (n : Z) (w w' : W),
    get_providers_for_chain connectors
      (EthereumServiceProviderConnector.ethereum_chain self)
      (EthereumServiceProviderConnector.local_node self)
    = Returned (pre ++ m :: post)%list ->
    (let calls :=
       map (fun p => call_get_balance p address
                       (EthereumServiceProviderConnector.api_key self))
           (List.filter (fun p => negb (isinstance_BitcoindConnector p)) pre) in
     isinstance_BitcoindConnector m = false ->
     fail_in_turn calls w ->
     call_get_balance m address (EthereumServiceProviderConnector.api_key self)
       (after_calls calls w) = (Returned n, w') ->
     EthereumServiceProviderConnector.get_balance connectors self address w
     = (Returned n, w')) /\
    (let calls :=
       map (fun p => call_get_address_nonce p address
                       (EthereumServiceProviderConnector.api_key self)) pre in
     fail_in_turn calls w ->
     call_get_address_nonce m address (EthereumServiceProviderConnector.api_key self)
       (after_calls calls w) = (Returned n, w') ->
     EthereumServiceProviderConnector.get_address_nonce connectors self address w
     = (Returned n, w')).
Proof.
  intros self address pre post m n w w' Hps. split.
  - intros calls Hm Hfail Hcall.
    unfold EthereumServiceProviderConnector.get_balance, bind, lift. rewrite Hps.
    rewrite get_balance_loop_first_success.
    rewrite List.filter_app, map_app. simpl. rewrite Hm. simpl.
    apply first_success_found; assumption.
  - intros calls Hfail Hcall.
    unfold EthereumServiceProviderConnector.get_address_nonce, bind, lift. rewrite Hps.
    rewrite get_address_nonce_loop_first_success.
    rewrite map_app. simpl.
    apply first_success_found; assumption.
Qed.

(** X2. The bitcoin unspent-output lookup returns the list of the first
    provider with the method that does not raise, and asks no provider
    after it.  An empty list from that provider is final: the providers
    after it are not asked either, [get_unspent_outputs] returns [None]
    and [get_balance] returns 0. *)
Theorem spendables_first_success :
  forall (self : BitcoinServiceProviderConnector.t) (address : string)
         (ps : list (provider W)) (pre post : list (string -> M W (list Spendable)))
         (m : string -> M W (list Spendable)) (l : list Spendable) (w w' : W),
    get_providers_for_chain connectors
      (BitcoinServiceProviderConnector.bitcoin_chain self)
      (BitcoinServiceProviderConnector.bitcoind self) = Returned ps ->
    service_provider_methods getattr_spendables_for_address ps = (pre ++ m :: post)%list ->
    fail_in_turn (map (fun f => f address) pre) w ->
    m address (after_calls (map (fun f => f address) pre) w) = (Returned l, w') ->
    BitcoinServiceProviderConnector.spendables_for_address connectors self address w
    = (Returned l, w') /\
    (l = [] ->
     BitcoinServiceProviderConnector.get_unspent_outputs connectors self address w
     = (Returned None, w') /\
     BitcoinServiceProviderConnector.get_balance connectors self address w
     = (Returned 0, w')).
Proof.
  intros self address ps pre post m l w w' Hps Hms Hfail Hcall.
  assert (Hs : BitcoinServiceProviderConnector.spendables_for_address connectors self
                 address w = (Returned l, w')).
  { unfold BitcoinServiceProviderConnector.spendables_for_address, bind, lift.
    rewrite Hps, Hms, spendables_loop_first_success, map_app. simpl.
    apply first_success_found; assumption. }
  split; [exact Hs |]. intros ->.
  unfold BitcoinServiceProviderConnector.get_balance,
    BitcoinServiceProviderConnector.get_unspent_outputs, bind.
  rewrite Hs. split; reflexivity.
Qed.

(** X3. The ethereum broadcast returns what the first provider that does
    not raise returns, whatever that value is, and asks no provider after
    it.  When every provider raises it does not raise: it returns the
    string ['0xfail'], which is a true value like any transaction id. *)
Theorem ethereum_broadcast_fallback :
  forall (self : EthereumServiceProviderConnector.t) (tx : string)
         (ms : list (provider W)) (w : W),
    get_providers_for_chain connectors
      (EthereumServiceProviderConnector.ethereum_chain self)
      (EthereumServiceProviderConnector.local_node self) = Returned ms ->
    let call := fun p => call_broadcast_tx p tx
                           (EthereumServiceProviderConnector.api_key self) in
    (forall (pre post : list (provider W)) (m : provider W) (v : pyval) (w' : W),
        ms = (pre ++ m :: post)%list ->
        fail_in_turn (map call pre) w ->
        call m (after_calls (map call pre) w) = (Returned v, w') ->
        EthereumServiceProviderConnector.broadcast_tx connectors self tx w
        = (Returned v, w')) /\
    (fail_in_turn (map call ms) w ->
     EthereumServiceProviderConnector.broadcast_tx connectors self tx w
     = (Returned (PyStr "0xfail"), after_calls (map call ms) w) /\
     truthy (PyStr "0xfail") = true).
Proof.
  intros self tx ms w Hps call.
  unfold EthereumServiceProviderConnector.broadcast_tx, bind, lift. rewrite Hps.
  rewrite broadcast_tx_loop_first_success. fold call. split.
  - intros pre post m v w' -> Hfail Hcall. rewrite map_app. simpl.
    apply first_success_found; assumption.
  - intros Hfail. split; [| reflexivity].
    apply first_success_all_fail, Hfail.
Qed.

(** X4. With the local-node flag set, the ethereum connector asks no
    provider of the registry.  On a chain for which
    [helpers.to_pycoin_chain] gives a netcode the only provider is a
    [BitcoindConnector], which the balance lookup skips, which has no
    [get_address_nonce], and whose [broadcast_tx] does not take an api key:
    the balance and the nonce are 0, the broadcast gives ['0xfail'], and
    the world is left as it was.  On a chain for which the helper raises,
    the three operations raise the helper's exception, which the [try] of
    the provider loop does not cover, and the world is left as it was. *)
Theorem ethereum_local_node_asks_nobody :
  forall (chain : Chain) (api_key : option string) (address tx : string) (w : W),
    let self := EthereumServiceProviderConnector.mk chain api_key true in
    (forall netcode : string,
        to_pycoin_chain chain = Returned netcode ->
        EthereumServiceProviderConnector.get_balance connectors self address w
        = (Returned 0, w) /\
        EthereumServiceProviderConnector.get_address_nonce connectors self address w
        = (Returned 0, w) /\
        EthereumServiceProviderConnector.broadcast_tx connectors self tx w
        = (Returned (PyStr "0xfail"), w)) /\
    (forall e : exn,
        to_pycoin_chain chain = Raised e ->
        EthereumServiceProviderConnector.get_balance connectors self address w
        = (Raised e, w) /\
        EthereumServiceProviderConnector.get_address_nonce connectors self address w
        = (Raised e, w) /\
        EthereumServiceProviderConnector.broadcast_tx connectors self tx w
        = (Raised e, w)).
Proof.
  intros chain api_key address tx w self.
  unfold EthereumServiceProviderConnector.get_balance,
    EthereumServiceProviderConnector.get_address_nonce,
    EthereumServiceProviderConnector.broadcast_tx, get_providers_for_chain, bind, lift.
  simpl. split.
  - intros netcode Hnet. rewrite Hnet. repeat split.
  - intros e Hnet. rewrite Hnet. repeat split.
Qed.

(** X5. A chain without an entry in the registry is not a provider list
    whose providers all fail: without the local-node flag, every query for
    it raises [KeyError] at once.  The read queries do not return their
    sentinel, and the bitcoin broadcast neither retries nor sleeps nor
    raises [BroadcastError]. *)
Theorem unconfigured_chain_raises_KeyError :
  forall (chain : Chain) (api_key : option string) (address raw_tx : string) (tx : Tx)
         (w : W),
    connectors !! chain = None ->
    let eth := EthereumServiceProviderConnector.mk chain api_key false in
    let btc := BitcoinServiceProviderConnector.mk chain false in
    let key_error := KeyError (chain_name chain) in
    EthereumServiceProviderConnector.get_balance connectors eth address w
    = (Raised key_error, w) /\
    EthereumServiceProviderConnector.get_address_nonce connectors eth address w
    = (Raised key_error, w) /\
    EthereumServiceProviderConnector.broadcast_tx connectors eth raw_tx w
    = (Raised key_error, w) /\
    BitcoinServiceProviderConnector.spendables_for_address connectors btc address w
    = (Raised key_error, w) /\
    BitcoinServiceProviderConnector.get_unspent_outputs connectors btc address w
    = (Raised key_error, w) /\
    BitcoinServiceProviderConnector.get_balance connectors btc address w
    = (Raised key_error, w) /\
    BitcoinServiceProviderConnector.broadcast_tx connectors btc tx w
    = (Raised key_error, w).
Proof.
  intros chain api_key address raw_tx tx w Hnone eth btc key_error.
  unfold EthereumServiceProviderConnector.get_balance,
    EthereumServiceProviderConnector.get_address_nonce,
    EthereumServiceProviderConnector.broadcast_tx,
    BitcoinServiceProviderConnector.get_balance,
    BitcoinServiceProviderConnector.get_unspent_outputs,
    BitcoinServiceProviderConnector.spendables_for_address,
    BitcoinServiceProviderConnector.broadcast_tx,
    BitcoinServiceProviderConnector.broadcast_tx_with_chain,
    get_providers_for_chain, bind, lift.
  simpl. unfold bind, lift, get_providers_for_chain. rewrite Hnone. repeat split.
Qed.

(** X6. Whatever pycoin provides, the registry built at import has an
    entry for the two bitcoin and the two ethereum chains and for no other
    chain: none for the mock chain. *)
Theorem initial_connectors_chains
    (btc_config xtn_config : list (provider W))
    (insight_btc chainso_btc chainso_xtn : provider W) (chain : Chain) :
  is_Some (initial_connectors btc_config xtn_config insight_btc chainso_btc chainso_xtn
             !! chain) <->
  chain <> mockchain.
Proof.
  unfold initial_connectors.
  destruct chain; simpl; split; intros Hc; try congruence;
    try (eexists; reflexivity); try (destruct Hc as [x Hx]; discriminate).
Qed.


End Fallback.

Lemma ethereum_reads_first_success_witness :
  EthereumServiceProviderConnector.get_balance
    (Demo.registry ethereum_mainnet Scenario.accounts)
    (EthereumServiceProviderConnector.mk ethereum_mainnet None false) "0xabc" Demo.quiet
  = (Returned 7, Demo.log (Demo.Called "b") (Demo.log (Demo.Called "a") Demo.quiet)) /\
  EthereumServiceProviderConnector.get_address_nonce
    (Demo.registry ethereum_mainnet Scenario.accounts)
    (EthereumServiceProviderConnector.mk ethereum_mainnet None false) "0xabc" Demo.quiet
  = (Returned 7, Demo.log (Demo.Called "b") (Demo.log (Demo.Called "a") Demo.quiet)).
Proof.
  pose proof (@ethereum_reads_first_success Demo.libs Demo.world Demo.outside
                (Demo.registry ethereum_mainnet Scenario.accounts)
                (EthereumServiceProviderConnector.mk ethereum_mainnet None false) "0xabc"
                [BitcoindConnector "BTC";
                 Demo.account_service "a" (Raised (ConnectorError "a is down"))]
                [Demo.account_service "c" (Returned 9)]
                (Demo.account_service "b" (Returned 7)) 7 Demo.quiet
                (Demo.log (Demo.Called "b") (Demo.log (Demo.Called "a") Demo.quiet))
                eq_refl) as [Hbalance Hnonce].
  split.
  - apply Hbalance; [reflexivity | | reflexivity].
    simpl. eexists. eexists. split; [reflexivity | exact I].
  - apply Hnonce; [| reflexivity].
    simpl. repeat (eexists; eexists; split; [reflexivity |]). exact I.
Defined.

Lemma spendables_first_success_witness :
  BitcoinServiceProviderConnector.spendables_for_address
    (Demo.registry bitcoin_testnet Scenario.listers)
    (BitcoinServiceProviderConnector.mk bitcoin_testnet false) "mkAddr" Demo.quiet
  = (Returned [], Demo.log (Demo.Called "b") (Demo.log (Demo.Called "a") Demo.quiet)) /\
  BitcoinServiceProviderConnector.get_balance
    (Demo.registry bitcoin_testnet Scenario.listers)
    (BitcoinServiceProviderConnector.mk bitcoin_testnet false) "mkAddr" Demo.quiet
  = (Returned 0, Demo.log (Demo.Called "b") (Demo.log (Demo.Called "a") Demo.quiet)).
Proof.
  pose proof (@spendables_first_success Demo.libs Demo.world Demo.outside
                (Demo.registry bitcoin_testnet Scenario.listers)
                (BitcoinServiceProviderConnector.mk bitcoin_testnet false) "mkAddr"
                Scenario.listers
                [fun _ w => (Raised (ConnectorError "a is down"),
                             Demo.log (Demo.Called "a") w)]
                [fun _ w => (Returned [Demo.spendable_of 5], Demo.log (Demo.Called "c") w)]
                (fun _ w => (Returned [], Demo.log (Demo.Called "b") w))
                [] Demo.quiet
                (Demo.log (Demo.Called "b") (Demo.log (Demo.Called "a") Demo.quiet))
                eq_refl eq_refl) as Hfirst.
  destruct Hfirst as [Hlist Hempty]; [| reflexivity |].
  - simpl. eexists. eexists. split; [reflexivity | exact I].
  - split; [exact Hlist |]. apply (Hempty eq_refl).
Defined.

Lemma ethereum_broadcast_fallback_witness :
  EthereumServiceProviderConnector.broadcast_tx
    (Demo.registry ethereum_mainnet Scenario.eth_broadcasters)
    (EthereumServiceProviderConnector.mk ethereum_mainnet None false) "f8" Demo.quiet
  = (Returned (PyStr "0xabc"),
     Demo.log (Demo.Called "b") (Demo.log (Demo.Called "a") Demo.quiet)) /\
  EthereumServiceProviderConnector.broadcast_tx
    (Demo.registry ethereum_mainnet
       [Demo.broadcaster "a" (Raised (ConnectorError "a is down"));
        Demo.lister "l" (Returned [])])
    (EthereumServiceProviderConnector.mk ethereum_mainnet None false) "f8" Demo.quiet
  = (Returned (PyStr "0xfail"), Demo.log (Demo.Called "a") Demo.quiet).
Proof.
  split.
  - pose proof (@ethereum_broadcast_fallback Demo.libs Demo.world Demo.outside
                  (Demo.registry ethereum_mainnet Scenario.eth_broadcasters)
                  (EthereumServiceProviderConnector.mk ethereum_mainnet None false) "f8"
                  Scenario.eth_broadcasters Demo.quiet eq_refl) as [Hfirst _].
    apply (Hfirst [Demo.broadcaster "a" (Raised (ConnectorError "a is down"))]
             [Demo.broadcaster "c" (Returned (PyStr "0xdef"))]
             (Demo.broadcaster "b" (Returned (PyStr "0xabc"))));
      [reflexivity | | reflexivity].
    simpl. eexists. eexists. split; [reflexivity | exact I].
  - pose proof (@ethereum_broadcast_fallback Demo.libs Demo.world Demo.outside
                  (Demo.registry ethereum_mainnet
                     [Demo.broadcaster "a" (Raised (ConnectorError "a is down"));
                      Demo.lister "l" (Returned [])])
                  (EthereumServiceProviderConnector.mk ethereum_mainnet None false) "f8"
                  _ Demo.quiet eq_refl) as [_ Hnone].
    apply Hnone.
    simpl. repeat (eexists; eexists; split; [reflexivity |]). exact I.
Defined.

Lemma ethereum_local_node_asks_nobody_witness :
  (to_pycoin_chain bitcoin_mainnet = Returned "BTC" /\
   EthereumServiceProviderConnector.broadcast_tx
     (Demo.registry bitcoin_mainnet Scenario.eth_broadcasters)
     (EthereumServiceProviderConnector.mk bitcoin_mainnet None true) "f8" Demo.quiet
   = (Returned (PyStr "0xfail"), Demo.quiet)) /\
  (to_pycoin_chain ethereum_mainnet = Raised (UnknownChainError "ethereum_mainnet") /\
   EthereumServiceProviderConnector.get_balance
     (Demo.registry ethereum_mainnet Scenario.eth_broadcasters)
     (EthereumServiceProviderConnector.mk ethereum_mainnet None true) "0xabc" Demo.quiet
   = (Raised (UnknownChainError "ethereum_mainnet"), Demo.quiet) /\
   EthereumServiceProviderConnector.get_address_nonce
     (Demo.registry ethereum_mainnet Scenario.eth_broadcasters)
     (EthereumServiceProviderConnector.mk ethereum_mainnet None true) "0xabc" Demo.quiet
   = (Raised (UnknownChainError "ethereum_mainnet"), Demo.quiet) /\
   EthereumServiceProviderConnector.broadcast_tx
     (Demo.registry ethereum_mainnet Scenario.eth_broadcasters)
     (EthereumServiceProviderConnector.mk ethereum_mainnet None true) "f8" Demo.quiet
   = (Raised (UnknownChainError "ethereum_mainnet"), Demo.quiet)).
Proof.
  pose proof (@ethereum_local_node_asks_nobody Demo.libs Demo.world Demo.outside
                (Demo.registry bitcoin_mainnet Scenario.eth_broadcasters)
                bitcoin_mainnet None "0xabc" "f8" Demo.quiet) as [Hnode _].
  pose proof (@ethereum_local_node_asks_nobody Demo.libs Demo.world Demo.outside
                (Demo.registry ethereum_mainnet Scenario.eth_broadcasters)
                ethereum_mainnet None "0xabc" "f8" Demo.quiet) as [_ Hraise].
  split.
  - split; [reflexivity |]. apply (Hnode "BTC"). reflexivity.
  - split; [reflexivity |].
    apply (Hraise (UnknownChainError "ethereum_mainnet")). reflexivity.
Defined.

Lemma unconfigured_chain_raises_KeyError_witness :
  Demo.registry ethereum_mainnet Scenario.accounts !! mockchain = None /\
  EthereumServiceProviderConnector.get_balance
    (Demo.registry ethereum_mainnet Scenario.accounts)
    (EthereumServiceProviderConnector.mk mockchain None false) "0xabc" Demo.quiet
  = (Raised (KeyError "mockchain"), Demo.quiet) /\
  BitcoinServiceProviderConnector.broadcast_tx
    (Demo.registry ethereum_mainnet Scenario.accounts)
    (BitcoinServiceProviderConnector.mk mockchain false) Demo.empty_tx Demo.quiet
  = (Raised (KeyError "mockchain"), Demo.quiet).
Proof.
  pose proof (@unconfigured_chain_raises_KeyError Demo.libs Demo.world Demo.outside
                (Demo.registry ethereum_mainnet Scenario.accounts)
                mockchain None "0xabc" "f8" Demo.empty_tx Demo.quiet eq_refl)
    as (Hbalance & _ & _ & _ & _ & _ & Hbroadcast).
  split; [reflexivity |]. split; [exact Hbalance | exact Hbroadcast].
Defined.

(* ===================================================================== *)
(** * More on the broadcast retry loop *)
(* ===================================================================== *)

Section BroadcastOutcomes.
Context `{Libs} {W : Type} `{Outside W}.
Variable connectors : gmap Chain (list (provider W)).

Import BitcoinServiceProviderConnector (locals, mkLocals, last_exception, final_tx_id).

Lemma call_each_after_calls (tx : Tx) (ms : list (broadcast_args -> M W pyval)) :
  forall (last : option exn) (w : W),
    snd (call_each tx ms last w) = after_calls (map (fun m => m (OneArg tx)) ms) w.
Proof.
  induction ms as [| m rest IH]; intros last w; simpl; [reflexivity |].
  destruct (m (OneArg tx) w) as [[v | e |] w']; simpl; apply IH.
Qed.

(** A pass in which every answer is the id [tx_id] or an exception keeps
    an id already held and takes the id as soon as it is answered. *)
Lemma broadcast_providers_agreeing (tx : Tx) (tx_id : string)
    (ms : list (broadcast_args -> M W pyval)) :
  tx_id <> "" ->
  forall (l : locals) (w : W),
    Forall (answers_id_or_raises tx_id) (answers (map (fun m => m (OneArg tx)) ms) w) ->
    final_tx_id l = PyStr tx_id \/ truthy (final_tx_id l) = false ->
    exists l',
      BitcoinServiceProviderConnector.broadcast_providers tx ms l w =
      (Returned l', after_calls (map (fun m => m (OneArg tx)) ms) w) /\
      (final_tx_id l' = PyStr tx_id \/ final_tx_id l' = final_tx_id l) /\
      (final_tx_id l = PyStr tx_id -> final_tx_id l' = PyStr tx_id) /\
      (In (Returned (PyStr tx_id)) (answers (map (fun m => m (OneArg tx)) ms) w) ->
       final_tx_id l' = PyStr tx_id).
Proof.
  intros Hid.
  assert (Htruthy : truthy (PyStr tx_id) = true).
  { simpl. destruct (String.eqb_spec tx_id ""); [congruence | reflexivity]. }
  assert (Hsame : py_neb (PyStr tx_id) (PyStr tx_id) = false).
  { unfold py_neb. simpl. rewrite String.eqb_refl. reflexivity. }
  induction ms as [| m rest IH]; intros l w Hall Hl; simpl in Hall |- *.
  - exists l. repeat split; tauto.
  - inversion Hall as [| r rs Hr Hrest]; subst.
    unfold bind. pose proof (broadcast_try_catches tx m l w) as Htry.
    destruct (m (OneArg tx) w) as [r w1] eqn:Hcall.
    cbn [fst snd] in Hr, Hrest |- *.
    destruct Hr as [-> | [e ->]]; cbv beta iota in Htry.
    + rewrite Htry, Htruthy.
      assert (Hnoconflict :
                truthy (final_tx_id l) && py_neb (final_tx_id l) (PyStr tx_id) = false).
      { destruct Hl as [-> | ->]; [rewrite Hsame; apply andb_false_r | reflexivity]. }
      rewrite Hnoconflict.
      destruct (IH (mkLocals (last_exception l) (PyStr tx_id)) w1 Hrest (or_introl eq_refl))
        as (l' & Hrun & _ & Hkeep & _).
      exists l'. simpl in Hkeep. rewrite (Hkeep eq_refl).
      split; [exact Hrun |]. repeat split; auto.
    + rewrite Htry.
      destruct (IH (mkLocals (Some e) (final_tx_id l)) w1 Hrest Hl)
        as (l' & Hrun & Hor & Hkeep & Hin).
      exists l'. simpl in *. split; [exact Hrun |]. repeat split; try assumption.
      intros [Hhere | Hlater]; [discriminate | apply Hin, Hlater].
Qed.

Lemma broadcast_attempts_next (tx : Tx) (bitcoin_chain : Chain) (bitcoind : bool)
    (ps : list (provider W)) (n : nat) (l : locals) (w : W) :
  get_providers_for_chain connectors bitcoin_chain bitcoind = Returned ps ->
  truthy (final_tx_id l) = false ->
  let ms := service_provider_methods getattr_broadcast_tx ps in
  let calls := map (fun m => m (OneArg tx)) ms in
  fail_in_turn calls w ->
  exists l',
    truthy (final_tx_id l') = false /\
    BitcoinServiceProviderConnector.broadcast_attempts connectors (S n) tx bitcoin_chain
      bitcoind l w =
    BitcoinServiceProviderConnector.broadcast_attempts connectors n tx bitcoin_chain
      bitcoind l' (time_sleep BROADCAST_RETRY_INTERVAL (after_calls calls w)).
Proof.
  intros Hps Hl ms calls Hfail.
  exists (mkLocals (fst (call_each tx ms (last_exception l) w)) (final_tx_id l)).
  split; [exact Hl |].
  simpl. unfold bind, lift, effect. rewrite Hps. fold ms.
  rewrite (broadcast_providers_all_raise tx ms l w Hfail). simpl. rewrite Hl.
  rewrite call_each_after_calls. reflexivity.
Qed.

Lemma broadcast_attempts_agreeing (tx : Tx) (bitcoin_chain : Chain) (bitcoind : bool)
    (ps : list (provider W)) (tx_id : string) :
  get_providers_for_chain connectors bitcoin_chain bitcoind = Returned ps ->
  tx_id <> "" ->
  let calls := map (fun m => m (OneArg tx)) (service_provider_methods getattr_broadcast_tx ps) in
  forall (k n : nat) (l : locals) (w : W),
    (k < n)%nat ->
    truthy (final_tx_id l) = false ->
    (forall j, (j < k)%nat -> fail_in_turn calls (after_passes calls j w)) ->
    Forall (answers_id_or_raises tx_id) (answers calls (after_passes calls k w)) ->
    In (Returned (PyStr tx_id)) (answers calls (after_passes calls k w)) ->
    BitcoinServiceProviderConnector.broadcast_attempts connectors n tx bitcoin_chain
      bitcoind l w =
    (Returned (PyStr tx_id), after_calls calls (after_passes calls k w)).
Proof.
  intros Hps Hid calls.
  induction k as [| k IH]; intros n l w Hkn Hl Hfails Hall Hin.
  - destruct n as [| n]; [lia |]. simpl in Hall, Hin |- *.
    destruct (broadcast_providers_agreeing tx tx_id _ Hid l w Hall (or_intror Hl))
      as (l' & Hrun & _ & _ & Hfound).
    unfold bind, lift, ret. rewrite Hps. fold calls in Hrun |- *. rewrite Hrun.
    rewrite (Hfound Hin).
    assert (Htruthy : truthy (PyStr tx_id) = true).
    { simpl. destruct (String.eqb_spec tx_id ""); [congruence | reflexivity]. }
    rewrite Htruthy. reflexivity.
  - destruct n as [| n]; [lia |].
    destruct (broadcast_attempts_next tx bitcoin_chain bitcoind ps n l w Hps Hl
                (Hfails 0%nat ltac:(lia))) as (l' & Hl' & ->).
    apply IH; [lia | exact Hl' | | exact Hall | exact Hin].
    intros j Hj. apply (Hfails (S j)). lia.
Qed.

(** X7. When, on the attempt that follows [k] passes in which every
    provider raised ([k] is 0, 1 or 2), every provider answers the same
    non-empty id or raises and at least one answers, the bitcoin broadcast
    returns that id once this pass is over: all providers of the pass have
    been called, [k] sleeps of 30 have been made, and none after the
    pass. *)
Theorem broadcast_returns_agreed_id :
  forall (tx : Tx) (bitcoin_chain : Chain) (bitcoind : bool) (ps : list (provider W))
         (tx_id : string) (k : nat) (w : W),
    get_providers_for_chain connectors bitcoin_chain bitcoind = Returned ps ->
    tx_id <> "" ->
    (k < 3)%nat ->
    let calls :=
      map (fun m => m (OneArg tx)) (service_provider_methods getattr_broadcast_tx ps) in
    (forall j, (j < k)%nat -> fail_in_turn calls (after_passes calls j w)) ->
    Forall (answers_id_or_raises tx_id) (answers calls (after_passes calls k w)) ->
    In (Returned (PyStr tx_id)) (answers calls (after_passes calls k w)) ->
    BitcoinServiceProviderConnector.broadcast_tx_with_chain connectors tx bitcoin_chain
      bitcoind w =
    (Returned (PyStr tx_id), after_calls calls (after_passes calls k w)).
Proof.
  intros tx chain bitcoind ps tx_id k w Hps Hid Hk calls Hfails Hall Hin.
  unfold BitcoinServiceProviderConnector.broadcast_tx_with_chain.
  apply (broadcast_attempts_agreeing tx chain bitcoind ps tx_id Hps Hid k);
    try assumption; reflexivity.
Qed.

Lemma broadcast_attempts_return_truthy (tx : Tx) (bitcoin_chain : Chain) (bitcoind : bool) :
  forall (n : nat) (l : locals) (w w' : W) (v : pyval),
    BitcoinServiceProviderConnector.broadcast_attempts connectors n tx bitcoin_chain
      bitcoind l w = (Returned v, w') ->
    truthy v = true.
Proof.
  induction n as [| n IH]; intros l w w' v; simpl; [discriminate |].
  unfold bind, lift, effect, ret.
  destruct (get_providers_for_chain connectors bitcoin_chain bitcoind) as [ps | e |];
    try discriminate.
  destruct (BitcoinServiceProviderConnector.broadcast_providers tx _ l w)
    as [[l' | e |] w1]; try discriminate.
  destruct (truthy (final_tx_id l')) eqn:Hl'.
  - intros [= <- _]. exact Hl'.
  - apply IH.
Qed.

(** X8. What the bitcoin broadcast gives its caller, once the registry has
    given a provider list: a value it returns is never [None] nor empty,
    and an exception it raises is never the one a provider raised, nor the
    one raised for conflicting ids; it is the [BroadcastError] raised when
    the attempts are used up. *)
Theorem broadcast_outcomes :
  forall (tx : Tx) (bitcoin_chain : Chain) (bitcoind : bool) (ps : list (provider W))
         (w w' : W),
    get_providers_for_chain connectors bitcoin_chain bitcoind = Returned ps ->
    (forall v : pyval,
        BitcoinServiceProviderConnector.broadcast_tx_with_chain connectors tx
          bitcoin_chain bitcoind w = (Returned v, w') ->
        truthy v = true) /\
    (forall e : exn,
        BitcoinServiceProviderConnector.broadcast_tx_with_chain connectors tx
          bitcoin_chain bitcoind w = (Raised e, w') ->
        exists last, e = BroadcastError [match last with
                                         | Some e' => ArgExn e'
                                         | None => ArgNone
                                         end]).
Proof.
  intros tx chain bitcoind ps w w' Hps. split.
  - intros v Hrun. exact (broadcast_attempts_return_truthy _ _ _ _ _ _ _ _ Hrun).
  - intros e Hrun.
    apply (broadcast_raises_only_when_exhausted connectors tx chain bitcoind ps Hps
             MAX_BROADCAST_ATTEMPTS (mkLocals None PyNone) w e).
    unfold BitcoinServiceProviderConnector.broadcast_tx_with_chain in Hrun.
    rewrite Hrun. reflexivity.
Qed.

(** X9. When no provider of the list has a [broadcast_tx] method (the list
    may be empty), the bitcoin broadcast still goes through its three
    attempts: it sleeps three times 30 and then raises
    [BroadcastError(None)]. *)
Theorem broadcast_without_broadcasters :
  forall (tx : Tx) (bitcoin_chain : Chain) (bitcoind : bool) (ps : list (provider W))
         (w : W),
    get_providers_for_chain connectors bitcoin_chain bitcoind = Returned ps ->
    service_provider_methods getattr_broadcast_tx ps = [] ->
    BitcoinServiceProviderConnector.broadcast_tx_with_chain connectors tx bitcoin_chain
      bitcoind w =
    (Raised (BroadcastError [ArgNone]), time_sleep 30 (time_sleep 30 (time_sleep 30 w))).
Proof.
  intros tx chain bitcoind ps w Hps Hnone.
  unfold BitcoinServiceProviderConnector.broadcast_tx_with_chain, MAX_BROADCAST_ATTEMPTS.
  simpl. unfold bind, lift, effect, ret, raise. rewrite Hps, Hnone. reflexivity.
Qed.

End BroadcastOutcomes.

Lemma broadcast_returns_agreed_id_witness :
  BitcoinServiceProviderConnector.broadcast_tx_with_chain
    (Demo.registry bitcoin_mainnet Scenario.agreeing) Demo.empty_tx bitcoin_mainnet false
    Demo.quiet
  = (Returned (PyStr "X"),
     Demo.log (Demo.Called "c")
       (Demo.log (Demo.Called "b") (Demo.log (Demo.Called "a") Demo.quiet))) /\
  (let run :=
     BitcoinServiceProviderConnector.broadcast_tx_with_chain
       (Demo.registry bitcoin_mainnet Scenario.late) Demo.empty_tx bitcoin_mainnet false
       Demo.quiet in
   fst run = Returned (PyStr "X") /\
   Demo.journal (snd run) = [Demo.Called "late"; Demo.Slept 30; Demo.Called "late"]).
Proof.
  assert (Hid : "X" <> "") by discriminate.
  split.
  - apply (@broadcast_returns_agreed_id Demo.libs Demo.world Demo.outside
             (Demo.registry bitcoin_mainnet Scenario.agreeing) Demo.empty_tx bitcoin_mainnet
             false Scenario.agreeing "X" 0%nat Demo.quiet eq_refl Hid).
    + lia.
    + intros j Hj. lia.
    + simpl.
      repeat (constructor;
              [(left; reflexivity) || (right; eexists; reflexivity) |]).
      constructor.
    + simpl. left. reflexivity.
  - cbv zeta.
    rewrite (@broadcast_returns_agreed_id Demo.libs Demo.world Demo.outside
               (Demo.registry bitcoin_mainnet Scenario.late) Demo.empty_tx bitcoin_mainnet
               false Scenario.late "X" 1%nat Demo.quiet eq_refl Hid).
    + split; reflexivity.
    + lia.
    + intros j Hj. assert (j = 0%nat) as -> by lia.
      simpl. eexists. eexists. split; [reflexivity | exact I].
    + simpl. constructor; [left; reflexivity | constructor].
    + simpl. left. reflexivity.
Defined.

Lemma broadcast_outcomes_witness :
  truthy (PyStr "X") = true /\
  exists last : option exn,
    BroadcastError [ArgExn (BroadcastError [ArgStr "rejected"])] =
    BroadcastError [match last with Some e' => ArgExn e' | None => ArgNone end].
Proof.
  split.
  - pose proof (@broadcast_outcomes Demo.libs Demo.world Demo.outside
                  (Demo.registry bitcoin_mainnet Demo.one_up) Demo.empty_tx bitcoin_mainnet
                  false Demo.one_up Demo.quiet
                  (Demo.log (Demo.Called "b") (Demo.log (Demo.Called "a") Demo.quiet))
                  eq_refl) as [Hreturned _].
    apply Hreturned. reflexivity.
  - pose proof (@broadcast_outcomes Demo.libs Demo.world Demo.outside
                  (Demo.registry bitcoin_mainnet Demo.all_down) Demo.empty_tx
                  bitcoin_mainnet false Demo.all_down Demo.quiet
                  (snd (BitcoinServiceProviderConnector.broadcast_tx_with_chain
                          (Demo.registry bitcoin_mainnet Demo.all_down) Demo.empty_tx
                          bitcoin_mainnet false Demo.quiet))
                  eq_refl) as [_ Hraised].
    apply Hraised. reflexivity.
Defined.

Lemma broadcast_without_broadcasters_witness :
  let run :=
    BitcoinServiceProviderConnector.broadcast_tx_with_chain
      (Demo.registry bitcoin_mainnet Scenario.wallet) Demo.empty_tx bitcoin_mainnet false
      Demo.quiet in
  fst run = Raised (BroadcastError [ArgNone]) /\
  Demo.journal (snd run) = [Demo.Slept 30; Demo.Slept 30; Demo.Slept 30].
Proof.
  cbv zeta.
  rewrite (@broadcast_without_broadcasters Demo.libs Demo.world Demo.outside
             (Demo.registry bitcoin_mainnet Scenario.wallet) Demo.empty_tx bitcoin_mainnet
             false Scenario.wallet Demo.quiet eq_refl eq_refl).
  split; reflexivity.
Defined.

(* ===================================================================== *)
(** * Unspent outputs and balance *)
(* ===================================================================== *)

Lemma fold_left_add_shift (l : list Z) (a : Z) :
  fold_left Z.add l a = a + fold_left Z.add l 0.
Proof.
  revert a. induction l as [| x l IH]; intros a; simpl; [lia |].
  rewrite (IH (a + x)), (IH (0 + x)). lia.
Qed.

Lemma py_sum_cons (x : Z) (l : list Z) : py_sum (x :: l) = x + py_sum l.
Proof. unfold py_sum. simpl. rewrite fold_left_add_shift. lia. Qed.

Lemma insert_by_Permutation {A : Type} (key : A -> Z) (x : A) (l : list A) :
  Permutation (insert_by key x l) (x :: l).
Proof.
  induction l as [| y l IH]; simpl; [reflexivity |].
  destruct (key x <=? key y); [reflexivity |].
  rewrite IH. apply perm_swap.
Qed.

(** [sorted] neither drops nor repeats an element. *)
Lemma sorted_Permutation {A : Type} (key : A -> Z) (l : list A) :
  Permutation (sorted key l) l.
Proof.
  induction l as [| x l IH]; simpl; [reflexivity |].
  rewrite insert_by_Permutation. rewrite IH. reflexivity.
Qed.

Lemma py_sum_Permutation (l l' : list Z) : Permutation l l' -> py_sum l = py_sum l'.
Proof.
  induction 1 as [| x l l' _ IH | x y l | l l' l'' _ IH1 _ IH2].
  - reflexivity.
  - rewrite !py_sum_cons, IH. reflexivity.
  - rewrite !py_sum_cons. lia.
  - congruence.
Qed.

Section UnspentOutputs.
Context `{Libs} {W : Type} `{Outside W}.
Variable connectors : gmap Chain (list (provider W)).

(** X10. Whatever list the unspent-output lookup obtains from a provider,
    [get_unspent_outputs] returns [None] when it is empty and otherwise a
    rearrangement of it, with no output lost or repeated, that is ascending
    in the hash of the coin value; it is ascending in the coin value when
    every coin value lies between 0 and [2^61 - 2]. *)
Theorem unspent_outputs_rearranged :
  forall (self : BitcoinServiceProviderConnector.t) (address : string)
         (l : list Spendable) (w w' : W),
    BitcoinServiceProviderConnector.spendables_for_address connectors self address w
    = (Returned l, w') ->
    (l = [] ->
     BitcoinServiceProviderConnector.get_unspent_outputs connectors self address w
     = (Returned None, w')) /\
    (l <> [] ->
     exists l',
       BitcoinServiceProviderConnector.get_unspent_outputs connectors self address w
       = (Returned (Some l'), w') /\
       Permutation l' l /\
       Sorted (key_le (fun x => py_hash (coin_value x))) l' /\
       (Forall (fun x => 0 <= coin_value x < hash_modulus) l -> ascending l' = true)).
Proof.
  intros self address l w w' Hs.
  unfold BitcoinServiceProviderConnector.get_unspent_outputs, bind. rewrite Hs.
  split.
  - intros ->. reflexivity.
  - intros Hne. destruct l as [| x l]; [congruence |].
    exists (sorted (fun x => py_hash (coin_value x)) (x :: l)).
    split; [reflexivity |]. split; [apply sorted_Permutation |].
    split; [apply sorted_Sorted |]. apply sorted_by_hash_ascending_small.
Qed.

(** X11. The bitcoin balance is the sum of the coin values of the list the
    unspent-output lookup obtains, 0 for the empty list: the order in which
    the outputs are sorted does not change it. *)
Theorem bitcoin_balance_is_sum :
  forall (self : BitcoinServiceProviderConnector.t) (address : string)
         (l : list Spendable) (w w' : W),
    BitcoinServiceProviderConnector.spendables_for_address connectors self address w
    = (Returned l, w') ->
    BitcoinServiceProviderConnector.get_balance connectors self address w
    = (Returned (py_sum (map coin_value l)), w').
Proof.
  intros self address l w w' Hs.
  unfold BitcoinServiceProviderConnector.get_balance,
    BitcoinServiceProviderConnector.get_unspent_outputs, bind.
  rewrite Hs. destruct l as [| x l]; [reflexivity |].
  pose proof (sorted_Permutation (fun x => py_hash (coin_value x)) (x :: l)) as Hperm.
  unfold ret.
  rewrite <- (py_sum_Permutation _ _ (Permutation_map coin_value Hperm)).
  destruct (sorted (fun x => py_hash (coin_value x)) (x :: l)) as [| y s];
    [| reflexivity].
  apply Permutation_nil in Hperm. discriminate.
Qed.

End UnspentOutputs.

Lemma unspent_outputs_rearranged_witness :
  (exists l',
      BitcoinServiceProviderConnector.get_unspent_outputs
        (Demo.registry bitcoin_mainnet Scenario.wallet)
        (BitcoinServiceProviderConnector.mk bitcoin_mainnet false) "1Addr" Demo.quiet
      = (Returned (Some l'), Demo.log (Demo.Called "a") Demo.quiet) /\
      Permutation l' [Demo.spendable_of 30; Demo.spendable_of 10; Demo.spendable_of 20] /\
      ascending l' = true) /\
  BitcoinServiceProviderConnector.get_unspent_outputs
    (Demo.registry bitcoin_testnet Scenario.listers)
    (BitcoinServiceProviderConnector.mk bitcoin_testnet false) "mkAddr" Demo.quiet
  = (Returned None, Demo.log (Demo.Called "b") (Demo.log (Demo.Called "a") Demo.quiet)).
Proof.
  split.
  - destruct (@unspent_outputs_rearranged Demo.libs Demo.world Demo.outside
                (Demo.registry bitcoin_mainnet Scenario.wallet)
                (BitcoinServiceProviderConnector.mk bitcoin_mainnet false) "1Addr"
                [Demo.spendable_of 30; Demo.spendable_of 10; Demo.spendable_of 20]
                Demo.quiet (Demo.log (Demo.Called "a") Demo.quiet) eq_refl)
      as [_ Hsome].
    destruct (Hsome ltac:(discriminate)) as (l' & Hrun & Hperm & _ & Hasc).
    exists l'. split; [exact Hrun |]. split; [exact Hperm |].
    apply Hasc. repeat constructor; simpl; unfold hash_modulus; lia.
  - destruct (@unspent_outputs_rearranged Demo.libs Demo.world Demo.outside
                (Demo.registry bitcoin_testnet Scenario.listers)
                (BitcoinServiceProviderConnector.mk bitcoin_testnet false) "mkAddr"
                [] Demo.quiet
                (Demo.log (Demo.Called "b") (Demo.log (Demo.Called "a") Demo.quiet))
                eq_refl) as [Hnone _].
    apply Hnone. reflexivity.
Defined.

Lemma bitcoin_balance_is_sum_witness :
  BitcoinServiceProviderConnector.get_balance
    (Demo.registry bitcoin_mainnet Scenario.wallet)
    (BitcoinServiceProviderConnector.mk bitcoin_mainnet false) "1Addr" Demo.quiet
  = (Returned 60, Demo.log (Demo.Called "a") Demo.quiet).
Proof.
  apply (@bitcoin_balance_is_sum Demo.libs Demo.world Demo.outside
           (Demo.registry bitcoin_mainnet Scenario.wallet)
           (BitcoinServiceProviderConnector.mk bitcoin_mainnet false) "1Addr"
           [Demo.spendable_of 30; Demo.spendable_of 10; Demo.spendable_of 20]
           Demo.quiet (Demo.log (Demo.Called "a") Demo.quiet) eq_refl).
Defined.

(* ===================================================================== *)
(** * The single connectors *)
(* ===================================================================== *)

Section Bitcoind.
Context `{Libs} {W : Type} `{Outside W}.

Lemma to_spendables_mapM (us : list unspent) :
  forall acc : list Spendable,
    BitcoindConnector.to_spendables us acc =
    match mapM spendable_of_unspent us with
    | Some l => Returned (acc ++ l)%list
    | None => Raised (AttributeError "'NoneType' object has no attribute 'hash'")
    end.
Proof.
  induction us as [| u us IH]; intros acc; simpl.
  - rewrite app_nil_r. reflexivity.
  - assert (Hu : BitcoindConnector.to_spendable u =
                 match spendable_of_unspent u with
                 | Some s => Returned s
                 | None => Raised (AttributeError "'NoneType' object has no attribute 'hash'")
                 end).
    { unfold BitcoindConnector.to_spendable, spendable_of_unspent.
      destruct (outpoint u) as [[previous_hash previous_index] |]; reflexivity. }
    rewrite Hu.
    destruct (spendable_of_unspent u) as [s |]; simpl; [| reflexivity].
    rewrite IH. unfold py_append.
    destruct (mapM spendable_of_unspent us) as [l |]; simpl; [| reflexivity].
    rewrite <- app_assoc. reflexivity.
Qed.

(** X12. The local node's unspent-output lookup gives one [Spendable] per
    entry that [listunspent] returns, in the same order, with the entry's
    amount as coin value, 0 for an entry without amount, and the entry's
    outpoint and script.  A single entry without outpoint makes the whole
    lookup raise [AttributeError]: no partial list is returned. *)
Theorem bitcoind_spendables_conversion :
  forall (netcode address : string) (us : list unspent) (w w' : W),
    rpc_listunspent address w = (Returned us, w') ->
    (forall l : list Spendable,
        mapM spendable_of_unspent us = Some l ->
        BitcoindConnector.spendables_for_address netcode address w = (Returned l, w') /\
        List.length l = List.length us) /\
    (mapM spendable_of_unspent us = None ->
     BitcoindConnector.spendables_for_address netcode address w =
     (Raised (AttributeError "'NoneType' object has no attribute 'hash'"), w')).
Proof.
  intros netcode address us w w' Hrpc.
  unfold BitcoindConnector.spendables_for_address, bind, lift.
  rewrite Hrpc, to_spendables_mapM. split.
  - intros l Hl. rewrite Hl. split; [reflexivity |].
    symmetry. apply (length_mapM _ _ _ Hl).
  - intros ->. reflexivity.
Qed.

End Bitcoind.

Lemma bitcoind_spendables_conversion_witness :
  @BitcoindConnector.spendables_for_address Demo.world
    (Scenario.node [Scenario.entry (Some 5) 0; Scenario.entry None 1]) "BTC" "1Addr"
    Demo.quiet
  = (Returned [mkSpendable 5 [] [] 0; mkSpendable 0 [] [] 1],
     Demo.log (Demo.Called "listunspent") Demo.quiet) /\
  @BitcoindConnector.spendables_for_address Demo.world
    (Scenario.node [Scenario.entry (Some 5) 0; Scenario.orphan]) "BTC" "1Addr" Demo.quiet
  = (Raised (AttributeError "'NoneType' object has no attribute 'hash'"),
     Demo.log (Demo.Called "listunspent") Demo.quiet).
Proof.
  split.
  - apply (@bitcoind_spendables_conversion Demo.world
             (Scenario.node [Scenario.entry (Some 5) 0; Scenario.entry None 1])
             "BTC" "1Addr" _ Demo.quiet _ eq_refl).
    reflexivity.
  - apply (@bitcoind_spendables_conversion Demo.world
             (Scenario.node [Scenario.entry (Some 5) 0; Scenario.orphan])
             "BTC" "1Addr" _ Demo.quiet _ eq_refl).
    reflexivity.
Defined.

Section HttpConnectors.
Context `{Libs} {W : Type} `{Outside W}.

(** The value of the field [key] of a JSON object, [None] without it. *)
Local Abbreviation field d key :=
  (match assoc key d with Some x => x | None => PyNone end).

Lemma response_json_returns (r : response) (v : pyval) (w w' : W) :
  response_json r w = (Returned v, w') <-> body_json r = Some v /\ w' = w.
Proof.
  unfold response_json, ret, raise. destruct (body_json r) as [j |]; split.
  - intros [= -> ->]. split; reflexivity.
  - intros [[= ->] ->]. reflexivity.
  - discriminate.
  - intros [[=] _].
Qed.

Lemma py_get_returns (j v : pyval) (key : string) (w w' : W) :
  py_get j key w = (Returned v, w') <->
  exists d, j = PyDict d /\ v = field d key /\ w' = w.
Proof.
  unfold py_get, ret, raise. split.
  - destruct j as [| | | | | d]; try discriminate.
    intros [= <- <-]. exists d. repeat split.
  - intros (d & -> & -> & ->). reflexivity.
Qed.

(** What an HTTP connector does with the answer to its request: it goes on
    with [k] for a response of status 200 and raises [BroadcastError] on
    the other ones. *)
Lemma request_then_returns {A : Type} (request : M W response) (k : response -> M W A)
    (on_error : response -> exn) (a : A) (w w' : W) :
  (let* response := request in
   if status_code response =? 200 then k response else raise (on_error response)) w
  = (Returned a, w') <->
  exists resp w1,
    request w = (Returned resp, w1) /\ status_code resp = 200 /\ k resp w1 = (Returned a, w').
Proof.
  unfold bind. split.
  - destruct (request w) as [[resp | e |] w1]; try discriminate.
    destruct (Z.eqb_spec (status_code resp) 200) as [H200 | Hnot]; [| discriminate].
    intros Hk. exists resp, w1. repeat split; assumption.
  - intros (resp & w1 & -> & H200 & Hk). rewrite H200. exact Hk.
Qed.

Lemma field_then_returns {A : Type} (resp : response) (key : string)
    (k : pyval -> M W A) (a : A) (w w' : W) :
  (let* j := response_json resp in let* v := py_get j key in k v) w = (Returned a, w') <->
  exists d, body_json resp = Some (PyDict d) /\ k (field d key) w = (Returned a, w').
Proof.
  unfold bind. split.
  - destruct (response_json resp w) as [[j | e |] w1] eqn:Ej; try discriminate.
    apply response_json_returns in Ej as [Ej ->].
    destruct (py_get j key w) as [[v | e |] w2] eqn:Ev; try discriminate.
    apply py_get_returns in Ev as (d & -> & -> & ->).
    intros Hk. exists d. split; assumption.
  - intros (d & Hbody & Hk).
    unfold response_json, py_get, ret. rewrite Hbody. exact Hk.
Qed.

(** X13. The Etherscan connector returns a value only for a response of
    status 200 whose body is a JSON object: [broadcast_tx] then returns
    the field [result] as it is, [None] when the object has none;
    [get_balance] and [get_address_nonce] return it converted by [int],
    in base 10 and in the base its prefix tells, and return nothing when
    it cannot be converted.  Each sends one request, to the URL shown. *)
Theorem etherscan_returns_iff :
  forall (base_url : string) (api_token : option string) (w w' : W),
    (forall (tx : string) (v : pyval),
        EtherscanBroadcaster.broadcast_tx base_url tx api_token w = (Returned v, w') <->
        exists resp d,
          requests_post (base_url +:+ "?module=proxy&action=eth_sendRawTransaction")
            (FormData [("hex", tx)]) w = (Returned resp, w') /\
          status_code resp = 200 /\ body_json resp = Some (PyDict d) /\
          v = field d "result") /\
    (forall (address : string) (n : Z),
        EtherscanBroadcaster.get_balance base_url address api_token w = (Returned n, w') <->
        exists resp d,
          requests_get
            (((base_url +:+ "?module=account&action=balance") +:+ ("&address=" +:+ address))
               +:+ "&tag=latest") w = (Returned resp, w') /\
          status_code resp = 200 /\ body_json resp = Some (PyDict d) /\
          py_int (field d "result") w' = (Returned n, w')) /\
    (forall (address : string) (n : Z),
        EtherscanBroadcaster.get_address_nonce base_url address api_token w
        = (Returned n, w') <->
        exists resp d,
          requests_get
            (((base_url +:+ "?module=proxy&action=eth_getTransactionCount")
                +:+ ("&address=" +:+ address)) +:+ "&tag=latest") w = (Returned resp, w') /\
          status_code resp = 200 /\ body_json resp = Some (PyDict d) /\
          py_int_base0 (field d "result") w' = (Returned n, w')).
Proof.
  intros base_url api_token w w'. split; [| split].
  - intros tx v. unfold EtherscanBroadcaster.broadcast_tx. cbv zeta.
    rewrite request_then_returns. split.
    + intros (resp & w1 & Hreq & H200 & Hk).
      apply field_then_returns in Hk as (d & Hbody & [= <- <-]).
      exists resp, d. repeat split; assumption.
    + intros (resp & d & Hreq & H200 & Hbody & ->).
      exists resp, w'. repeat split; try assumption.
      apply field_then_returns. exists d. split; [assumption | reflexivity].
  - intros address n. unfold EtherscanBroadcaster.get_balance. cbv zeta.
    rewrite request_then_returns. split.
    + intros (resp & w1 & Hreq & H200 & Hk).
      apply field_then_returns in Hk as (d & Hbody & Hint).
      assert (w1 = w') as ->.
      { unfold bind, py_int, ret, raise in Hint.
        destruct (field d "result") as [| b | z | s | l | d']; try discriminate;
          try (injection Hint as _ Hw; exact Hw).
        destruct (int_of_str s); [injection Hint as _ Hw; exact Hw | discriminate]. }
      exists resp, d. repeat split; try assumption.
      rewrite <- bind_ret_same. exact Hint.
    + intros (resp & d & Hreq & H200 & Hbody & Hint).
      exists resp, w'. repeat split; try assumption.
      apply field_then_returns. exists d. split; [assumption |].
      rewrite bind_ret_same. exact Hint.
  - intros address n. unfold EtherscanBroadcaster.get_address_nonce. cbv zeta.
    rewrite request_then_returns. split.
    + intros (resp & w1 & Hreq & H200 & Hk).
      apply field_then_returns in Hk as (d & Hbody & Hint).
      assert (w1 = w') as ->.
      { unfold bind, py_int_base0, ret, raise in Hint.
        destruct (field d "result") as [| b | z | s | l | d']; try discriminate.
        destruct (int_of_str_base0 s); [injection Hint as _ Hw; exact Hw | discriminate]. }
      exists resp, d. repeat split; try assumption.
      rewrite <- bind_ret_same. exact Hint.
    + intros (resp & d & Hreq & H200 & Hbody & Hint).
      exists resp, w'. repeat split; try assumption.
      apply field_then_returns. exists d. split; [assumption |].
      rewrite bind_ret_same. exact Hint.
Qed.

(** X14. Each of the three bitcoin HTTP broadcasters sends one POST with
    the transaction in hex as JSON and returns a value only for a response
    of status 200 whose body is a JSON object: the field [txid] (for
    Blockr.IO the field [data]) as it is, [None] when the object has none.
    Blockcypher's token is part of the URL. *)
Theorem bitcoin_broadcasters_return_iff :
  forall (base_url : string) (tx : Tx) (v : pyval) (w w' : W),
    (BlockExplorerBroadcaster.broadcast_tx base_url tx w = (Returned v, w') <->
     exists resp d,
       requests_post (base_url +:+ "/tx/send") (JsonBody [("rawtx", to_hex tx)]) w
       = (Returned resp, w') /\
       status_code resp = 200 /\ body_json resp = Some (PyDict d) /\
       v = field d "txid") /\
    (forall api_token : string,
        BlockcypherBroadcaster.broadcast_tx base_url api_token tx w = (Returned v, w') <->
        exists resp d,
          requests_post ((base_url +:+ "/txs/push?token=") +:+ api_token)
            (JsonBody [("tx", to_hex tx)]) w = (Returned resp, w') /\
          status_code resp = 200 /\ body_json resp = Some (PyDict d) /\
          v = field d "txid") /\
    (BlockrIOBroadcaster.broadcast_tx base_url tx w = (Returned v, w') <->
     exists resp d,
       requests_post (base_url +:+ "/tx/push") (JsonBody [("hex", to_hex tx)]) w
       = (Returned resp, w') /\
       status_code resp = 200 /\ body_json resp = Some (PyDict d) /\
       v = field d "data").
Proof.
  intros base_url tx v w w'.
  assert (Hshape : forall (request : M W response) (key : string),
             (let* response := request in
              if status_code response =? 200 then
                let* j := response_json response in
                let* tx_id := py_get j key in
                ret tx_id
              else raise (BroadcastError [ArgStr (text response)])) w = (Returned v, w') <->
             exists resp d,
               request w = (Returned resp, w') /\
               status_code resp = 200 /\ body_json resp = Some (PyDict d) /\
               v = field d key).
  { intros request key. rewrite request_then_returns. split.
    - intros (resp & w1 & Hreq & H200 & Hk).
      apply field_then_returns in Hk as (d & Hbody & [= <- <-]).
      exists resp, d. repeat split; assumption.
    - intros (resp & d & Hreq & H200 & Hbody & ->).
      exists resp, w'. repeat split; try assumption.
      apply field_then_returns. exists d. split; [assumption | reflexivity]. }
  split; [| split].
  - apply Hshape.
  - intros api_token. apply Hshape.
  - apply Hshape.
Qed.

(** X15. On a response whose status is not 200, each HTTP connector raises
    [BroadcastError] on the text of the response, whatever the body holds;
    the Etherscan nonce lookup raises it on a fixed message and the
    text. *)
Theorem http_connectors_raise_on_status :
  forall (resp : response) (w w' : W),
    status_code resp <> 200 ->
    let error := BroadcastError [ArgStr (text resp)] in
    (forall (base_url tx : string) (api_token : option string),
        requests_post (base_url +:+ "?module=proxy&action=eth_sendRawTransaction")
          (FormData [("hex", tx)]) w = (Returned resp, w') ->
        EtherscanBroadcaster.broadcast_tx base_url tx api_token w = (Raised error, w')) /\
    (forall (base_url address : string) (api_token : option string),
        requests_get
          (((base_url +:+ "?module=account&action=balance") +:+ ("&address=" +:+ address))
             +:+ "&tag=latest") w = (Returned resp, w') ->
        EtherscanBroadcaster.get_balance base_url address api_token w = (Raised error, w')) /\
    (forall (base_url address : string) (api_token : option string),
        requests_get
          (((base_url +:+ "?module=proxy&action=eth_getTransactionCount")
              +:+ ("&address=" +:+ address)) +:+ "&tag=latest") w = (Returned resp, w') ->
        EtherscanBroadcaster.get_address_nonce base_url address api_token w =
        (Raised (BroadcastError
                   [ArgStr "Error checking the nonce through the Etherscan API. Error msg: %s";
                    ArgStr (text resp)]), w')) /\
    (forall (base_url : string) (tx : Tx),
        requests_post (base_url +:+ "/tx/send") (JsonBody [("rawtx", to_hex tx)]) w
        = (Returned resp, w') ->
        BlockExplorerBroadcaster.broadcast_tx base_url tx w = (Raised error, w')) /\
    (forall (base_url api_token : string) (tx : Tx),
        requests_post ((base_url +:+ "/txs/push?token=") +:+ api_token)
          (JsonBody [("tx", to_hex tx)]) w = (Returned resp, w') ->
        BlockcypherBroadcaster.broadcast_tx base_url api_token tx w = (Raised error, w')) /\
    (forall (base_url : string) (tx : Tx),
        requests_post (base_url +:+ "/tx/push") (JsonBody [("hex", to_hex tx)]) w
        = (Returned resp, w') ->
        BlockrIOBroadcaster.broadcast_tx base_url tx w = (Raised error, w')).
Proof.
  intros resp w w' Hstatus error.
  assert (Hnot : (status_code resp =? 200) = false) by (apply Z.eqb_neq; exact Hstatus).
  unfold EtherscanBroadcaster.broadcast_tx, EtherscanBroadcaster.get_balance,
    EtherscanBroadcaster.get_address_nonce, BlockExplorerBroadcaster.broadcast_tx,
    BlockcypherBroadcaster.broadcast_tx, BlockrIOBroadcaster.broadcast_tx, bind.
  cbv zeta.
  repeat split; intros; match goal with Hreq : _ = (Returned resp, w') |- _ =>
                                        rewrite Hreq, Hnot; reflexivity end.
Qed.

(** X16. On a response of status 200 whose body is a JSON object without
    the field [result], the Etherscan broadcast returns [None] and does
    not raise; the balance and nonce lookups raise [TypeError], since [int]
    does not take [None]. *)
Theorem etherscan_200_without_result :
  forall (resp : response) (d : list (string * pyval)) (w w' : W),
    status_code resp = 200 ->
    body_json resp = Some (PyDict d) ->
    assoc "result" d = None ->
    (forall (base_url tx : string) (api_token : option string),
        requests_post (base_url +:+ "?module=proxy&action=eth_sendRawTransaction")
          (FormData [("hex", tx)]) w = (Returned resp, w') ->
        EtherscanBroadcaster.broadcast_tx base_url tx api_token w = (Returned PyNone, w')) /\
    (forall (base_url address : string) (api_token : option string),
        requests_get
          (((base_url +:+ "?module=account&action=balance") +:+ ("&address=" +:+ address))
             +:+ "&tag=latest") w = (Returned resp, w') ->
        EtherscanBroadcaster.get_balance base_url address api_token w =
        (Raised (TypeError "int() argument must be a string or a number"), w')) /\
    (forall (base_url address : string) (api_token : option string),
        requests_get
          (((base_url +:+ "?module=proxy&action=eth_getTransactionCount")
              +:+ ("&address=" +:+ address)) +:+ "&tag=latest") w = (Returned resp, w') ->
        EtherscanBroadcaster.get_address_nonce base_url address api_token w =
        (Raised (TypeError "int() can't convert non-string with explicit base"), w')).
Proof.
  intros resp d w w' H200 Hbody Hnone.
  unfold EtherscanBroadcaster.broadcast_tx, EtherscanBroadcaster.get_balance,
    EtherscanBroadcaster.get_address_nonce, bind, response_json, py_get, ret.
  cbv zeta.
  repeat split; intros; match goal with Hreq : _ = (Returned resp, w') |- _ =>
                                        rewrite Hreq, H200, Hbody, Hnone; reflexivity end.
Qed.


(** X17. [try_get] returns the response of its GET request only when its
    status is 200, and then as it is.  For another status it raises
    [ConnectorError] on a message made of the status and of the field
    [error] of the body; when the body is a JSON object without that
    field it raises [KeyError], and when the body is not JSON,
    [ValueError]. *)
Theorem try_get_outcomes :
  forall (str_of_int : Z -> string) (str_of_value : pyval -> string) (url : string)
         (resp : response) (w w1 : W),
    requests_get url w = (Returned resp, w1) ->
    (status_code resp = 200 ->
     try_get str_of_int str_of_value url w = (Returned resp, w1)) /\
    (status_code resp <> 200 ->
     (forall (d : list (string * pyval)) (error : pyval),
         body_json resp = Some (PyDict d) -> assoc "error" d = Some error ->
         try_get str_of_int str_of_value url w =
         (Raised (ConnectorError
                    ((("Error! status_code=" +:+ str_of_int (status_code resp))
                        +:+ ", error=") +:+ str_of_value error)), w1)) /\
     (forall d : list (string * pyval),
         body_json resp = Some (PyDict d) -> assoc "error" d = None ->
         try_get str_of_int str_of_value url w = (Raised (KeyError "error"), w1)) /\
     (body_json resp = None ->
      try_get str_of_int str_of_value url w =
      (Raised (ValueError "No JSON object could be decoded"), w1)) /\
     (forall (r : response) (w' : W),
         try_get str_of_int str_of_value url w <> (Returned r, w'))).
Proof.
  intros str_of_int str_of_value url resp w w1 Hreq.
  unfold try_get, bind, response_json, py_getitem, ret, raise. rewrite Hreq. split.
  - intros ->. reflexivity.
  - intros Hstatus. apply Z.eqb_neq in Hstatus. rewrite Hstatus. simpl.
    repeat split.
    + intros d error -> ->. reflexivity.
    + intros d -> ->. reflexivity.
    + intros ->. reflexivity.
    + intros r w'. destruct (body_json resp) as [[| b | n | s | l | d] |];
        try discriminate.
      destruct (assoc "error" d); discriminate.
Qed.


(** X26. Where the registry holds a single Etherscan provider for a chain,
    as the registry built at import does for the two ethereum chains, a
    request that raises or a response whose status is not 200 does not
    reach the caller of the ethereum connector: the balance and the nonce
    come back as 0 and the broadcast as ['0xfail']. *)
Theorem etherscan_outage_gives_sentinels :
  forall (connectors : gmap Chain (list (provider W))) (chain : Chain) (base_url : string)
         (api_key : option string) (r : result response) (w w' : W),
    connectors !! chain = Some [EtherscanBroadcaster base_url] ->
    (match r with
     | Returned resp => status_code resp <> 200
     | Raised _ => True
     | Running => False
     end) ->
    let self := EthereumServiceProviderConnector.mk chain api_key false in
    (forall address : string,
        requests_get
          (((base_url +:+ "?module=account&action=balance") +:+ ("&address=" +:+ address))
             +:+ "&tag=latest") w = (r, w') ->
        EthereumServiceProviderConnector.get_balance connectors self address w
        = (Returned 0, w')) /\
    (forall address : string,
        requests_get
          (((base_url +:+ "?module=proxy&action=eth_getTransactionCount")
              +:+ ("&address=" +:+ address)) +:+ "&tag=latest") w = (r, w') ->
        EthereumServiceProviderConnector.get_address_nonce connectors self address w
        = (Returned 0, w')) /\
    (forall tx : string,
        requests_post (base_url +:+ "?module=proxy&action=eth_sendRawTransaction")
          (FormData [("hex", tx)]) w = (r, w') ->
        EthereumServiceProviderConnector.broadcast_tx connectors self tx w
        = (Returned (PyStr "0xfail"), w')).
Proof.
  intros connectors chain base_url api_key r w w' Hlookup Hr self.
  unfold EthereumServiceProviderConnector.get_balance,
    EthereumServiceProviderConnector.get_address_nonce,
    EthereumServiceProviderConnector.broadcast_tx, get_providers_for_chain, bind, lift.
  simpl. rewrite Hlookup. simpl.
  unfold try_except, bind, call_broadcast_tx. simpl.
  unfold EtherscanBroadcaster.get_balance, EtherscanBroadcaster.get_address_nonce,
    EtherscanBroadcaster.broadcast_tx, bind. cbv zeta.
  repeat split; intros; match goal with Hreq : _ = (r, w') |- _ => rewrite Hreq end;
    destruct r as [resp | e |]; try contradiction; try reflexivity;
    apply Z.eqb_neq in Hr; rewrite Hr; reflexivity.
Qed.

Lemma initial_connectors_ethereum
    (btc_config xtn_config : list (provider W))
    (insight_btc chainso_btc chainso_xtn : provider W) :
  initial_connectors btc_config xtn_config insight_btc chainso_btc chainso_xtn
    !! ethereum_mainnet = Some [EtherscanBroadcaster "https://api.etherscan.io/api"] /\
  initial_connectors btc_config xtn_config insight_btc chainso_btc chainso_xtn
    !! ethereum_ropsten = Some [EtherscanBroadcaster "https://ropsten.etherscan.io/api"].
Proof. split; reflexivity. Qed.


End HttpConnectors.

Lemma etherscan_returns_iff_witness :
  EtherscanBroadcaster.get_balance "https://api.etherscan.io/api" "0xabc" (Some "token")
    (Scenario.answering (Scenario.ok_result (PyStr "42")))
  = (Returned 42,
     Demo.log
       (Demo.Get
          "https://api.etherscan.io/api?module=account&action=balance&address=0xabc&tag=latest")
       (Scenario.answering (Scenario.ok_result (PyStr "42")))).
Proof.
  apply (@etherscan_returns_iff Demo.libs Demo.world Demo.outside).
  exists (Scenario.ok_result (PyStr "42")).
  exists [("jsonrpc", PyStr "2.0"); ("result", PyStr "42")].
  repeat split.
Defined.

Lemma bitcoin_broadcasters_return_iff_witness :
  BlockrIOBroadcaster.broadcast_tx "https://btc.blockr.io/api/v1" Demo.empty_tx
    (Scenario.answering (mkResponse 200 "" (Some (PyDict [("data", PyStr "X")]))))
  = (Returned (PyStr "X"),
     Demo.log Demo.blockr_post
       (Scenario.answering (mkResponse 200 "" (Some (PyDict [("data", PyStr "X")]))))).
Proof.
  apply (@bitcoin_broadcasters_return_iff Demo.libs Demo.world Demo.outside).
  exists (mkResponse 200 "" (Some (PyDict [("data", PyStr "X")]))).
  exists [("data", PyStr "X")].
  repeat split.
Defined.

Lemma http_connectors_raise_on_status_witness :
  503 <> 200 /\
  BlockrIOBroadcaster.broadcast_tx "https://btc.blockr.io/api/v1" Demo.empty_tx
    (Scenario.answering Scenario.server_error)
  = (Raised (BroadcastError [ArgStr "Service Unavailable"]),
     Demo.log Demo.blockr_post (Scenario.answering Scenario.server_error)).
Proof.
  assert (Hstatus : status_code Scenario.server_error <> 200) by discriminate.
  split; [discriminate |].
  apply (@http_connectors_raise_on_status Demo.libs Demo.world Demo.outside
           Scenario.server_error (Scenario.answering Scenario.server_error)
           (Demo.log Demo.blockr_post (Scenario.answering Scenario.server_error)) Hstatus).
  reflexivity.
Defined.

Lemma etherscan_200_without_result_witness :
  EtherscanBroadcaster.broadcast_tx "https://api.etherscan.io/api" "f8" None
    (Scenario.answering Scenario.ok_error)
  = (Returned PyNone,
     Demo.log
       (Demo.Post "https://api.etherscan.io/api?module=proxy&action=eth_sendRawTransaction"
          (FormData [("hex", "f8")]))
       (Scenario.answering Scenario.ok_error)).
Proof.
  apply (@etherscan_200_without_result Demo.libs Demo.world Demo.outside
           Scenario.ok_error
           [("jsonrpc", PyStr "2.0"); ("error", PyStr "nonce too low")]
           (Scenario.answering Scenario.ok_error) _ eq_refl eq_refl eq_refl).
  reflexivity.
Defined.

Lemma try_get_outcomes_witness :
  try_get (fun _ => "503") (fun _ => "busy") "https://blockexplorer.com/api/status"
    (Scenario.answering Scenario.server_error)
  = (Raised (ConnectorError "Error! status_code=503, error=busy"),
     Demo.log (Demo.Get "https://blockexplorer.com/api/status")
       (Scenario.answering Scenario.server_error)) /\
  try_get (fun _ => "503") (fun _ => "busy") "https://blockexplorer.com/api/status"
    (Scenario.answering Scenario.server_error_plain)
  = (Raised (KeyError "error"),
     Demo.log (Demo.Get "https://blockexplorer.com/api/status")
       (Scenario.answering Scenario.server_error_plain)).
Proof.
  split.
  - destruct (@try_get_outcomes Demo.world Demo.outside (fun _ => "503") (fun _ => "busy")
                "https://blockexplorer.com/api/status" Scenario.server_error
                (Scenario.answering Scenario.server_error) _ eq_refl) as [_ Hother].
    destruct (Hother ltac:(discriminate)) as (Herror & _).
    apply (Herror [("error", PyStr "busy")] (PyStr "busy")); reflexivity.
  - destruct (@try_get_outcomes Demo.world Demo.outside (fun _ => "503") (fun _ => "busy")
                "https://blockexplorer.com/api/status" Scenario.server_error_plain
                (Scenario.answering Scenario.server_error_plain) _ eq_refl) as [_ Hother].
    destruct (Hother ltac:(discriminate)) as (_ & Hmissing & _).
    apply (Hmissing []); reflexivity.
Defined.

(* ===================================================================== *)
(** * More on the secret manager and the signers *)
(* ===================================================================== *)

Section SafeMode.
Context `{Libs} {W : Type} `{Outside W}.

Lemma internet_on_answer (b : bool) (w w' : W) :
  internet_on w = (Returned b, w') ->
  if b then exists r, requests_get "http://google.com" w = (Returned r, w')
  else exists msg, requests_get "http://google.com" w = (Raised (RequestException msg), w').
Proof.
  unfold internet_on, try_except, bind, ret, raise.
  destruct (requests_get "http://google.com" w) as [[r | e |] w1]; try discriminate.
  - intros [= <- <-]. exists r. reflexivity.
  - destruct e; try discriminate. intros [= <- <-]. eexists. reflexivity.
Qed.

(** The wait for the offline state ends in one way only: by returning
    [True] from a poll that found the network unreachable and then the key
    file present. *)
Lemma check_internet_off_returns (path : string) (n : nat) :
  forall (w w' : W) (b : bool),
    check_internet_off n path w = (Returned b, w') ->
    b = true /\
    exists w0 w1 msg,
      requests_get "http://google.com" w0 = (Raised (RequestException msg), w1) /\
      os_path_exists path w1 = (Returned true, w').
Proof.
  induction n as [| n IH]; intros w w' b; simpl; [discriminate |].
  unfold bind.
  destruct (internet_on w) as [[on | e |] w1] eqn:Eon; try discriminate.
  apply internet_on_answer in Eon.
  destruct on; simpl.
  - unfold effect. apply IH.
  - destruct Eon as [msg Hreq].
    destruct (os_path_exists path w1) as [[present | e |] w2] eqn:Eexists;
      try discriminate.
    destruct present.
    + intros [= <- <-]. split; [reflexivity |]. exists w, w1, msg. split; assumption.
    + unfold effect. apply IH.
Qed.

(** The wait for the online state ends by returning [True] from a poll
    that found the network reachable and then the key file absent. *)
Lemma check_internet_on_returns (path : string) (n : nat) :
  forall (w w' : W) (b : bool),
    check_internet_on n path w = (Returned b, w') ->
    b = true /\
    exists w0 w1 r,
      requests_get "http://google.com" w0 = (Returned r, w1) /\
      os_path_exists path w1 = (Returned false, w').
Proof.
  induction n as [| n IH]; intros w w' b; simpl; [discriminate |].
  unfold bind.
  destruct (internet_on w) as [[on | e |] w1] eqn:Eon; try discriminate.
  apply internet_on_answer in Eon.
  destruct on; simpl.
  - destruct Eon as [r Hreq]. unfold bind.
    destruct (os_path_exists path w1) as [[present | e |] w2] eqn:Eexists;
      try discriminate.
    destruct present; simpl.
    + unfold effect. apply IH.
    + intros [= <- <-]. split; [reflexivity |]. exists w, w1, r. split; assumption.
  - unfold effect. apply IH.
Qed.

(** X18. In safe mode, when [start] returns, the key file was read in the
    very state left by a poll in which the request to the network raised
    [RequestException] and the key file was then found present; the key
    held is the stripped content of the file. *)
Theorem safe_start_reads_key_offline :
  forall (fuel : nat) (sm : FileSecretManager.t) (w : W) (s1 : FileSecretManager.t * W),
    FileSecretManager.safe_mode sm = true ->
    FileSecretManager.start fuel (sm, w) = (Returned tt, s1) ->
    exists (w0 w1 w2 : W) (msg content : string),
      requests_get "http://google.com" w0 = (Raised (RequestException msg), w1) /\
      os_path_exists (FileSecretManager.path_to_secret sm) w1 = (Returned true, w2) /\
      read_file (FileSecretManager.path_to_secret sm) w2 = (Returned content, snd s1) /\
      FileSecretManager.wif (fst s1) = Some (py_strip content).
Proof.
  intros fuel sm w s1 Hsafe.
  unfold FileSecretManager.start, FileSecretManager.set_wif, bind, get_self, set_self,
    in_world, import_key, ret. cbn. rewrite Hsafe. cbn.
  destruct (check_internet_off fuel (FileSecretManager.path_to_secret sm) w)
    as [[b | e |] w2] eqn:Eoff; cbn; try discriminate.
  apply check_internet_off_returns in Eoff as (_ & w0 & w1 & msg & Hreq & Hexists).
  unfold bind.
  destruct (read_file (FileSecretManager.path_to_secret sm) w2) as [[content | e |] w3]
    eqn:Eread; cbn; try discriminate.
  intros [= <-]. exists w0, w1, w2, msg, content. cbn. repeat split; assumption.
Qed.

(** X19. In safe mode, when [stop] returns, the secret is cleared and the
    last poll found the network reachable and then the key file absent. *)
Theorem safe_stop_waits_until_online :
  forall (fuel : nat) (sm : FileSecretManager.t) (w : W) (s1 : FileSecretManager.t * W),
    FileSecretManager.safe_mode sm = true ->
    FileSecretManager.stop fuel (sm, w) = (Returned tt, s1) ->
    FileSecretManager.wif (fst s1) = None /\
    exists (w0 w1 : W) (r : response),
      requests_get "http://google.com" w0 = (Returned r, w1) /\
      os_path_exists (FileSecretManager.path_to_secret sm) w1 = (Returned false, snd s1).
Proof.
  intros fuel sm w s1 Hsafe.
  unfold FileSecretManager.stop, FileSecretManager.set_wif, bind, get_self, set_self,
    in_world, ret. cbn. rewrite Hsafe. cbn.
  destruct (check_internet_on fuel (FileSecretManager.path_to_secret sm) w)
    as [[b | e |] w2] eqn:Eon; cbn; try discriminate.
  apply check_internet_on_returns in Eon as (_ & w0 & w1 & r & Hreq & Hexists).
  intros [= <-]. cbn. split; [reflexivity |]. exists w0, w1, r. split; assumption.
Qed.

(** X20. Without safe mode, a scoped session that signs a message with a
    bitcoin signer makes no request to the network and no poll: it reads
    the key file once, signs with the stripped content of the file as key,
    and gives the signature; after it the manager holds no key. *)
Theorem plain_session_signs_with_file_key :
  forall (fuel : nat) (sm : FileSecretManager.t) (s : BitcoinSigner.t)
         (message_to_sign content signature : string) (w w1 : W),
    FileSecretManager.safe_mode sm = false ->
    FileSecretManager.signer_ sm = Some (BitcoinSigner s) ->
    read_file (FileSecretManager.path_to_secret sm) w = (Returned content, w1) ->
    SignMessage (Some (py_strip content)) (new_BitcoinMessage message_to_sign)
    = Returned signature ->
    FinalizableSigner.with_FinalizableSigner fuel
      (FileSecretManager.sign_message message_to_sign) (sm, w) =
    (Returned (Some signature),
     (FileSecretManager.mk (Some (BitcoinSigner s)) None
        (FileSecretManager.path_to_secret sm) false
        (FileSecretManager.issuing_address sm), w1)).
Proof.
  intros fuel sm s message_to_sign content signature w w1 Hsafe Hsigner Hread Hsign.
  unfold FinalizableSigner.with_FinalizableSigner, with_statement,
    FinalizableSigner.enter, FinalizableSigner.exit,
    FileSecretManager.start, FileSecretManager.stop, FileSecretManager.sign_message,
    FileSecretManager.set_wif, BitcoinSigner.sign_message,
    bind, get_self, set_self, in_world, import_key, lift, ret.
  cbn. rewrite Hsafe. cbn. unfold bind. rewrite Hread. cbn. rewrite Hsigner. cbn.
  rewrite Hsign. cbn. rewrite Hsafe. reflexivity.
Qed.

End SafeMode.

Section Managers.
Context `{Libs} {W : Type} `{Outside W}.

(** X21. The manager that [initialize_signer] returns holds no key yet,
    reads its key at the path joined from the medium and the file name of
    the configuration, and takes over its safe mode and issuing address.
    Its signer follows the type of the chain: a bitcoin signer for the
    configured pycoin chain, an ethereum signer with the chain identifier
    of the chain (1, 3 or none), no signer at all for the mock chain.  Only
    the set-up of a bitcoin signer can make [initialize_signer] fail. *)
Theorem initialize_signer_manager :
  forall cfg : app_config,
    (forall sm : FileSecretManager.t,
        initialize_signer cfg = Returned sm ->
        FileSecretManager.wif sm = None /\
        FileSecretManager.path_to_secret sm = os_path_join (usb_name cfg) (key_file cfg) /\
        FileSecretManager.safe_mode sm = cfg_safe_mode cfg /\
        FileSecretManager.issuing_address sm = cfg_issuing_address cfg /\
        match blockchain_type (chain cfg) with
        | bitcoin =>
            exists s, FileSecretManager.signer_ sm = Some (BitcoinSigner s) /\
                      BitcoinSigner.bitcoin_chain s = bitcoin_chain_for_pycoin cfg
        | ethereum =>
            exists s, FileSecretManager.signer_ sm = Some (EthereumSigner s) /\
                      EthereumSigner.ethereum_chain s = chain cfg /\
                      EthereumSigner.netcode s =
                      match chain cfg with
                      | ethereum_mainnet => Some 1
                      | ethereum_ropsten => Some 3
                      | _ => None
                      end
        | mock => FileSecretManager.signer_ sm = None
        end) /\
    (blockchain_type (chain cfg) <> bitcoin ->
     exists sm, initialize_signer cfg = Returned sm).
Proof.
  intros cfg. unfold initialize_signer, FileSecretManager.init. split.
  - intros sm.
    destruct (chain cfg) eqn:Echain; simpl.
    1, 2: unfold BitcoinSigner.init;
      destruct (chain_to_bitcoin_network (bitcoin_chain_for_pycoin cfg)) as [net | e |];
      try discriminate;
      destruct (wif_prefix_for_netcode net) as [prefixes | e |]; try discriminate;
      intros [= <-]; simpl; repeat split; eexists; split; reflexivity.
    + intros [= <-]. simpl. repeat split.
    + intros [= <-]. simpl. repeat split. eexists. repeat split.
    + intros [= <-]. simpl. repeat split. eexists. repeat split.
  - intros Hkind. destruct (chain cfg) eqn:Echain; simpl in *; try congruence;
      eexists; reflexivity.
Qed.

(** X22. For the mock chain [initialize_signer] returns a manager without
    signer, and such a manager cannot sign: whether it holds a key or not,
    [sign_message] and [sign_transaction] raise [AttributeError] and leave
    the manager and the world as they are. *)
Theorem mock_chain_manager_cannot_sign :
  forall cfg : app_config,
    chain cfg = mockchain ->
    exists sm : FileSecretManager.t,
      initialize_signer cfg = Returned sm /\
      forall (key : option string) (w : W) (message_to_sign : string) (tx : signable),
        let held :=
          FileSecretManager.mk (FileSecretManager.signer_ sm) key
            (FileSecretManager.path_to_secret sm) (FileSecretManager.safe_mode sm)
            (FileSecretManager.issuing_address sm) in
        FileSecretManager.sign_message message_to_sign (held, w) =
        (Raised (AttributeError "'NoneType' object has no attribute 'sign_message'"),
         (held, w)) /\
        FileSecretManager.sign_transaction tx (held, w) =
        (Raised (AttributeError "'NoneType' object has no attribute 'sign_transaction'"),
         (held, w)).
Proof.
  intros cfg Hmock. unfold initialize_signer. rewrite Hmock. simpl.
  eexists. split; [reflexivity |].
  intros key w message_to_sign tx. split; reflexivity.
Qed.

(** X23. The ethereum [sign_transaction] never raises for a transaction
    object and leaves the world as it was.  When [Transaction.sign],
    [rlp.encode] and [encode_hex] all return, the caller gets the hex text
    that [encode_hex] made of the encoding of the signed transaction; when
    one of the three raises, the caller gets the error dict that carries
    that very exception.  For anything that is not a transaction object it
    raises [UnableToSignTxError]. *)
Theorem ethereum_sign_transaction_outcomes :
  forall (self : EthereumSigner.t) (wif : option string) (w : W),
    (forall tx : EthTransaction,
        let outcome :=
          EthereumSigner.sign_transaction self wif (EthereumTransaction tx) w in
        (forall (signed_tx : EthTransaction) (raw_tx : bytes) (raw_tx_hex : string),
            eth_sign tx wif (EthereumSigner.netcode self) = Returned signed_tx ->
            rlp_encode signed_tx = Returned raw_tx ->
            encode_hex raw_tx = Returned raw_tx_hex ->
            outcome = (Returned (RawTxHex raw_tx_hex), w)) /\
        (forall e : exn,
            eth_sign tx wif (EthereumSigner.netcode self) = Raised e ->
            outcome = (Returned (ErrorDict e), w)) /\
        (forall (signed_tx : EthTransaction) (e : exn),
            eth_sign tx wif (EthereumSigner.netcode self) = Returned signed_tx ->
            rlp_encode signed_tx = Raised e ->
            outcome = (Returned (ErrorDict e), w)) /\
        (forall (signed_tx : EthTransaction) (raw_tx : bytes) (e : exn),
            eth_sign tx wif (EthereumSigner.netcode self) = Returned signed_tx ->
            rlp_encode signed_tx = Returned raw_tx ->
            encode_hex raw_tx = Raised e ->
            outcome = (Returned (ErrorDict e), w)) /\
        (forall e : exn, fst outcome <> Raised e) /\
        snd outcome = w) /\
    (forall tx : Tx,
        EthereumSigner.sign_transaction self wif (PycoinTx tx) w =
        (Raised (UnableToSignTxError "You are trying to sign a non transaction type"), w)) /\
    (forall v : pyval,
        EthereumSigner.sign_transaction self wif (OtherObject v) w =
        (Raised (UnableToSignTxError "You are trying to sign a non transaction type"), w)).
Proof.
  intros self wif w. split; [| split; intros; reflexivity].
  intros tx outcome. subst outcome.
  unfold EthereumSigner.sign_transaction, try_except, bind, lift, ret.
  split; [| split; [| split; [| split; [| split]]]].
  - intros signed_tx raw_tx raw_tx_hex -> -> ->. reflexivity.
  - intros e ->. reflexivity.
  - intros signed_tx e -> ->. reflexivity.
  - intros signed_tx raw_tx e -> -> ->. reflexivity.
  - intros e.
    destruct (eth_sign tx wif (EthereumSigner.netcode self)) as [signed_tx | e1 |];
      [| simpl; discriminate | simpl; discriminate].
    destruct (rlp_encode signed_tx) as [raw_tx | e2 |];
      [| simpl; discriminate | simpl; discriminate].
    destruct (encode_hex raw_tx) as [raw_tx_hex | e3 |]; simpl; discriminate.
  - destruct (eth_sign tx wif (EthereumSigner.netcode self)) as [signed_tx | e1 |];
      [| reflexivity | reflexivity].
    destruct (rlp_encode signed_tx) as [raw_tx | e2 |]; [| reflexivity | reflexivity].
    destruct (encode_hex raw_tx) as [raw_tx_hex | e3 |]; reflexivity.
Qed.

(** X24. Before any signature is checked, [verify_signature] lets through
    what goes wrong with the document: the exception of a file that cannot
    be read or parsed, [KeyError] for a JSON object without the field
    [signature], [TypeError] for a document that is not a JSON object.  In
    none of these cases does it raise [UnverifiedSignatureError] or
    return. *)
Theorem verify_signature_bad_document :
  forall (uid signed_cert_file_name issuing_address : string) (w w1 : W),
    (forall e : exn,
        read_file signed_cert_file_name w = (Raised e, w1) ->
        verify_signature uid signed_cert_file_name issuing_address w = (Raised e, w1)) /\
    (forall content : string,
        read_file signed_cert_file_name w = (Returned content, w1) ->
        (forall e : exn,
            json_loads content = Raised e ->
            verify_signature uid signed_cert_file_name issuing_address w = (Raised e, w1)) /\
        (forall d : list (string * pyval),
            json_loads content = Returned (PyDict d) ->
            assoc "signature" d = None ->
            verify_signature uid signed_cert_file_name issuing_address w
            = (Raised (KeyError "signature"), w1)) /\
        (forall doc : pyval,
            json_loads content = Returned doc ->
            (forall d, doc <> PyDict d) ->
            verify_signature uid signed_cert_file_name issuing_address w
            = (Raised (TypeError "object is not subscriptable by a str"), w1))).
Proof.
  intros uid file address w w1.
  unfold verify_signature, py_getitem, bind, lift, raise. split.
  - intros e ->. reflexivity.
  - intros content ->. repeat split.
    + intros e ->. reflexivity.
    + intros d -> ->. reflexivity.
    + intros doc -> Hnot. destruct doc as [| b | n | s | l | d]; try reflexivity.
      exfalso. apply (Hnot d). reflexivity.
Qed.

(** X25. [verify_signature] reads nothing of the document but its field
    [signature]: two certificate files whose documents have the same
    signature give the same result for the same identifier and address,
    whatever else they hold, a field [uid] included. *)
Theorem verify_signature_reads_signature_only :
  forall (uid file1 file2 issuing_address content1 content2 : string)
         (d1 d2 : list (string * pyval)) (w w1 w2 : W),
    read_file file1 w = (Returned content1, w1) ->
    read_file file2 w = (Returned content2, w2) ->
    json_loads content1 = Returned (PyDict d1) ->
    json_loads content2 = Returned (PyDict d2) ->
    assoc "signature" d1 = assoc "signature" d2 ->
    fst (verify_signature uid file1 issuing_address w) =
    fst (verify_signature uid file2 issuing_address w).
Proof.
  intros uid file1 file2 address content1 content2 d1 d2 w w1 w2 Hr1 Hr2 Hj1 Hj2 Hsig.
  unfold verify_signature, verify_message, py_getitem, bind, lift, ret, raise.
  rewrite Hr1, Hr2, Hj1, Hj2, Hsig.
  destruct (assoc "signature" d2) as [signature |]; [| reflexivity].
  destruct (VerifyMessage address (new_BitcoinMessage uid) signature) as [[|] | e |];
    reflexivity.
Qed.

End Managers.

Lemma initial_connectors_chains_witness :
  is_Some (@initial_connectors Demo.world [] [] (Demo.lister "insight" (Returned []))
             (Demo.lister "chain.so" (Returned [])) (Demo.lister "chain.so" (Returned []))
             !! ethereum_ropsten) /\
  ~ is_Some (@initial_connectors Demo.world [] [] (Demo.lister "insight" (Returned []))
               (Demo.lister "chain.so" (Returned [])) (Demo.lister "chain.so" (Returned []))
               !! mockchain).
Proof.
  split.
  - apply (@initial_connectors_chains Demo.world). discriminate.
  - intros Hsome. apply (@initial_connectors_chains Demo.world) in Hsome.
    apply Hsome. reflexivity.
Defined.

Lemma safe_start_reads_key_offline_witness :
  exists (w0 w1 w2 : Demo.world) (msg content : string),
    requests_get "http://google.com" w0 = (Raised (RequestException msg), w1) /\
    os_path_exists "/media/usb/pk.txt" w1 = (Returned true, w2) /\
    read_file "/media/usb/pk.txt" w2 =
    (Returned content,
     snd (snd (FileSecretManager.start 3
                 (Demo.manager true,
                  Demo.desk [(true, true); (false, true); (true, false)])))) /\
    FileSecretManager.wif
      (fst (snd (FileSecretManager.start 3
                   (Demo.manager true,
                    Demo.desk [(true, true); (false, true); (true, false)]))))
    = Some (py_strip content).
Proof.
  apply (@safe_start_reads_key_offline Demo.libs Demo.world Demo.outside 3
           (Demo.manager true) (Demo.desk [(true, true); (false, true); (true, false)])
           _ eq_refl).
  reflexivity.
Defined.

Lemma safe_stop_waits_until_online_witness :
  FileSecretManager.wif
    (fst (snd (FileSecretManager.stop 2
                 (Demo.manager true, Demo.desk [(false, true); (true, false)]))))
  = None /\
  exists (w0 w1 : Demo.world) (r : response),
    requests_get "http://google.com" w0 = (Returned r, w1) /\
    os_path_exists "/media/usb/pk.txt" w1 =
    (Returned false,
     snd (snd (FileSecretManager.stop 2
                 (Demo.manager true, Demo.desk [(false, true); (true, false)])))).
Proof.
  apply (@safe_stop_waits_until_online Demo.world Demo.outside 2
           (Demo.manager true) (Demo.desk [(false, true); (true, false)]) _ eq_refl).
  reflexivity.
Defined.

Lemma plain_session_signs_with_file_key_witness :
  FinalizableSigner.with_FinalizableSigner 0 (FileSecretManager.sign_message "abc123")
    (Demo.manager false, Demo.desk [])
  = (Returned (Some "KEYabc123"),
     (Demo.manager false, Demo.log (Demo.Read "/media/usb/pk.txt") (Demo.desk []))).
Proof.
  apply (@plain_session_signs_with_file_key Demo.libs Demo.world Demo.outside 0
           (Demo.manager false) (BitcoinSigner.mk bitcoin_mainnet []) "abc123" "KEY"
           "KEYabc123" (Demo.desk []) (Demo.log (Demo.Read "/media/usb/pk.txt") (Demo.desk []))
           eq_refl eq_refl eq_refl eq_refl).
Defined.

Lemma initialize_signer_manager_witness :
  exists s,
    initialize_signer Scenario.ethereum_config =
    Returned (FileSecretManager.mk (Some (EthereumSigner s)) None "/media/usb/pk.txt"
                false None) /\
    EthereumSigner.netcode s = Some 1.
Proof.
  destruct (@initialize_signer_manager Demo.libs Scenario.ethereum_config)
    as [Hfields Hreturns].
  destruct (Hreturns ltac:(discriminate)) as (sm & Hsm).
  destruct (Hfields sm Hsm) as (Hwif & Hpath & Hsafe & Haddress & s & Hsigner & _ & Hcode).
  exists s. split; [| exact Hcode].
  rewrite Hsm. destruct sm as [signer0 wif0 path0 safe0 address0]. simpl in *.
  rewrite Hwif, Hpath, Hsafe, Haddress, Hsigner. reflexivity.
Defined.

Lemma mock_chain_manager_cannot_sign_witness :
  exists sm : FileSecretManager.t,
    initialize_signer Scenario.mock_config = Returned sm /\
    FileSecretManager.sign_transaction (PycoinTx Demo.empty_tx)
      (FileSecretManager.mk (FileSecretManager.signer_ sm) (Some "KEY")
         (FileSecretManager.path_to_secret sm) (FileSecretManager.safe_mode sm)
         (FileSecretManager.issuing_address sm), Demo.quiet)
    = (Raised (AttributeError "'NoneType' object has no attribute 'sign_transaction'"),
       (FileSecretManager.mk (FileSecretManager.signer_ sm) (Some "KEY")
          (FileSecretManager.path_to_secret sm) (FileSecretManager.safe_mode sm)
          (FileSecretManager.issuing_address sm), Demo.quiet)).
Proof.
  destruct (@mock_chain_manager_cannot_sign Demo.libs Demo.world Scenario.mock_config
              eq_refl) as (sm & Hsm & Hsign).
  exists sm. split; [exact Hsm |].
  apply (Hsign (Some "KEY") Demo.quiet "abc123" (PycoinTx Demo.empty_tx)).
Defined.

Lemma ethereum_sign_transaction_outcomes_witness :
  @EthereumSigner.sign_transaction Demo.libs Demo.world
    (EthereumSigner.init ethereum_mainnet) (Some "key")
    (EthereumTransaction Demo.transfer) Demo.quiet
  = (Returned (RawTxHex "f8"), Demo.quiet) /\
  @EthereumSigner.sign_transaction Scenario.plain_libs Demo.world
    (EthereumSigner.init ethereum_mainnet) (Some "key")
    (EthereumTransaction Demo.transfer) Demo.quiet
  = (Returned (ErrorDict (ValueError "invalid key")), Demo.quiet).
Proof.
  split.
  - destruct (@ethereum_sign_transaction_outcomes Demo.libs Demo.world
                (EthereumSigner.init ethereum_mainnet) (Some "key") Demo.quiet)
      as [Htx _].
    destruct (Htx Demo.transfer) as [Hhex _].
    apply (Hhex (mkEthTransaction 0 20 21000 [] 0 [] 37 1 1) [] "f8"); reflexivity.
  - destruct (@ethereum_sign_transaction_outcomes Scenario.plain_libs Demo.world
                (EthereumSigner.init ethereum_mainnet) (Some "key") Demo.quiet)
      as [Htx _].
    destruct (Htx Demo.transfer) as (_ & Hsign & _).
    apply (Hsign (ValueError "invalid key")). reflexivity.
Defined.

Lemma verify_signature_bad_document_witness :
  @verify_signature Scenario.plain_libs Demo.world Demo.outside "abc123" "empty.json"
    "1Addr" Scenario.archive
  = (Raised (KeyError "signature"), Demo.log (Demo.Read "empty.json") Scenario.archive) /\
  @verify_signature Scenario.plain_libs Demo.world Demo.outside "abc123" "missing.json"
    "1Addr" Scenario.archive
  = (Raised (OSError "No such file or directory"),
     Demo.log (Demo.Read "missing.json") Scenario.archive).
Proof.
  split.
  - destruct (@verify_signature_bad_document Scenario.plain_libs Demo.world Demo.outside
                "abc123" "empty.json" "1Addr" Scenario.archive
                (Demo.log (Demo.Read "empty.json") Scenario.archive)) as [_ Hread].
    destruct (Hread "" eq_refl) as (_ & Hmissing & _).
    apply (Hmissing []); reflexivity.
  - destruct (@verify_signature_bad_document Scenario.plain_libs Demo.world Demo.outside
                "abc123" "missing.json" "1Addr" Scenario.archive
                (Demo.log (Demo.Read "missing.json") Scenario.archive)) as [Hunreadable _].
    apply Hunreadable. reflexivity.
Defined.

Lemma verify_signature_reads_signature_only_witness :
  fst (@verify_signature Scenario.plain_libs Demo.world Demo.outside "abc123" "cert.json"
         "1Addr" Scenario.archive) =
  fst (@verify_signature Scenario.plain_libs Demo.world Demo.outside "abc123" "copy.json"
         "1Addr" Scenario.archive) /\
  fst (@verify_signature Scenario.plain_libs Demo.world Demo.outside "abc123" "copy.json"
         "1Addr" Scenario.archive) = Returned tt.
Proof.
  split; [| reflexivity].
  apply (@verify_signature_reads_signature_only Scenario.plain_libs Demo.world Demo.outside
           "abc123" "cert.json" "copy.json" "1Addr" "1Addrabc123" "copy"
           [("uid", PyStr "1Addrabc123"); ("signature", PyStr "1Addrabc123")]
           [("uid", PyStr "zzz"); ("signature", PyStr "1Addrabc123")]
           Scenario.archive
           (Demo.log (Demo.Read "cert.json") Scenario.archive)
           (Demo.log (Demo.Read "copy.json") Scenario.archive));
    reflexivity.
Defined.

Lemma etherscan_outage_gives_sentinels_witness :
  (let run :=
     EthereumServiceProviderConnector.get_address_nonce
       (initial_connectors [] [] (Demo.lister "insight" (Returned []))
          (Demo.lister "chain.so" (Returned [])) (Demo.lister "chain.so" (Returned [])))
       (EthereumServiceProviderConnector.mk ethereum_mainnet None false) "0xabc"
       (Scenario.answering Scenario.server_error) in
   fst run = Returned 0) /\
  (let run :=
     EthereumServiceProviderConnector.broadcast_tx
       (initial_connectors [] [] (Demo.lister "insight" (Returned []))
          (Demo.lister "chain.so" (Returned [])) (Demo.lister "chain.so" (Returned [])))
       (EthereumServiceProviderConnector.mk ethereum_mainnet None false) "f8" Demo.quiet in
   fst run = Returned (PyStr "0xfail")).
Proof.
  split; cbv zeta.
  - destruct (@etherscan_outage_gives_sentinels Demo.libs Demo.world Demo.outside
                (initial_connectors [] [] (Demo.lister "insight" (Returned []))
                   (Demo.lister "chain.so" (Returned []))
                   (Demo.lister "chain.so" (Returned [])))
                ethereum_mainnet "https://api.etherscan.io/api" None
                (Returned Scenario.server_error)
                (Scenario.answering Scenario.server_error)
                (Demo.log
                   (Demo.Get
                      ("https://api.etherscan.io/api?module=proxy&action=eth_getTransactionCount"
                         +:+ "&address=0xabc&tag=latest"))
                   (Scenario.answering Scenario.server_error))
                eq_refl ltac:(discriminate)) as (_ & Hnonce & _).
    rewrite (Hnonce "0xabc" eq_refl). reflexivity.
  - destruct (@etherscan_outage_gives_sentinels Demo.libs Demo.world Demo.outside
                (initial_connectors [] [] (Demo.lister "insight" (Returned []))
                   (Demo.lister "chain.so" (Returned []))
                   (Demo.lister "chain.so" (Returned [])))
                ethereum_mainnet "https://api.etherscan.io/api" None
                (Raised (RequestException "Connection refused"))
                Demo.quiet
                (Demo.log
                   (Demo.Post
                      "https://api.etherscan.io/api?module=proxy&action=eth_sendRawTransaction"
                      (FormData [("hex", "f8")]))
                   Demo.quiet)
                eq_refl I) as (_ & _ & Hbroadcast).
    rewrite (Hbroadcast "f8" eq_refl). reflexivity.
Defined.
